(** * Terraform provider for IBM Cloud: VPN server routes, image listing and
      Power data sources

    A shallow embedding of the handlers of [ibm_is_vpn_server_route],
    of [imageList] (data source [ibm_is_images]) and of the two Power data
    sources, with the properties the specification states about them.

    Conventions of the embedding:
    - a Go pointer is an [option]; dereferencing [None] is a run-time panic;
    - a Go [error] is represented by its message;
    - the cloud behind the SDK client is an abstract world [W], threaded
      through every SDK call; [log.Printf] has no effect on the model;
    - the monad [M] carries the resource data [d], the world, a logical clock
      and the list of SDK requests issued so far. *)

From Stdlib Require Import ZArith String Ascii List Lia.
From stdpp Require Import base option list gmap strings.

Set Warnings "-register-all".
Open Scope string_scope.
Open Scope Z_scope.

(** A Go [error], by its message ([err.Error()]). *)
Definition error := string.

(** ** Package [time] *)
Module time.
(** [time.Duration]: a count of nanoseconds. *)
Definition Duration := Z.
Definition Millisecond : Duration := 1000000.
Definition Second : Duration := 1000 * Millisecond.
Definition Minute : Duration := 60 * Second.
End time.

(** ** Package [strings], for a separator of one character *)
Module gostrings.

(** [strings.Contains(s, sep)]. *)
Fixpoint Contains (s : string) (sep : ascii) : bool :=
  match s with
  | EmptyString => false
  | String c rest => if Ascii.eqb c sep then true else Contains rest sep
  end.

(** [strings.Split(s, sep)]: the pieces of [s] between the occurrences of
    [sep]; a string without [sep] is its own single piece. *)
Fixpoint Split (s : string) (sep : ascii) : list string :=
  match s with
  | EmptyString => [EmptyString]
  | String c rest =>
      if Ascii.eqb c sep then EmptyString :: Split rest sep
      else match Split rest sep with
           | [] => [String c EmptyString]
           | piece :: pieces => String c piece :: pieces
           end
  end.

End gostrings.

(** ** Package [flex]: identifiers and provider errors *)
Module flex.

(** Modelled from the spec: [flex.SepIdParts] is not among the sources.
    The spec has a composite ID decompose into its constituents by splitting
    on the separator; the callers handle a failure, which is taken to be an
    ID that does not contain the separator. *)
Definition SepIdParts (id : string) (separator : ascii) : list string * option error :=
  if gostrings.Contains id separator
  then (gostrings.Split id separator, None)
  else ([], Some ("The given id " +:+ id +:+ " does not contain the separator")).

(** Modelled from the spec: the provider-specific problem object of [flex]
    is not among the sources.  The spec has it carry a resource name, an
    action and a sub-step label, next to the error it wraps. *)
Record TerraformProblem := {
  Summary : string;
  Resource : string;
  Operation : string;
  Component : string
}.

(** Modelled from the spec: [flex.DiscriminatedTerraformErrorf] records the
    resource name, the action and the sub-step label given by the caller. *)
Definition DiscriminatedTerraformErrorf
    (err : error) (summary resourceName operation component : string) : TerraformProblem :=
  {| Summary := summary; Resource := resourceName;
     Operation := operation; Component := component |}.

(** Modelled from the spec: [flex.TerraformErrorf] takes no sub-step label
    from its caller; the problem it builds carries the empty one. *)
Definition TerraformErrorf
    (err : error) (summary resourceName operation : string) : TerraformProblem :=
  DiscriminatedTerraformErrorf err summary resourceName operation "".

(** A problem used as a Go [error]. *)
Definition Error (p : TerraformProblem) : error := Summary p.

End flex.

(** ** Package [diag] of the plugin SDK *)
Module diag.

(** A diagnostic is either plain (built from an error message alone) or
    made from a provider problem. *)
Inductive Diagnostic :=
| Plain (summary : string)
| Problem (p : flex.TerraformProblem).

(** [diag.Diagnostics]; [nil] reports success. *)
Definition Diagnostics := list Diagnostic.

Definition FromErr (err : error) : Diagnostics := [Plain err].
Definition Errorf (msg : string) : Diagnostics := [Plain msg].

(** The method [GetDiag] of a [flex.TerraformProblem]. *)
Definition GetDiag (p : flex.TerraformProblem) : Diagnostics := [Problem p].

(** The diagnostic is a provider problem for this resource and action. *)
Definition carries (resourceName operation : string) (dg : Diagnostic) : Prop :=
  match dg with
  | Plain _ => False
  | Problem p => flex.Resource p = resourceName /\ flex.Operation p = operation
  end.

(** The diagnostic is a provider problem with a sub-step label. *)
Definition labelled (dg : Diagnostic) : Prop :=
  match dg with
  | Plain _ => False
  | Problem p => flex.Component p <> ""
  end.

End diag.

(** ** Package [schema] of the plugin SDK: resource data *)
Module schema.

(** The values of [interface{}] that the handlers read and store. *)
Inductive value :=
| VNil
| VStr (s : string)
| VBool (b : bool)
| VList (l : list value)
| VMap (m : gmap string value).

Inductive TimeoutKey := TimeoutCreate | TimeoutUpdate | TimeoutDelete.

(** [schema.ResourceData]: the ID, the attributes, the keys the plan
    changes, the configured timeouts, and the keys whose [Set] the schema
    refuses (with the error [Set] then returns). *)
Record ResourceData := {
  rd_id : string;
  rd_attrs : gmap string value;
  rd_changed : gset string;
  rd_timeout : TimeoutKey -> time.Duration;
  rd_refuse : string -> option error
}.

Definition Id (d : ResourceData) : string := rd_id d.

Definition SetId (id : string) (d : ResourceData) : ResourceData :=
  {| rd_id := id; rd_attrs := rd_attrs d; rd_changed := rd_changed d;
     rd_timeout := rd_timeout d; rd_refuse := rd_refuse d |}.

(** The zero values of the schema types. *)
Definition is_zero (v : value) : bool :=
  match v with
  | VNil => true
  | VStr s => String.eqb s ""
  | VBool b => negb b
  | VList l => match l with [] => true | _ => false end
  | VMap _ => false
  end.

(** [d.GetOk(key)]: the value, when it is set to something else than the
    zero value. *)
Definition GetOk (d : ResourceData) (key : string) : option value :=
  match rd_attrs d !! key with
  | Some v => if is_zero v then None else Some v
  | None => None
  end.

(** [d.Get(key).(string)] for a key of [TypeString]: the zero value when
    the key is unset. *)
Definition GetString (d : ResourceData) (key : string) : string :=
  match rd_attrs d !! key with
  | Some (VStr s) => s
  | _ => ""
  end.

(** [v.(string)] and [v.(bool)] on a value returned by [GetOk]. *)
Definition as_string (v : value) : string :=
  match v with VStr s => s | _ => "" end.
Definition as_bool (v : value) : bool :=
  match v with VBool b => b | _ => false end.

Definition HasChange (d : ResourceData) (key : string) : bool :=
  bool_decide (key ∈ rd_changed d).

Definition Timeout (d : ResourceData) (k : TimeoutKey) : time.Duration :=
  rd_timeout d k.

(** [d.Set(key, v)]: stores the value, or returns the schema's error and
    stores nothing. *)
Definition Set_ (key : string) (v : value) (d : ResourceData) : ResourceData * option error :=
  match rd_refuse d key with
  | Some e => (d, Some e)
  | None =>
      ({| rd_id := rd_id d; rd_attrs := <[key := v]> (rd_attrs d);
          rd_changed := rd_changed d; rd_timeout := rd_timeout d;
          rd_refuse := rd_refuse d |}, None)
  end.

(** A [*string] handed to [Set]. *)
Definition of_ptr (p : option string) : value :=
  match p with Some s => VStr s | None => VNil end.

End schema.

(** ** Package [vpcv1]: the types of the VPC SDK the handlers use *)
Module vpcv1.

(** [core.DetailedResponse], as far as the handlers look at it. *)
Record DetailedResponse := { StatusCode : Z }.

(** What an SDK operation returns: the result, the response and the error. *)
Record reply (T : Type) := {
  result : option T;
  response : option DetailedResponse;
  err : option error
}.
Arguments result {T}.
Arguments response {T}.
Arguments err {T}.

Record VPNServerRouteLifecycleReason := {
  lr_Code : option string;
  lr_Message : option string;
  lr_MoreInfo : option string
}.

Record VPNServerRouteHealthReason := {
  hr_Code : option string;
  hr_Message : option string;
  hr_MoreInfo : option string
}.

(** [vpcv1.VPNServerRoute]; [CreatedAt] is kept as the text
    [flex.DateTimeToString] renders; a [nil] slice is [None]. *)
Record VPNServerRoute := {
  Action : option string;
  CreatedAt : option string;
  Destination : option string;
  HealthReasons : option (list VPNServerRouteHealthReason);
  HealthState : option string;
  Href : option string;
  ID : option string;
  LifecycleReasons : option (list VPNServerRouteLifecycleReason);
  LifecycleState : option string;
  Name : option string;
  ResourceType : option string
}.

Record CreateVPNServerRouteOptions := {
  c_VPNServerID : option string;
  c_Destination : option string;
  c_Action : option string;
  c_Name : option string
}.

(** The path parameters of the get, update and delete operations. *)
Record GetVPNServerRouteOptions := { g_VPNServerID : option string; g_ID : option string }.
Record DeleteVPNServerRouteOptions := { d_VPNServerID : option string; d_ID : option string }.
Record UpdateVPNServerRouteOptions := {
  u_VPNServerID : option string;
  u_ID : option string;
  u_VPNServerRoutePatch : gmap string schema.value
}.

Record VPNServerRoutePatch := { p_Name : option string }.

(** [AsPatch]: the fields of the patch that are set. *)
Definition AsPatch (p : VPNServerRoutePatch) : gmap string schema.value :=
  match p_Name p with
  | Some n => {[ "name" := schema.VStr n ]}
  | None => ∅
  end.

(** *** Images *)

Record ImageStatusReason := {
  sr_Code : option string;
  sr_Message : option string;
  sr_MoreInfo : option string
}.

Record ResourceGroupReference := {
  rg_Href : option string;
  rg_ID : option string;
  rg_Name : option string
}.

Record OperatingSystem := {
  os_Architecture : option string;
  os_DedicatedHostOnly : option bool;
  os_DisplayName : option string;
  os_Family : option string;
  os_Href : option string;
  os_Name : option string;
  os_Vendor : option string;
  os_Version : option string
}.

Record ImageFileChecksums := { Sha256 : option string }.
Record ImageFile := { Checksums : option ImageFileChecksums }.
Record EncryptionKeyReference := { ek_CRN : option string }.
Record VolumeReference := { vol_ID : option string }.
Record ImageCatalogOffering := { Managed : option bool; Version : option string }.
Record ImageRemote := { Account : option string }.
Record ImageAllowedUse := {
  ApiVersion : option string;
  BareMetalServer : option string;
  Instance : option string
}.

(** [vpcv1.Image], with the fields [imageList] reads. *)
Record Image := {
  im_AllowedUse : option ImageAllowedUse;
  im_CRN : option string;
  im_CatalogOffering : option ImageCatalogOffering;
  im_Encryption : option string;
  im_EncryptionKey : option EncryptionKeyReference;
  im_File : option ImageFile;
  im_ID : option string;
  im_Name : option string;
  im_OperatingSystem : option OperatingSystem;
  im_Remote : option ImageRemote;
  im_ResourceGroup : option ResourceGroupReference;
  im_SourceVolume : option VolumeReference;
  im_Status : option string;
  im_StatusReasons : list ImageStatusReason;
  im_UserDataFormat : option string;
  im_Visibility : option string
}.

(** The link to the next page of a collection. *)
Record ImageCollectionNext := { n_Href : option string }.

Record ImageCollection := {
  Images : list Image;
  Next : option ImageCollectionNext
}.

Record ListImagesOptions := {
  l_Start : option string;
  l_ResourceGroupID : option string;
  l_Name : option string;
  l_RemoteAccountID : option string;
  l_Visibility : option string;
  l_UserDataFormat : option (list string)
}.

(** The SDK client over a cloud of type [W]. *)
Record VpcV1 (W : Type) := {
  ListImagesWithContext :
    ListImagesOptions -> W -> reply ImageCollection * W;
  CreateVPNServerRouteWithContext :
    CreateVPNServerRouteOptions -> W -> reply VPNServerRoute * W;
  GetVPNServerRouteWithContext :
    GetVPNServerRouteOptions -> W -> reply VPNServerRoute * W;
  UpdateVPNServerRouteWithContext :
    UpdateVPNServerRouteOptions -> W -> reply VPNServerRoute * W;
  DeleteVPNServerRouteWithContext :
    DeleteVPNServerRouteOptions -> W -> (option DetailedResponse * option error) * W
}.
Arguments ListImagesWithContext {W}.
Arguments CreateVPNServerRouteWithContext {W}.
Arguments GetVPNServerRouteWithContext {W}.
Arguments UpdateVPNServerRouteWithContext {W}.
Arguments DeleteVPNServerRouteWithContext {W}.

End vpcv1.

(** ** Package [conns]: the shared connection state *)
Module conns.

(** [models.SSHKey] of the Power client. *)
Record SSHKey := {
  k_CreationDate : option string;
  k_Description : string;
  k_ID : string;
  k_Name : option string;
  k_PrimaryWorkspace : option bool;
  k_SSHKey : option string;
  k_Visibility : option string
}.

(** [models.SPPPlacementGroup] of the Power client. *)
Record SPPPlacementGroup := {
  pg_Crn : string;
  pg_ID : option string;
  pg_MemberSharedProcessorPools : list string;
  pg_Name : option string;
  pg_Policy : option string
}.

(** [ibmpisession.IBMPISession], by the two operations the Power data
    sources reach through the clients of package [instance]: each takes the
    cloud instance ID and the name or ID looked up. *)
Record IBMPISession (W : Type) := {
  SSHKeyGet : string -> string -> W -> (option SSHKey * option error) * W;
  SPPPlacementGroupGet : string -> string -> W -> (option SPPPlacementGroup * option error) * W
}.
Arguments SSHKeyGet {W}.
Arguments SPPPlacementGroupGet {W}.

(** [conns.ClientSession]: each accessor returns a client and an error.
    [GetGlobalTagsUsingCRN] stands for [flex.GetGlobalTagsUsingCRN(meta, crn,
    "", tagType)], which is not among the sources: the tags the tagging
    service of this session answers, and an error. *)
Record ClientSession (W : Type) := {
  VpcV1API : option (vpcv1.VpcV1 W) * option error;
  IBMPISession_ : option (IBMPISession W) * option error;
  GetGlobalTagsUsingCRN : string -> string -> W -> (schema.value * option error) * W
}.
Arguments VpcV1API {W}.
Arguments IBMPISession_ {W}.
Arguments GetGlobalTagsUsingCRN {W}.

End conns.

(** ** The monad of the handlers *)

(** How a run ends: with a value, with a Go run-time panic, or not within the
    steps allowed to a loop that has no bound of its own. *)
Inductive outcome (A : Type) : Type :=
| Done (a : A)
| Panic (reason : string)
| Diverge.
Arguments Done {A}.
Arguments Panic {A}.
Arguments Diverge {A}.

(** The SDK requests a handler issues, recorded in the order of issue. *)
Inductive Request :=
| ReqCreate (o : vpcv1.CreateVPNServerRouteOptions)
| ReqGet (o : vpcv1.GetVPNServerRouteOptions)
| ReqUpdate (o : vpcv1.UpdateVPNServerRouteOptions)
| ReqDelete (o : vpcv1.DeleteVPNServerRouteOptions)
| ReqListImages (o : vpcv1.ListImagesOptions).

Section Monad.
Context {W : Type}.

(** The state a handler runs in: the [*schema.ResourceData] it was handed,
    the cloud, the clock, and the requests issued so far. *)
Record St := {
  st_d : schema.ResourceData;
  st_world : W;
  st_now : time.Duration;
  st_trace : list Request
}.

Definition M (A : Type) : Type := St -> outcome (A * St).

Definition ret {A} (a : A) : M A := fun st => Done (a, st).

Definition bind {A B} (m : M A) (f : A -> M B) : M B := fun st =>
  match m st with
  | Done (a, st') => f a st'
  | Panic r => Panic r
  | Diverge => Diverge
  end.

Definition panic {A} (reason : string) : M A := fun _ => Panic reason.
Definition diverge {A} : M A := fun _ => Diverge.

(** Reading and updating the resource data behind the pointer [d]. *)
Definition get_d : M schema.ResourceData := fun st => Done (st_d st, st).
Definition modify_d (f : schema.ResourceData -> schema.ResourceData) : M unit := fun st =>
  Done (tt, {| st_d := f (st_d st); st_world := st_world st;
               st_now := st_now st; st_trace := st_trace st |}).

(** [d.Set(key, v)] in the monad. *)
Definition d_Set (key : string) (v : schema.value) : M (option error) := fun st =>
  let '(d', e) := schema.Set_ key v (st_d st) in
  Done (e, {| st_d := d'; st_world := st_world st;
              st_now := st_now st; st_trace := st_trace st |}).

(** The clock. *)
Definition now : M time.Duration := fun st => Done (st_now st, st).

(** Waiting for [time.After(dt)] while a timeout is due at [deadline]:
    [true] and [dt] later when the wait ends first, else [false] and at the
    deadline. *)
Definition sleepBefore (deadline dt : time.Duration) : M bool := fun st =>
  let dt := Z.max 0 dt in
  if deadline <=? st_now st + dt
  then Done (false, {| st_d := st_d st; st_world := st_world st;
                       st_now := Z.max (st_now st) deadline; st_trace := st_trace st |})
  else Done (true, {| st_d := st_d st; st_world := st_world st;
                      st_now := st_now st + dt; st_trace := st_trace st |}).

(** A call that reaches the cloud without going through the VPC client. *)
Definition effect {A} (op : W -> A * W) : M A := fun st =>
  let '(a, w') := op (st_world st) in
  Done (a, {| st_d := st_d st; st_world := w';
              st_now := st_now st; st_trace := st_trace st |}).

(** An SDK call: the request is recorded and the cloud answers. *)
Definition call {A} (rq : Request) (op : W -> A * W) : M A := fun st =>
  let '(a, w') := op (st_world st) in
  Done (a, {| st_d := st_d st; st_world := w';
              st_now := st_now st; st_trace := (st_trace st ++ [rq])%list |}).

(** Dereferencing a pointer. *)
Definition deref {A} (p : option A) : M A :=
  match p with
  | Some a => ret a
  | None => panic "invalid memory address or nil pointer dereference"
  end.

(** Indexing a slice. *)
Definition index {A} (l : list A) (i : nat) : M A :=
  match l !! i with
  | Some a => ret a
  | None => panic "index out of range"
  end.

End Monad.
Arguments St : clear implicits.
Arguments M : clear implicits.

Notation "'let*' x ':=' c 'in' k" := (bind c (fun x => k))
  (at level 10, x pattern, c at level 100, k at level 200).
Notation "c '>>' k" := (bind c (fun _ => k))
  (at level 100, k at level 200, right associativity).

(** ** Package [resource] of the plugin SDK: waiting for a state *)
Module resource.
Section StateChange.
Context {W R : Type}.

(** [resource.StateChangeConf] with the fields the helpers set.  [Refresh]
    returns the refreshed object as an [interface{}] ([None] is the [nil]
    interface), the state and the error. *)
Record StateChangeConf := {
  Pending : list string;
  Target : list string;
  Refresh : M W (option R * string * option error);
  Timeout : time.Duration;
  Delay : time.Duration;
  MinTimeout : time.Duration
}.

Definition TimeoutError : error := "timeout while waiting for state".
Definition NotFoundError : error := "couldn't find resource".
Definition UnexpectedStateError (state : string) : error := "unexpected state " +:+ state.

(** The default of [NotFoundChecks]. *)
Definition NotFoundChecks : nat := 20.

(** The wait before the next refresh: doubled from 100ms on, then raised to
    [MinTimeout] or capped at ten seconds. *)
Definition nextWait (conf : StateChangeConf) (wait : time.Duration) : time.Duration :=
  let w := 2 * (if wait =? 0 then 100 * time.Millisecond else wait) in
  if w <? MinTimeout conf then MinTimeout conf
  else if 10 * time.Second <? w then 10 * time.Second
  else w.

Definition inStates (state : string) (states : list string) : bool :=
  existsb (String.eqb state) states.

(** Modelled from the spec: the refresh loop of [WaitForState], which belongs
    to the plugin SDK and is not among the sources.  The spec has it call the
    get operation repeatedly until the reported state reaches a target value
    or the timeout elapses, sleeping between polls.  The timeout ends the
    wait at the deadline, also in the middle of a sleep.  A refresh that
    returns an error ends the wait with that error; a state that is neither
    a target nor pending ends it with an error as well. *)
Fixpoint refreshLoop (fuel : nat) (conf : StateChangeConf)
    (deadline wait : time.Duration) (notfoundTick : nat) : M W (option R * option error) :=
  match fuel with
  | O => diverge
  | S fuel' =>
      let* inTime := sleepBefore deadline wait in
      if negb inTime then ret (None, Some TimeoutError)
      else
        let* rf := Refresh conf in
        let '(res, currentState, err) := rf in
        match err with
        | Some e => ret (res, Some e)
        | None =>
            match res with
            | None =>
                if Nat.eqb (length (Target conf)) 0 then ret (res, None)
                else if Nat.ltb NotFoundChecks (S notfoundTick)
                     then ret (res, Some NotFoundError)
                     else refreshLoop fuel' conf deadline (nextWait conf wait) (S notfoundTick)
            | Some _ =>
                if inStates currentState (Target conf) then ret (res, None)
                else if inStates currentState (Pending conf)
                     then refreshLoop fuel' conf deadline (nextWait conf wait) 0%nat
                     else if Nat.ltb 0 (length (Pending conf))
                          then ret (res, Some (UnexpectedStateError currentState))
                          else refreshLoop fuel' conf deadline (nextWait conf wait) 0%nat
            end
        end
  end.

(** Every wait after the first lasts 200ms or more, so this many rounds
    reach the deadline. *)
Definition refreshBudget (conf : StateChangeConf) : nat :=
  Z.to_nat (Timeout conf / (200 * time.Millisecond)) + 2.

(** Modelled from the spec: [WaitForState] sleeps [Delay], then polls until a
    target state is reported or [Timeout] has elapsed since it started. *)
Definition WaitForState (conf : StateChangeConf) : M W (option R * option error) :=
  let* t0 := now in
  let deadline := t0 + Timeout conf in
  let* inTime := sleepBefore deadline (Delay conf) in
  if negb inTime then ret (None, Some TimeoutError)
  else refreshLoop (refreshBudget conf) conf deadline 0 0%nat.

End StateChange.
Arguments StateChangeConf : clear implicits.
End resource.

(** ** Package [vpc]: the resource [ibm_is_vpn_server_route] *)
Module vpc.
Import schema vpcv1.

Definition isVPNServerRouteStatusPending := "pending".
Definition isVPNServerRouteStatusUpdating := "updating".
Definition isVPNServerRouteStatusStable := "stable".
Definition isVPNServerRouteStatusFailed := "failed".
Definition isVPNServerRouteStatusDeleting := "deleting".
Definition isVPNServerRouteStatusDeleted := "deleted".

(** Modelled from the spec: the constants [isVPNServerStatusPending],
    [isVPNServerStatusStable] and [isVPNServerStatusDeleted] are declared in
    a file of package [vpc] that is not among the sources; they are the
    lifecycle states they are named after. *)
Definition isVPNServerStatusPending := "pending".
Definition isVPNServerStatusStable := "stable".
Definition isVPNServerStatusDeleted := "deleted".

(** Modelled from the spec: the keys of a flattened reason are declared in
    files of package [vpc] that are not among the sources; they are the
    attribute names [code], [message] and [more_info] of the schema of
    [lifecycle_reasons] and [health_reasons]. *)
Definition isInstanceLifecycleReasonsCode := "code".
Definition isInstanceLifecycleReasonsMessage := "message".
Definition isInstanceLifecycleReasonsMoreInfo := "more_info".
Definition isVolumeHealthReasonsCode := "code".
Definition isVolumeHealthReasonsMessage := "message".
Definition isVolumeHealthReasonsMoreInfo := "more_info".

(** The default timeouts of the resource. *)
Definition DefaultTimeout (k : TimeoutKey) : time.Duration := 10 * time.Minute.

Definition resourceVPNServerRouteFlattenLifecycleReasons
    (lifecycleReasons : list VPNServerRouteLifecycleReason) : list (gmap string value) :=
  fold_left
    (fun lifecycleReasonsList lr =>
       let currentLR : gmap string value := ∅ in
       match lr_Code lr, lr_Message lr with
       | Some code, Some message =>
           let currentLR := <[isInstanceLifecycleReasonsCode := VStr code]> currentLR in
           let currentLR := <[isInstanceLifecycleReasonsMessage := VStr message]> currentLR in
           let currentLR :=
             match lr_MoreInfo lr with
             | Some info => <[isInstanceLifecycleReasonsMoreInfo := VStr info]> currentLR
             | None => currentLR
             end in
           (lifecycleReasonsList ++ [currentLR])%list
       | _, _ => lifecycleReasonsList
       end)
    lifecycleReasons [].

Definition resourceVPNServerRouteFlattenHealthReasons
    (healthReasons : list VPNServerRouteHealthReason) : list (gmap string value) :=
  fold_left
    (fun healthReasonsList hr =>
       let currentHR : gmap string value := ∅ in
       match hr_Code hr, hr_Message hr with
       | Some code, Some message =>
           let currentHR := <[isVolumeHealthReasonsCode := VStr code]> currentHR in
           let currentHR := <[isVolumeHealthReasonsMessage := VStr message]> currentHR in
           let currentHR :=
             match hr_MoreInfo hr with
             | Some info => <[isVolumeHealthReasonsMoreInfo := VStr info]> currentHR
             | None => currentHR
             end in
           (healthReasonsList ++ [currentHR])%list
       | _, _ => healthReasonsList
       end)
    healthReasons [].

(** Modelled from the spec: [flex.DateTimeToString] is not among the sources;
    it renders the time, and a [nil] time as the empty string. *)
Definition DateTimeToString (dt : option string) : string := default "" dt.

Definition flattened (l : list (gmap string value)) : value := VList (VMap <$> l).

(** Modelled from the spec: the helper [vpcClient] of package [vpc] is not
    among the sources; it obtains the VPC client from the shared connection
    state. *)
Definition vpcClient {W} (meta : conns.ClientSession W) : option (VpcV1 W) * option error :=
  conns.VpcV1API meta.

Section VPNServerRoute.
Context {W : Type}.

(** The [Refresh] closure of [isWaitForVPNServerRouteStable]. *)
Definition isWaitForVPNServerRouteStable_Refresh (vpcClient : option (VpcV1 W))
    : M W (option (option VPNServerRoute) * string * option error) :=
  let* d := get_d in
  let '(parts, err) := flex.SepIdParts (Id d) "/" in
  match err with
  | Some e =>
      ret (None, "",
           Some (flex.Error (flex.DiscriminatedTerraformErrorf e e
                               "ibm_is_vpn_server_route" "wait" "sep-id-parts")))
  | None =>
      let* part0 := index parts 0 in
      let* part1 := index parts 1 in
      let getVPNServerRouteOptions := {| g_VPNServerID := Some part0; g_ID := Some part1 |} in
      let* client := deref vpcClient in
      let* r := call (ReqGet getVPNServerRouteOptions)
                     (GetVPNServerRouteWithContext client getVPNServerRouteOptions) in
      let vpnServerRoute := result r in
      match vpcv1.err r with
      | Some e =>
          let tfErr := flex.TerraformErrorf e ("GetVPNServerRouteWithContext failed: " +:+ e)
                         "ibm_is_vpn_server_route" "wait" in
          ret (Some vpnServerRoute, "", Some (flex.Error tfErr))
      | None =>
          let* route := deref vpnServerRoute in
          let* state := deref (LifecycleState route) in
          if (String.eqb state "stable" || String.eqb state "failed")%bool
          then ret (Some vpnServerRoute, state, None)
          else ret (Some vpnServerRoute, state, None)
      end
  end.

(** The [stateConf] of [isWaitForVPNServerRouteStable]. *)
Definition isWaitForVPNServerRouteStable_stateConf (vpcClient : option (VpcV1 W))
    (timeout : time.Duration) : resource.StateChangeConf W (option VPNServerRoute) :=
  {| resource.Pending := [isVPNServerStatusPending; isVPNServerRouteStatusUpdating];
     resource.Target := [isVPNServerStatusStable; isVPNServerRouteStatusFailed];
     resource.Refresh := isWaitForVPNServerRouteStable_Refresh vpcClient;
     resource.Timeout := timeout;
     resource.Delay := 10 * time.Second;
     resource.MinTimeout := 10 * time.Second |}.

Definition isWaitForVPNServerRouteStable (vpcClient : option (VpcV1 W))
    (timeout : time.Duration) : M W (option (option VPNServerRoute) * option error) :=
  resource.WaitForState (isWaitForVPNServerRouteStable_stateConf vpcClient timeout).

(** The [Refresh] closure of [isWaitForVPNServerRouteDeleted]. *)
Definition isWaitForVPNServerRouteDeleted_Refresh (sess : option (VpcV1 W))
    : M W (option (option VPNServerRoute) * string * option error) :=
  let* d := get_d in
  let '(parts, err) := flex.SepIdParts (Id d) "/" in
  match err with
  | Some e =>
      ret (None, "",
           Some (flex.Error (flex.DiscriminatedTerraformErrorf e e
                               "ibm_is_vpn_server_route" "delete-wait" "sep-id-parts")))
  | None =>
      let* part0 := index parts 0 in
      let* part1 := index parts 1 in
      let getVPNServerRouteOptions := {| g_VPNServerID := Some part0; g_ID := Some part1 |} in
      let* client := deref sess in
      let* r := call (ReqGet getVPNServerRouteOptions)
                     (GetVPNServerRouteWithContext client getVPNServerRouteOptions) in
      let vpnServerRoute := result r in
      match vpcv1.err r with
      | Some e =>
          match response r with
          | Some resp =>
              if StatusCode resp =? 404
              then ret (Some vpnServerRoute, isVPNServerRouteStatusDeleted, None)
              else ret (Some vpnServerRoute, isVPNServerRouteStatusFailed,
                        Some (flex.Error (flex.TerraformErrorf e
                                ("GetVPNServerRouteWithContext failed: " +:+ e)
                                "ibm_is_vpn_server_route" "delete-wait")))
          | None =>
              ret (Some vpnServerRoute, isVPNServerRouteStatusFailed,
                   Some (flex.Error (flex.TerraformErrorf e
                           ("GetVPNServerRouteWithContext failed: " +:+ e)
                           "ibm_is_vpn_server_route" "delete-wait")))
          end
      | None =>
          let* route := deref vpnServerRoute in
          let* state := deref (LifecycleState route) in
          ret (Some vpnServerRoute, state, None)
      end
  end.

(** The [stateConf] of [isWaitForVPNServerRouteDeleted], built from the
    resource data at hand. *)
Definition isWaitForVPNServerRouteDeleted_stateConf (sess : option (VpcV1 W))
    (d : ResourceData) : resource.StateChangeConf W (option VPNServerRoute) :=
  {| resource.Pending := ["retry"; isVPNServerRouteStatusDeleting];
     resource.Target := [isVPNServerStatusDeleted; isVPNServerRouteStatusFailed];
     resource.Refresh := isWaitForVPNServerRouteDeleted_Refresh sess;
     resource.Timeout := Timeout d TimeoutDelete;
     resource.Delay := 10 * time.Second;
     resource.MinTimeout := 10 * time.Second |}.

Definition isWaitForVPNServerRouteDeleted (sess : option (VpcV1 W))
    : M W (option (option VPNServerRoute) * option error) :=
  let* d := get_d in
  resource.WaitForState (isWaitForVPNServerRouteDeleted_stateConf sess d).

(** One step [if err = d.Set(key, v); err != nil { return ... }] of
    [resourceIBMIsVPNServerRouteRead], followed by the rest [k]. *)
Definition set_or_return (key : string) (v : value) (component : string)
    (k : M W diag.Diagnostics) : M W diag.Diagnostics :=
  let* err := d_Set key v in
  match err with
  | Some e =>
      ret (diag.GetDiag (flex.DiscriminatedTerraformErrorf e e
                           "ibm_is_vpn_server_route" "read" component))
  | None => k
  end.

Definition resourceIBMIsVPNServerRouteRead (meta : conns.ClientSession W)
    : M W diag.Diagnostics :=
  let '(sess, err) := vpcClient meta in
  match err with
  | Some e => ret (diag.FromErr e)
  | None =>
  let* d := get_d in
  let '(parts, err) := flex.SepIdParts (Id d) "/" in
  match err with
  | Some e => ret (diag.FromErr e)
  | None =>
  let* part0 := index parts 0 in
  let* part1 := index parts 1 in
  let getVPNServerRouteOptions := {| g_VPNServerID := Some part0; g_ID := Some part1 |} in
  let* client := deref sess in
  let* r := call (ReqGet getVPNServerRouteOptions)
                 (GetVPNServerRouteWithContext client getVPNServerRouteOptions) in
  let vpnServerRoute := result r in
  match vpcv1.err r with
  | Some e =>
      match response r with
      | Some resp =>
          if StatusCode resp =? 404
          then modify_d (SetId "") >> ret []
          else ret (diag.GetDiag (flex.DiscriminatedTerraformErrorf e e
                                    "ibm_is_vpn_server_route" "read" "sep-id-parts"))
      | None =>
          ret (diag.GetDiag (flex.DiscriminatedTerraformErrorf e e
                               "ibm_is_vpn_server_route" "read" "sep-id-parts"))
      end
  | None =>
  set_or_return "vpn_server" (of_ptr (g_VPNServerID getVPNServerRouteOptions)) "set-vpn_server" (
  set_or_return "vpn_route" (of_ptr (g_ID getVPNServerRouteOptions)) "set-vpn_route" (
  let* route := deref vpnServerRoute in
  set_or_return "destination" (of_ptr (Destination route)) "set-destination" (
  set_or_return "action" (of_ptr (Action route)) "set-action" (
  set_or_return "name" (of_ptr (Name route)) "set-name" (
  set_or_return "created_at" (VStr (DateTimeToString (CreatedAt route))) "set-created_at" (
  set_or_return "health_state" (of_ptr (HealthState route)) "set-health_state" (
  (fun k => match HealthReasons route with
            | Some reasons =>
                set_or_return "health_reasons"
                  (flattened (resourceVPNServerRouteFlattenHealthReasons reasons))
                  "set-health_reasons" k
            | None => k
            end) (
  set_or_return "href" (of_ptr (Href route)) "set-href" (
  set_or_return "lifecycle_state" (of_ptr (LifecycleState route)) "set-lifecycle_state" (
  (fun k => match LifecycleReasons route with
            | Some reasons =>
                set_or_return "lifecycle_reasons"
                  (flattened (resourceVPNServerRouteFlattenLifecycleReasons reasons))
                  "set-lifecycle_reasons" k
            | None => k
            end) (
  set_or_return "resource_type" (of_ptr (ResourceType route)) "set-resource_type" (
  ret []))))))))))))
  end
  end
  end.

Definition resourceIBMIsVPNServerRouteCreate (meta : conns.ClientSession W)
    : M W diag.Diagnostics :=
  let '(vpcClient, err) := conns.VpcV1API meta in
  match err with
  | Some e =>
      let tfErr := flex.DiscriminatedTerraformErrorf e e
                     "ibm_is_vpn_server_route" "create" "initialize-client" in
      ret (diag.GetDiag tfErr)
  | None =>
  let* d := get_d in
  let createVPNServerRouteOptions :=
    {| c_VPNServerID := Some (GetString d "vpn_server");
       c_Destination := Some (GetString d "destination");
       c_Action := match GetOk d "action" with
                   | Some _ => Some (GetString d "action")
                   | None => None
                   end;
       c_Name := match GetOk d "name" with
                 | Some _ => Some (GetString d "name")
                 | None => None
                 end |} in
  let* client := deref vpcClient in
  let* r := call (ReqCreate createVPNServerRouteOptions)
                 (CreateVPNServerRouteWithContext client createVPNServerRouteOptions) in
  let vpnServerRoute := result r in
  match vpcv1.err r with
  | Some e =>
      let tfErr := flex.TerraformErrorf e ("CreateVPNServerRouteWithContext failed: " +:+ e)
                     "ibm_is_vpn_server_route" "create" in
      ret (diag.GetDiag tfErr)
  | None =>
  let* vpnServerID := deref (c_VPNServerID createVPNServerRouteOptions) in
  let* route := deref vpnServerRoute in
  let* routeID := deref (ID route) in
  modify_d (SetId (vpnServerID +:+ "/" +:+ routeID)) >>
  let* d := get_d in
  let* w := isWaitForVPNServerRouteStable vpcClient (Timeout d TimeoutCreate) in
  match snd w with
  | Some e =>
      let tfErr := flex.TerraformErrorf e ("isWaitForVPNServerRouteStable failed: " +:+ e)
                     "ibm_is_vpn_server_route" "create" in
      ret (diag.GetDiag tfErr)
  | None => resourceIBMIsVPNServerRouteRead meta
  end
  end
  end.

Definition resourceIBMIsVPNServerRouteUpdate (meta : conns.ClientSession W)
    : M W diag.Diagnostics :=
  let '(vpcClient, err) := conns.VpcV1API meta in
  match err with
  | Some e =>
      let tfErr := flex.DiscriminatedTerraformErrorf e e
                     "ibm_is_vpn_server_route" "update" "initialize-client" in
      ret (diag.GetDiag tfErr)
  | None =>
  let* d := get_d in
  let '(parts, err) := flex.SepIdParts (Id d) "/" in
  match err with
  | Some e =>
      ret (diag.GetDiag (flex.DiscriminatedTerraformErrorf e e
                           "ibm_is_vpn_server_route" "update" "sep-id-parts"))
  | None =>
  let* part0 := index parts 0 in
  let* part1 := index parts 1 in
  let hasChange := HasChange d "name" in
  let patchVals :=
    {| p_Name := if HasChange d "name" then Some (GetString d "name") else None |} in
  let* updateErr :=
    if hasChange
    then
      let updateVPNServerRouteOptions :=
        {| u_VPNServerID := Some part0; u_ID := Some part1;
           u_VPNServerRoutePatch := AsPatch patchVals |} in
      let* client := deref vpcClient in
      let* r := call (ReqUpdate updateVPNServerRouteOptions)
                     (UpdateVPNServerRouteWithContext client updateVPNServerRouteOptions) in
      ret (vpcv1.err r)
    else ret None in
  match updateErr with
  | Some e =>
      let tfErr := flex.TerraformErrorf e ("UpdateVPNServerRouteWithContext failed: " +:+ e)
                     "ibm_is_vpn_server_route" "update" in
      ret (diag.GetDiag tfErr)
  | None =>
  let* w := isWaitForVPNServerRouteStable vpcClient (Timeout d TimeoutUpdate) in
  match snd w with
  | Some e =>
      let tfErr := flex.TerraformErrorf e ("isWaitForVPNServerRouteStable failed: " +:+ e)
                     "ibm_is_vpn_server_route" "update" in
      ret (diag.GetDiag tfErr)
  | None => resourceIBMIsVPNServerRouteRead meta
  end
  end
  end
  end.

Definition resourceIBMIsVPNServerRouteDelete (meta : conns.ClientSession W)
    : M W diag.Diagnostics :=
  let '(vpcClient, err) := conns.VpcV1API meta in
  match err with
  | Some e =>
      let tfErr := flex.DiscriminatedTerraformErrorf e e
                     "ibm_is_vpn_server_route" "delete" "initialize-client" in
      ret (diag.GetDiag tfErr)
  | None =>
  let* d := get_d in
  let '(parts, err) := flex.SepIdParts (Id d) "/" in
  match err with
  | Some e =>
      ret (diag.GetDiag (flex.DiscriminatedTerraformErrorf e e
                           "ibm_is_vpn_server_route" "delete" "sep-id-parts"))
  | None =>
  let* part0 := index parts 0 in
  let* part1 := index parts 1 in
  let deleteVPNServerRouteOptions := {| d_VPNServerID := Some part0; d_ID := Some part1 |} in
  let* client := deref vpcClient in
  let* r := call (ReqDelete deleteVPNServerRouteOptions)
                 (DeleteVPNServerRouteWithContext client deleteVPNServerRouteOptions) in
  match snd r with
  | Some e =>
      let tfErr := flex.TerraformErrorf e ("DeleteVPNServerRouteWithContext failed: " +:+ e)
                     "ibm_is_vpn_server_route" "delete" in
      ret (diag.GetDiag tfErr)
  | None =>
  let* w := isWaitForVPNServerRouteDeleted vpcClient in
  match snd w with
  | Some e =>
      let tfErr := flex.TerraformErrorf e ("isWaitForVPNServerRouteStable failed: " +:+ e)
                     "ibm_is_vpn_server_route" "delete" in
      ret (diag.GetDiag tfErr)
  | None => modify_d (SetId "") >> ret []
  end
  end
  end
  end.

End VPNServerRoute.

(** *** The data source [ibm_is_images] *)

Definition isImages := "images".
Definition isImagesResourceGroupID := "resource_group".
Definition isImageCatalogManaged := "catalog_managed".
Definition isImageRemoteAccountId := "remote_account_id".

(** What [imageList] uses of package [vpc], of [flex] and of [time] that is
    not among the sources: attribute names, the converters of the nested
    objects of an image, [flex.GetNext], and the text of the current time. *)
Record ImagesEnv := {
  isImageName : string;
  isImageStatus : string;
  isImageVisibility : string;
  isImageUserDataFormat : string;
  isImageCheckSum : string;
  isImageCatalogOffering : string;
  isImageAccessTags : string;
  isImageAccessTagType : string;
  GetNext : option ImageCollectionNext -> string;
  dataSourceIBMIsImageFlattenStatusReasons : list ImageStatusReason -> value;
  dataSourceImageResourceGroupToMap : ResourceGroupReference -> gmap string value;
  dataSourceIBMISImageOperatingSystemToMap : OperatingSystem -> gmap string value;
  dataSourceImageCollectionCatalogOfferingToMap : ImageCatalogOffering -> gmap string value;
  dataSourceImageRemote : Image -> gmap string value * option error;
  DataSourceIBMIsImageAllowedUseToMap : ImageAllowedUse -> gmap string value * option error;
  timeString : time.Duration -> string
}.

Section Images.
Context {W : Type}.
Variable env : ImagesEnv.

(** [dataSourceIBMISImagesID]: the current time, as text. *)
Definition dataSourceIBMISImagesID : M W string :=
  let* t := now in ret (timeString env t).

(** The translation of the argument [remote_account_id] into the filter
    sent to the SDK. *)
Definition remoteAccountFilter (remoteAccountId : string) : option string :=
  if negb (String.eqb remoteAccountId "")
  then
    if String.eqb remoteAccountId "user" then Some "null"
    else if String.eqb remoteAccountId "provider" then Some "not:null"
    else Some remoteAccountId
  else None.

(** The options [imageList] has built when it enters the pagination loop. *)
Definition imageList_options (d : ResourceData) : ListImagesOptions :=
  let resourceGroupID :=
    match GetOk d isImagesResourceGroupID with Some v => as_string v | None => "" end in
  let imageName :=
    match GetOk d (isImageName env) with Some v => as_string v | None => "" end in
  let visibility :=
    match GetOk d (isImageVisibility env) with Some v => as_string v | None => "" end in
  let remoteAccountId :=
    match GetOk d isImageRemoteAccountId with Some v => as_string v | None => "" end in
  {| l_Start := None;
     l_ResourceGroupID :=
       if negb (String.eqb resourceGroupID "") then Some resourceGroupID else None;
     l_Name := if negb (String.eqb imageName "") then Some imageName else None;
     l_RemoteAccountID := remoteAccountFilter remoteAccountId;
     l_Visibility := if negb (String.eqb visibility "") then Some visibility else None;
     l_UserDataFormat :=
       match GetOk d (isImageUserDataFormat env) with
       | Some (VList userDataFormats) =>
           if negb (Nat.eqb (length userDataFormats) 0)
           then Some (as_string <$> userDataFormats)
           else None
       | _ => None
       end |}.

Definition SetStart (start : string) (o : ListImagesOptions) : ListImagesOptions :=
  {| l_Start := Some start; l_ResourceGroupID := l_ResourceGroupID o;
     l_Name := l_Name o; l_RemoteAccountID := l_RemoteAccountID o;
     l_Visibility := l_Visibility o; l_UserDataFormat := l_UserDataFormat o |}.

(** The pagination loop of [imageList]: the diagnostics it returns with, or
    the records of all pages. *)
Fixpoint imageList_pages (fuel : nat) (sess : option (VpcV1 W))
    (listImagesOptions : ListImagesOptions) (start : string) (allrecs : list Image)
    : M W (diag.Diagnostics + list Image) :=
  match fuel with
  | O => diverge
  | S fuel' =>
      let listImagesOptions :=
        if negb (String.eqb start "") then SetStart start listImagesOptions
        else listImagesOptions in
      let* client := deref sess in
      let* r := call (ReqListImages listImagesOptions)
                     (ListImagesWithContext client listImagesOptions) in
      match vpcv1.err r with
      | Some e =>
          let tfErr := flex.TerraformErrorf e ("ListImagesWithContext failed " +:+ e)
                         "(Data) ibm_is_images" "read" in
          ret (inl (diag.GetDiag tfErr))
      | None =>
          let* availableImages := deref (result r) in
          let start := GetNext env (Next availableImages) in
          let allrecs := (allrecs ++ Images availableImages)%list in
          if String.eqb start "" then ret (inr allrecs)
          else imageList_pages fuel' sess listImagesOptions start allrecs
      end
  end.

(** The filter on [status]. *)
Fixpoint imageList_byStatus (status : string) (allrecs allrecsTemp : list Image)
    : M W (list Image) :=
  match allrecs with
  | [] => ret allrecsTemp
  | image :: rest =>
      let* imageStatus := deref (im_Status image) in
      if String.eqb status imageStatus
      then imageList_byStatus status rest (allrecsTemp ++ [image])%list
      else imageList_byStatus status rest allrecsTemp
  end.

(** The filter on [catalog_managed]. *)
Fixpoint imageList_byCatalogManaged (catalogManaged : bool) (allrecs allrecsTemp : list Image)
    : M W (list Image) :=
  match allrecs with
  | [] => ret allrecsTemp
  | image :: rest =>
      match im_CatalogOffering image with
      | Some offering =>
          let* managed := deref (Managed offering) in
          if Bool.eqb catalogManaged managed
          then imageList_byCatalogManaged catalogManaged rest (allrecsTemp ++ [image])%list
          else imageList_byCatalogManaged catalogManaged rest allrecsTemp
      | None => imageList_byCatalogManaged catalogManaged rest allrecsTemp
      end
  end.

(** Both filters, in the order of the source. *)
Definition imageList_filter (status : string) (catalogManaged : bool)
    (allrecs : list Image) : M W (list Image) :=
  let* allrecs :=
    if negb (String.eqb status "") then imageList_byStatus status allrecs []
    else ret allrecs in
  if catalogManaged then imageList_byCatalogManaged catalogManaged allrecs []
  else ret allrecs.

(** The body of the loop that builds the map [l] of one image: the
    diagnostics of an early return, or the map. *)
Definition imageList_info (meta : conns.ClientSession W) (image : Image)
    : M W (diag.Diagnostics + gmap string value) :=
  let* name := deref (im_Name image) in
  let* id := deref (im_ID image) in
  let* status := deref (im_Status image) in
  let* crn := deref (im_CRN image) in
  let* visibility := deref (im_Visibility image) in
  let* os := deref (im_OperatingSystem image) in
  let* osName := deref (os_Name os) in
  let* os := deref (im_OperatingSystem image) in
  let* architecture := deref (os_Architecture os) in
  let l : gmap string value :=
    <["architecture" := VStr architecture]> (
    <["os" := VStr osName]> (
    <["visibility" := VStr visibility]> (
    <["crn" := VStr crn]> (
    <["status" := VStr status]> (
    <["id" := VStr id]> (
    <["name" := VStr name]> ∅)))))) in
  let l := match im_UserDataFormat image with
           | Some f => <["user_data_format" := VStr f]> l
           | None => l
           end in
  let l := if Nat.ltb 0 (length (im_StatusReasons image))
           then <["status_reasons" :=
                    dataSourceIBMIsImageFlattenStatusReasons env (im_StatusReasons image)]> l
           else l in
  let l := match im_ResourceGroup image with
           | Some rg =>
               <["resource_group" := flattened [dataSourceImageResourceGroupToMap env rg]]> l
           | None => l
           end in
  let l := match im_OperatingSystem image with
           | Some os =>
               <["operating_system" :=
                   flattened [dataSourceIBMISImageOperatingSystemToMap env os]]> l
           | None => l
           end in
  let* l := match im_File image with
            | Some file =>
                match Checksums file with
                | Some checksums =>
                    let* sha := deref (Sha256 checksums) in
                    ret (<[isImageCheckSum env := VStr sha]> l)
                | None => ret l
                end
            | None => ret l
            end in
  let l := match im_Encryption image with
           | Some e => <["encryption" := VStr e]> l
           | None => l
           end in
  let* l := match im_EncryptionKey image with
            | Some key => let* c := deref (ek_CRN key) in ret (<["encryption_key" := VStr c]> l)
            | None => ret l
            end in
  let* l := match im_SourceVolume image with
            | Some vol => let* v := deref (vol_ID vol) in ret (<["source_volume" := VStr v]> l)
            | None => ret l
            end in
  let l := match im_CatalogOffering image with
           | Some offering =>
               <[isImageCatalogOffering env :=
                   flattened [dataSourceImageCollectionCatalogOfferingToMap env offering]]> l
           | None => l
           end in
  let remote :=
    match im_Remote image with
    | Some _ =>
        let '(imageRemoteMap, err) := dataSourceImageRemote env image in
        match err with
        | Some e =>
            let tfErr := flex.DiscriminatedTerraformErrorf e e
                           "(Data) ibm_is_image" "read" "initialize-client" in
            inl (diag.GetDiag tfErr)
        | None =>
            if Nat.ltb 0 (size imageRemoteMap)
            then inr (<["remote" := VList [VMap imageRemoteMap]]> l)
            else inr l
        end
    | None => inr l
    end in
  match remote with
  | inl diags => ret (inl diags)
  | inr l =>
      let l := match im_AllowedUse image with
               | Some allowedUse =>
                   let '(modelMap, _) := DataSourceIBMIsImageAllowedUseToMap env allowedUse in
                   <["allowed_use" := flattened [modelMap]]> l
               | None => l
               end in
      let* crn := deref (im_CRN image) in
      let* tags := effect (conns.GetGlobalTagsUsingCRN meta crn (isImageAccessTagType env)) in
      let accesstags := fst tags in
      ret (inr (<[isImageAccessTags env := accesstags]> l))
  end.

(** The loop over the filtered records. *)
Fixpoint imageList_infos (meta : conns.ClientSession W) (allrecs : list Image)
    (imagesInfo : list (gmap string value)) : M W (diag.Diagnostics + list (gmap string value)) :=
  match allrecs with
  | [] => ret (inr imagesInfo)
  | image :: rest =>
      let* l := imageList_info meta image in
      match l with
      | inl diags => ret (inl diags)
      | inr l => imageList_infos meta rest (imagesInfo ++ [l])%list
      end
  end.

(** [imageList]; [fuel] bounds the pages the pagination loop may ask for. *)
Definition imageList (fuel : nat) (meta : conns.ClientSession W) : M W diag.Diagnostics :=
  let '(sess, err) := vpcClient meta in
  match err with
  | Some e =>
      let tfErr := flex.DiscriminatedTerraformErrorf e e
                     "(Data) ibm_is_images" "read" "initialize-client" in
      ret (diag.GetDiag tfErr)
  | None =>
  let* d := get_d in
  let status :=
    match GetOk d (isImageStatus env) with Some v => as_string v | None => "" end in
  let catalogManaged :=
    match GetOk d isImageCatalogManaged with Some v => as_bool v | None => false end in
  let listImagesOptions := imageList_options d in
  let* pages := imageList_pages fuel sess listImagesOptions "" [] in
  match pages with
  | inl diags => ret diags
  | inr allrecs =>
  let* allrecs := imageList_filter status catalogManaged allrecs in
  let* infos := imageList_infos meta allrecs [] in
  match infos with
  | inl diags => ret diags
  | inr imagesInfo =>
  let* id := dataSourceIBMISImagesID in
  modify_d (SetId id) >>
  let* err := d_Set "images" (flattened imagesInfo) in
  match err with
  | Some e =>
      ret (diag.GetDiag (flex.DiscriminatedTerraformErrorf e ("Error setting images " +:+ e)
                           "(Data) ibm_is_images" "read" "images-set"))
  | None => ret []
  end
  end
  end
  end.

Definition dataSourceIBMISImagesRead (fuel : nat) (meta : conns.ClientSession W)
    : M W diag.Diagnostics :=
  let* err := imageList fuel meta in
  match err with
  | [] => ret []
  | _ => ret err
  end.

End Images.
End vpc.

(** ** Package [power]: two data sources *)
Module power.
Import schema conns.

(** The attribute names of package [power] and of [helpers], which are
    declared in files that are not among the sources. *)
Record Names := {
  Arg_CloudInstanceID : string;
  Arg_SPPPlacementGroupID : string;
  PIKeyName : string;
  Attr_CreationDate : string;
  Attr_Description : string;
  Attr_KeyName : string;
  Attr_PrimaryWorkspace : string;
  Attr_SSHKey : string;
  Attr_SSHKeyID : string;
  Attr_Visibility : string;
  Attr_CRN : string;
  Attr_UserTags : string;
  Attr_Members : string;
  Attr_Name : string;
  Attr_Policy : string;
  UserTagType : string
}.

Section Power.
Context {W : Type}.
Variable names : Names.

Definition of_bool_ptr (p : option bool) : value :=
  match p with Some b => VBool b | None => VNil end.

Definition dataSourceIBMPIKeyRead (meta : ClientSession W) : M W diag.Diagnostics :=
  let '(sess, err) := IBMPISession_ meta in
  match err with
  | Some e => ret (diag.FromErr e)
  | None =>
  let* d := get_d in
  let cloudInstanceID := GetString d (Arg_CloudInstanceID names) in
  let* client := deref sess in
  let* r := effect (SSHKeyGet client cloudInstanceID (GetString d (PIKeyName names))) in
  let '(sshkeydata, err) := r in
  match err with
  | Some e => ret (diag.FromErr e)
  | None =>
  let* key := deref sshkeydata in
  let* name := deref (k_Name key) in
  modify_d (SetId name) >>
  let* creationDate := deref (k_CreationDate key) in
  d_Set (Attr_CreationDate names) (VStr creationDate) >>
  d_Set (Attr_Description names) (VStr (k_Description key)) >>
  d_Set (Attr_KeyName names) (of_ptr (k_Name key)) >>
  d_Set (Attr_PrimaryWorkspace names) (of_bool_ptr (k_PrimaryWorkspace key)) >>
  d_Set (Attr_SSHKey names) (of_ptr (k_SSHKey key)) >>
  d_Set (Attr_SSHKeyID names) (VStr (k_ID key)) >>
  d_Set (Attr_Visibility names) (of_ptr (k_Visibility key)) >>
  ret []
  end
  end.

Definition dataSourceIBMPISPPPlacementGroupRead (meta : ClientSession W)
    : M W diag.Diagnostics :=
  let '(sess, err) := IBMPISession_ meta in
  match err with
  | Some e => ret (diag.FromErr e)
  | None =>
  let* d := get_d in
  let cloudInstanceID := GetString d (Arg_CloudInstanceID names) in
  let placementGroupID := GetString d (Arg_SPPPlacementGroupID names) in
  let* client := deref sess in
  let* r := effect (SPPPlacementGroupGet client cloudInstanceID placementGroupID) in
  let '(response, err) := r in
  match err, response with
  | Some e, _ => ret (diag.Errorf ("error fetching the spp placement group: " +:+ e))
  | None, None => ret (diag.Errorf "error fetching the spp placement group: <nil>")
  | None, Some response =>
  let* id := deref (pg_ID response) in
  modify_d (SetId id) >>
  (if negb (String.eqb (pg_Crn response) "")
   then
     d_Set (Attr_CRN names) (VStr (pg_Crn response)) >>
     let* tags := effect (GetGlobalTagsUsingCRN meta (pg_Crn response) (UserTagType names)) in
     let userTags := fst tags in
     d_Set (Attr_UserTags names) userTags >>
     ret tt
   else ret tt) >>
  d_Set (Attr_Members names) (VList (VStr <$> pg_MemberSharedProcessorPools response)) >>
  d_Set (Attr_Name names) (of_ptr (pg_Name response)) >>
  d_Set (Attr_Policy names) (of_ptr (pg_Policy response)) >>
  ret []
  end
  end.

End Power.
End power.

(** ** A scripted cloud, to run the handlers on concrete inputs *)
Module fixture.
Import schema vpcv1 conns.

(** The cloud answers the get and list operations from two scripts. *)
Record Cloud := {
  gets : list (reply VPNServerRoute);
  pages : list (reply ImageCollection)
}.

Definition notFound {T} : reply T :=
  {| result := None; response := Some {| StatusCode := 404 |}; err := Some "not found" |}.

Definition ok {T} (x : T) : reply T :=
  {| result := Some x; response := Some {| StatusCode := 200 |}; err := None |}.

(** A route with the given ID and lifecycle state. *)
Definition route (id state : string) : VPNServerRoute :=
  {| Action := Some "deliver"; CreatedAt := None; Destination := Some "10.0.0.0/24";
     HealthReasons := None; HealthState := Some "ok"; Href := None; ID := Some id;
     LifecycleReasons := None; LifecycleState := Some state; Name := Some "route";
     ResourceType := Some "vpn_server_route" |}.

Definition client : VpcV1 Cloud :=
  {| ListImagesWithContext := fun _ w =>
       match pages w with
       | [] => (notFound, w)
       | p :: ps => (p, {| gets := gets w; pages := ps |})
       end;
     CreateVPNServerRouteWithContext := fun _ w => (ok (route "r-1" "pending"), w);
     GetVPNServerRouteWithContext := fun _ w =>
       match gets w with
       | [] => (notFound, w)
       | g :: gs => (g, {| gets := gs; pages := pages w |})
       end;
     UpdateVPNServerRouteWithContext := fun _ w => (ok (route "r-1" "updating"), w);
     DeleteVPNServerRouteWithContext := fun _ w =>
       ((Some {| StatusCode := 204 |}, None), w) |}.

(** A session whose VPC client is [client] and whose Power session fails. *)
Definition meta : ClientSession Cloud :=
  {| VpcV1API := (Some client, None);
     IBMPISession_ := (None, Some "no power session");
     GetGlobalTagsUsingCRN := fun _ _ w => ((VList [], None), w) |}.

(** A session whose clients cannot be initialised. *)
Definition brokenMeta : ClientSession Cloud :=
  {| VpcV1API := (None, Some "no vpc client");
     IBMPISession_ := (None, Some "no power session");
     GetGlobalTagsUsingCRN := fun _ _ w => ((VList [], None), w) |}.

(** Resource data with the given ID and attributes and the default timeouts. *)
Definition data (id : string) (attrs : gmap string value) : ResourceData :=
  {| rd_id := id; rd_attrs := attrs; rd_changed := ∅;
     rd_timeout := vpc.DefaultTimeout; rd_refuse := fun _ => None |}.

Definition state (d : ResourceData) (w : Cloud) : St Cloud :=
  {| st_d := d; st_world := w; st_now := 0; st_trace := [] |}.

(** The parameters of [imageList]: the attribute names, converters that
    keep one field each, and a [GetNext] that returns the empty string for
    an absent link and a start token for a link. *)
Definition env : vpc.ImagesEnv :=
  {| vpc.isImageName := "name";
     vpc.isImageStatus := "status";
     vpc.isImageVisibility := "visibility";
     vpc.isImageUserDataFormat := "user_data_format";
     vpc.isImageCheckSum := "checksum";
     vpc.isImageCatalogOffering := "catalog_offering";
     vpc.isImageAccessTags := "access_tags";
     vpc.isImageAccessTagType := "access";
     vpc.GetNext := fun next =>
       match next with
       | Some link => "start-" +:+ default "" (n_Href link)
       | None => ""
       end;
     vpc.dataSourceIBMIsImageFlattenStatusReasons := fun reasons =>
       VList ((fun sr => of_ptr (sr_Code sr)) <$> reasons);
     vpc.dataSourceImageResourceGroupToMap := fun rg => {[ "id" := of_ptr (rg_ID rg) ]};
     vpc.dataSourceIBMISImageOperatingSystemToMap := fun os =>
       {[ "name" := of_ptr (os_Name os) ]};
     vpc.dataSourceImageCollectionCatalogOfferingToMap := fun offering =>
       {[ "version" := of_ptr (Version offering) ]};
     vpc.dataSourceImageRemote := fun image =>
       (match im_Remote image with
        | Some remote => {[ "account" := of_ptr (Account remote) ]}
        | None => ∅
        end, None);
     vpc.DataSourceIBMIsImageAllowedUseToMap := fun allowedUse =>
       ({[ "instance" := of_ptr (Instance allowedUse) ]}, None);
     vpc.timeString := fun _ => "now" |}.

(** An image with the given name and operating system, and nothing else
    that is optional. *)
Definition image (name : string) (os : option OperatingSystem) : Image :=
  {| im_AllowedUse := None; im_CRN := Some ("crn:" +:+ name);
     im_CatalogOffering := None; im_Encryption := None; im_EncryptionKey := None;
     im_File := None; im_ID := Some ("id-" +:+ name); im_Name := Some name;
     im_OperatingSystem := os; im_Remote := None; im_ResourceGroup := None;
     im_SourceVolume := None; im_Status := Some "available"; im_StatusReasons := [];
     im_UserDataFormat := None; im_Visibility := Some "public" |}.

Definition linux : OperatingSystem :=
  {| os_Architecture := Some "amd64"; os_DedicatedHostOnly := Some false;
     os_DisplayName := None; os_Family := Some "linux"; os_Href := None;
     os_Name := Some "debian"; os_Vendor := None; os_Version := None |}.

(** A page of images, with a link to the next page or without. *)
Definition page (images : list Image) (next : option string) : ImageCollection :=
  {| Images := images;
     Next := match next with
             | Some href => Some {| n_Href := Some href |}
             | None => None
             end |}.

(** A cloud in which every page of images links to a next one. *)
Definition endless : VpcV1 unit :=
  {| ListImagesWithContext := fun _ w => (ok (page [] (Some "more")), w);
     CreateVPNServerRouteWithContext := fun _ w => (notFound, w);
     GetVPNServerRouteWithContext := fun _ w => (notFound, w);
     UpdateVPNServerRouteWithContext := fun _ w => (notFound, w);
     DeleteVPNServerRouteWithContext := fun _ w => ((None, Some "not found"), w) |}.

(** Attribute names for the Power data sources. *)
Definition names : power.Names :=
  {| power.Arg_CloudInstanceID := "pi_cloud_instance_id";
     power.Arg_SPPPlacementGroupID := "pi_spp_placement_group_id";
     power.PIKeyName := "pi_key_name";
     power.Attr_CreationDate := "creation_date";
     power.Attr_Description := "description";
     power.Attr_KeyName := "name";
     power.Attr_PrimaryWorkspace := "primary_workspace";
     power.Attr_SSHKey := "ssh_key";
     power.Attr_SSHKeyID := "ssh_key_id";
     power.Attr_Visibility := "visibility";
     power.Attr_CRN := "crn";
     power.Attr_UserTags := "user_tags";
     power.Attr_Members := "members";
     power.Attr_Name := "name";
     power.Attr_Policy := "policy";
     power.UserTagType := "user" |}.

End fixture.

(** ** Notions used to state the properties *)

(** [wp m Q st]: if [m] returns from [st], its result and final state
    satisfy [Q]. *)
Definition wp {W A} (m : M W A) (Q : A -> St W -> Prop) (st : St W) : Prop :=
  match m st with
  | Done (a, st') => Q a st'
  | Panic _ => True
  | Diverge => True
  end.



(** From [st] to [st'] the requests [reqs] were issued, and nothing else was
    recorded. *)
Definition issued {W} (st st' : St W) (reqs : list Request) : Prop :=
  st_trace st' = (st_trace st ++ reqs)%list.

(** From [st] to [st'] the resource data is unchanged and every request
    issued satisfies [P]. *)
Definition steady {W} (P : Request -> Prop) (st st' : St W) : Prop :=
  st_d st' = st_d st /\ exists reqs, issued st st' reqs /\ Forall P reqs.

(** The SDK call failed with this HTTP status. *)
Definition fails_with {T} (r : vpcv1.reply T) (status : Z) : Prop :=
  exists e resp,
    vpcv1.err r = Some e /\ vpcv1.response r = Some resp /\ vpcv1.StatusCode resp = status.


(** The state [st] with the clock moved forward by [dt]. *)
Definition advance {W} (dt : time.Duration) (st : St W) : St W :=
  {| st_d := st_d st; st_world := st_world st;
     st_now := st_now st + dt; st_trace := st_trace st |}.

(** The state [st] with the clock at [t]. *)
Definition at_time {W} (t : time.Duration) (st : St W) : St W :=
  {| st_d := st_d st; st_world := st_world st;
     st_now := t; st_trace := st_trace st |}.

(** A computation that neither reads nor sets the clock. *)
Definition clock_free {W A} (m : M W A) : Prop :=
  forall st,
    (forall dt,
       m (advance dt st) =
       match m st with
       | Done (a, st') => Done (a, advance dt st')
       | Panic reason => Panic reason
       | Diverge => Diverge
       end) /\
    (forall a st', m st = Done (a, st') -> st_now st' = st_now st).

(** [rounds conf seen st st']: from [st], successive refreshes of [conf]
    return without error the objects and states [seen], and lead to [st']. *)
Inductive rounds {W R} (conf : resource.StateChangeConf W R)
    : list (R * string) -> St W -> St W -> Prop :=
| rounds_nil st : rounds conf [] st st
| rounds_cons st res state st1 seen st2 :
    resource.Refresh conf st = Done ((Some res, state, None), st1) ->
    rounds conf seen st1 st2 ->
    rounds conf ((res, state) :: seen) st st2.

(** The state is pending for [conf], and not a target. *)
Definition is_pending {W R} (conf : resource.StateChangeConf W R) (state : string) : Prop :=
  resource.inStates state (resource.Target conf) = false /\
  resource.inStates state (resource.Pending conf) = true.

(** [answers op replies w w']: from the cloud [w], successive calls of the
    operation [op] are answered by [replies], and lead to the cloud [w']. *)
Inductive answers {W A} (op : W -> A * W) : list A -> W -> W -> Prop :=
| answers_nil w : answers op [] w w
| answers_cons w a w1 replies w2 :
    op w = (a, w1) ->
    answers op replies w1 w2 ->
    answers op (a :: replies) w w2.

(** The get request succeeded and the route is in this lifecycle state. *)
Definition reports (rep : vpcv1.reply vpcv1.VPNServerRoute) (state : string) : Prop :=
  vpcv1.err rep = None /\
  exists route, vpcv1.result rep = Some route /\ vpcv1.LifecycleState route = Some state.

(** The state after [n] more requests [rq], [dt] later, with the cloud [w]. *)
Definition after {W} (st : St W) (w : W) (dt : time.Duration) (n : nat) (rq : Request) : St W :=
  {| st_d := st_d st; st_world := w; st_now := st_now st + dt;
     st_trace := (st_trace st ++ replicate n rq)%list |}.

(** What a reply means to the two poll helpers. *)
Definition stable_pending (rep : vpcv1.reply vpcv1.VPNServerRoute) : Prop :=
  reports rep "pending" \/ reports rep "updating".
Definition stable_target (rep : vpcv1.reply vpcv1.VPNServerRoute) : Prop :=
  reports rep "stable" \/ reports rep "failed".
Definition deleted_pending (rep : vpcv1.reply vpcv1.VPNServerRoute) : Prop :=
  reports rep "retry" \/ reports rep "deleting".
Definition deleted_target (rep : vpcv1.reply vpcv1.VPNServerRoute) : Prop :=
  reports rep "deleted" \/ reports rep "failed" \/ fails_with rep 404.

(** What a poll has seen in a reply that reports a state. *)
Definition seen_in (rep : vpcv1.reply vpcv1.VPNServerRoute)
    : option vpcv1.VPNServerRoute * string :=
  (vpcv1.result rep,
   match vpcv1.result rep with
   | Some route => default "" (vpcv1.LifecycleState route)
   | None => ""
   end).

(** A reason has both its code and its message. *)
Definition lr_complete (lr : vpcv1.VPNServerRouteLifecycleReason) : bool :=
  match vpcv1.lr_Code lr, vpcv1.lr_Message lr with
  | Some _, Some _ => true
  | _, _ => false
  end.
Definition hr_complete (hr : vpcv1.VPNServerRouteHealthReason) : bool :=
  match vpcv1.hr_Code hr, vpcv1.hr_Message hr with
  | Some _, Some _ => true
  | _, _ => false
  end.

(** The map holds the three fields, each under its key when it is present,
    and nothing else. *)
Definition copy_of (code message moreInfo : option string)
    (m : gmap string schema.value) : Prop :=
  m !! "code" = schema.VStr <$> code /\
  m !! "message" = schema.VStr <$> message /\
  m !! "more_info" = schema.VStr <$> moreInfo /\
  forall key, key <> "code" -> key <> "message" -> key <> "more_info" -> m !! key = None.

Definition lr_copied (lr : vpcv1.VPNServerRouteLifecycleReason)
    (m : gmap string schema.value) : Prop :=
  copy_of (vpcv1.lr_Code lr) (vpcv1.lr_Message lr) (vpcv1.lr_MoreInfo lr) m.
Definition hr_copied (hr : vpcv1.VPNServerRouteHealthReason)
    (m : gmap string schema.value) : Prop :=
  copy_of (vpcv1.hr_Code hr) (vpcv1.hr_Message hr) (vpcv1.hr_MoreInfo hr) m.

(** The options of the request for the page that starts at [start]. *)
Definition page_options (start : string) (o : vpcv1.ListImagesOptions)
    : vpcv1.ListImagesOptions :=
  if negb (String.eqb start "") then vpc.SetStart start o else o.

(** [pages_run env client opts start w pages reqs w']: from the cloud [w],
    the list requests [reqs], the first for the page at [start] and each
    next one for the page its predecessor links to, are answered without
    error by [pages], of which the last and only the last has no next link;
    the cloud is then [w']. *)
Inductive pages_run {W} (env : vpc.ImagesEnv) (client : vpcv1.VpcV1 W)
    : vpcv1.ListImagesOptions -> string -> W ->
      list vpcv1.ImageCollection -> list Request -> W -> Prop :=
| pages_last opts start w rep page w1 :
    vpcv1.ListImagesWithContext client (page_options start opts) w = (rep, w1) ->
    vpcv1.err rep = None ->
    vpcv1.result rep = Some page ->
    vpcv1.Next page = None ->
    pages_run env client opts start w [page]
              [ReqListImages (page_options start opts)] w1
| pages_more opts start w rep page link w1 pages reqs w2 :
    vpcv1.ListImagesWithContext client (page_options start opts) w = (rep, w1) ->
    vpcv1.err rep = None ->
    vpcv1.result rep = Some page ->
    vpcv1.Next page = Some link ->
    pages_run env client (page_options start opts) (vpc.GetNext env (Some link))
              w1 pages reqs w2 ->
    pages_run env client opts start w (page :: pages)
              (ReqListImages (page_options start opts) :: reqs) w2.

(** All the images of the pages, in order. *)
Definition images_of (pages : list vpcv1.ImageCollection) : list vpcv1.Image :=
  concat (vpcv1.Images <$> pages).

(** The state [st] after the requests [reqs], with the cloud [w]. *)
Definition served {W} (st : St W) (w : W) (reqs : list Request) : St W :=
  {| st_d := st_d st; st_world := w; st_now := st_now st;
     st_trace := (st_trace st ++ reqs)%list |}.

(** A list request with this remote-account filter. *)
Definition lists_with (filter : option string) (rq : Request) : Prop :=
  exists o, rq = ReqListImages o /\ vpcv1.l_RemoteAccountID o = filter.

(** A computation that returns or panics, and leaves the resource data and
    the recorded requests as they are. *)
Definition calm {W A} (m : M W A) : Prop :=
  forall st,
    match m st with
    | Done (_, st') => st_d st' = st_d st /\ st_trace st' = st_trace st
    | Panic _ => True
    | Diverge => False
    end.

(** The pointers that [imageList] dereferences for every image. *)
Definition required_present (image : vpcv1.Image) : Prop :=
  is_Some (vpcv1.im_Name image) /\
  is_Some (vpcv1.im_ID image) /\
  is_Some (vpcv1.im_Status image) /\
  is_Some (vpcv1.im_CRN image) /\
  is_Some (vpcv1.im_Visibility image) /\
  exists os, vpcv1.im_OperatingSystem image = Some os /\
             is_Some (vpcv1.os_Name os) /\ is_Some (vpcv1.os_Architecture os).

(** The diagnostic is a provider problem for this resource and one of these
    actions. *)
Definition problem_of (resourceName : string) (operations : list string)
    (dg : diag.Diagnostic) : Prop :=
  exists operation, operation ∈ operations /\ diag.carries resourceName operation dg.

(** The diagnostic is plain: an error message and nothing else. *)
Definition plain (dg : diag.Diagnostic) : Prop :=
  exists summary, dg = diag.Plain summary.

(** The diagnostic is a provider problem of the images data sources for the
    action [read]. *)
Definition images_problem (dg : diag.Diagnostic) : Prop :=
  problem_of "(Data) ibm_is_images" ["read"] dg \/
  problem_of "(Data) ibm_is_image" ["read"] dg.

(** ** Notions for the further properties *)

(** The state [st] after [d.Set(key, v)] has stored the value. *)
Definition with_attr {W} (key : string) (v : schema.value) (st : St W) : St W :=
  {| st_d := {| schema.rd_id := schema.rd_id (st_d st);
                schema.rd_attrs := <[key := v]> (schema.rd_attrs (st_d st));
                schema.rd_changed := schema.rd_changed (st_d st);
                schema.rd_timeout := schema.rd_timeout (st_d st);
                schema.rd_refuse := schema.rd_refuse (st_d st) |};
     st_world := st_world st; st_now := st_now st; st_trace := st_trace st |}.

(** The attributes the read handler of the route writes. *)
Definition read_keys : list string :=
  ["vpn_server"; "vpn_route"; "destination"; "action"; "name"; "created_at";
   "health_state"; "health_reasons"; "href"; "lifecycle_state"; "lifecycle_reasons";
   "resource_type"].

(** What the read handler returns, with a client and an ID that parses. *)
Definition read_outcome {W} (st : St W) (res : diag.Diagnostics) (st' : St W) : Prop :=
  (res = [] /\
   (schema.rd_id (st_d st') = schema.rd_id (st_d st) \/ schema.rd_id (st_d st') = "")) \/
  (schema.rd_id (st_d st') = schema.rd_id (st_d st) /\
   ((exists e,
       res = diag.GetDiag (flex.DiscriminatedTerraformErrorf e e
                             "ibm_is_vpn_server_route" "read" "sep-id-parts")) \/
    (exists key e,
       key ∈ read_keys /\
       schema.rd_refuse (st_d st) key = Some e /\
       res = diag.GetDiag (flex.DiscriminatedTerraformErrorf e e
                             "ibm_is_vpn_server_route" "read" ("set-" +:+ key))))).

(** Resource data whose schema refuses [key] with the error [e]. *)
Definition refusing (key : string) (e : error) (d : schema.ResourceData)
    : schema.ResourceData :=
  {| schema.rd_id := schema.rd_id d; schema.rd_attrs := schema.rd_attrs d;
     schema.rd_changed := schema.rd_changed d; schema.rd_timeout := schema.rd_timeout d;
     schema.rd_refuse := fun k => if String.eqb k key then Some e else schema.rd_refuse d k |}.

(** The get request for route [r] of VPN server [s]. *)
Definition get_route (s r : string) : Request :=
  ReqGet {| vpcv1.g_VPNServerID := Some s; vpcv1.g_ID := Some r |}.

(** From [st] to [st'] the resource data is unchanged and the requests
    issued are get requests for route [r] of VPN server [s]. *)
Definition polls {W} (s r : string) (st st' : St W) : Prop :=
  st_d st' = st_d st /\ exists n, issued st st' (replicate n (get_route s r)).

(** The update request of the update handler: none unless the plan changes
    the name, and then one whose patch holds the new name and nothing else. *)
Definition update_request (s r : string) (d : schema.ResourceData) : list Request :=
  if schema.HasChange d "name"
  then [ReqUpdate {| vpcv1.u_VPNServerID := Some s; vpcv1.u_ID := Some r;
                     vpcv1.u_VPNServerRoutePatch :=
                       {[ "name" := schema.VStr (schema.GetString d "name") ]} |}]
  else [].

(** The request is a get request. *)
Definition is_get (rq : Request) : Prop := exists o, rq = ReqGet o.

(** The delete request for route [r] of VPN server [s]. *)
Definition delete_route (s r : string) : Request :=
  ReqDelete {| vpcv1.d_VPNServerID := Some s; vpcv1.d_ID := Some r |}.

(** The options of the create request: the VPN server and the destination
    as configured, the action and the name when they are set to something
    else than the empty string. *)
Definition create_options (d : schema.ResourceData) : vpcv1.CreateVPNServerRouteOptions :=
  {| vpcv1.c_VPNServerID := Some (schema.GetString d "vpn_server");
     vpcv1.c_Destination := Some (schema.GetString d "destination");
     vpcv1.c_Action := (fun _ => schema.GetString d "action") <$> schema.GetOk d "action";
     vpcv1.c_Name := (fun _ => schema.GetString d "name") <$> schema.GetOk d "name" |}.

(** The attributes [new] hold the two parts [s] and [r] of the ID and the
    fields of [route], each under its name, the reasons only when the route
    has them; every other attribute is as in [old]. *)
Definition stored (s r : string) (route : vpcv1.VPNServerRoute)
    (old new : gmap string schema.value) : Prop :=
  new !! "vpn_server" = Some (schema.VStr s) /\
  new !! "vpn_route" = Some (schema.VStr r) /\
  new !! "destination" = Some (schema.of_ptr (vpcv1.Destination route)) /\
  new !! "action" = Some (schema.of_ptr (vpcv1.Action route)) /\
  new !! "name" = Some (schema.of_ptr (vpcv1.Name route)) /\
  new !! "created_at" = Some (schema.VStr (default "" (vpcv1.CreatedAt route))) /\
  new !! "health_state" = Some (schema.of_ptr (vpcv1.HealthState route)) /\
  new !! "href" = Some (schema.of_ptr (vpcv1.Href route)) /\
  new !! "lifecycle_state" = Some (schema.of_ptr (vpcv1.LifecycleState route)) /\
  new !! "resource_type" = Some (schema.of_ptr (vpcv1.ResourceType route)) /\
  new !! "health_reasons" =
    match vpcv1.HealthReasons route with
    | Some reasons =>
        Some (vpc.flattened (vpc.resourceVPNServerRouteFlattenHealthReasons reasons))
    | None => old !! "health_reasons"
    end /\
  new !! "lifecycle_reasons" =
    match vpcv1.LifecycleReasons route with
    | Some reasons =>
        Some (vpc.flattened (vpc.resourceVPNServerRouteFlattenLifecycleReasons reasons))
    | None => old !! "lifecycle_reasons"
    end /\
  forall key, key ∉ read_keys -> new !! key = old !! key.

(** From [st] to [st'] nothing but the attributes of the resource data has
    changed. *)
Definition attrs_only {W} (st st' : St W) : Prop :=
  schema.rd_id (st_d st') = schema.rd_id (st_d st) /\
  schema.rd_changed (st_d st') = schema.rd_changed (st_d st) /\
  schema.rd_timeout (st_d st') = schema.rd_timeout (st_d st) /\
  schema.rd_refuse (st_d st') = schema.rd_refuse (st_d st) /\
  st_world st' = st_world st /\ st_now st' = st_now st /\ st_trace st' = st_trace st.

(** The state in which the create handler starts to poll: the create
    request has been answered by the cloud [w] and the ID is [id]. *)
Definition created {W} (st : St W) (w : W) (id : string) : St W :=
  {| st_d := schema.SetId id (st_d st); st_world := w; st_now := st_now st;
     st_trace := (st_trace st ++ [ReqCreate (create_options (st_d st))])%list |}.

(** The update request of the update handler, when it has one, succeeds and
    leaves the cloud [w]. *)
Definition update_accepted {W} (client : vpcv1.VpcV1 W) (s r : string) (st : St W) (w : W)
    : Prop :=
  if schema.HasChange (st_d st) "name"
  then exists rep,
         vpcv1.UpdateVPNServerRouteWithContext client
           {| vpcv1.u_VPNServerID := Some s; vpcv1.u_ID := Some r;
              vpcv1.u_VPNServerRoutePatch :=
                {[ "name" := schema.VStr (schema.GetString (st_d st) "name") ]} |}
           (st_world st) = (rep, w) /\
         vpcv1.err rep = None
  else w = st_world st.

(** The computation returns from [st], and its result and final state
    satisfy [Q]. *)
Definition returns {W A} (m : M W A) (Q : A -> St W -> Prop) (st : St W) : Prop :=
  exists a st', m st = Done (a, st') /\ Q a st'.

(** From [st] to [st'] the resource data, the clock and the recorded
    requests are unchanged. *)
Definition quiet {W} (st st' : St W) : Prop :=
  st_d st' = st_d st /\ st_now st' = st_now st /\ st_trace st' = st_trace st.

(** The image has the status [status]. *)
Definition has_status (status : string) (image : vpcv1.Image) : bool :=
  match vpcv1.im_Status image with
  | Some imageStatus => String.eqb status imageStatus
  | None => false
  end.

(** The image has a catalog offering whose [managed] flag is [catalogManaged]. *)
Definition managed_is (catalogManaged : bool) (image : vpcv1.Image) : bool :=
  match vpcv1.im_CatalogOffering image with
  | Some offering =>
      match vpcv1.Managed offering with
      | Some managed => Bool.eqb catalogManaged managed
      | None => false
      end
  | None => false
  end.

(** The images that pass the filter on the status. *)
Definition by_status (status : string) (image : vpcv1.Image) : bool :=
  String.eqb status "" || has_status status image.

(** The images [imageList] keeps for the arguments [status] and
    [catalog_managed]. *)
Definition selected (status : string) (catalogManaged : bool) (image : vpcv1.Image) : bool :=
  by_status status image && (negb catalogManaged || managed_is catalogManaged image).

(** The catalog offering of the image, if it has one, has its [managed] flag. *)
Definition managed_set (image : vpcv1.Image) : Prop :=
  forall offering, vpcv1.im_CatalogOffering image = Some offering ->
                   is_Some (vpcv1.Managed offering).

(** Every pointer that [imageList] dereferences in the image is set: the
    required ones, and those of the optional nested objects that are there. *)
Definition complete (image : vpcv1.Image) : Prop :=
  required_present image /\
  (forall file checksums,
     vpcv1.im_File image = Some file -> vpcv1.Checksums file = Some checksums ->
     is_Some (vpcv1.Sha256 checksums)) /\
  (forall key, vpcv1.im_EncryptionKey image = Some key -> is_Some (vpcv1.ek_CRN key)) /\
  (forall vol, vpcv1.im_SourceVolume image = Some vol -> is_Some (vpcv1.vol_ID vol)).

(** The remote of the image, if it has one, converts without error. *)
Definition remote_ok (env : vpc.ImagesEnv) (image : vpcv1.Image) : Prop :=
  forall remote, vpcv1.im_Remote image = Some remote ->
                 snd (vpc.dataSourceImageRemote env image) = None.

(** A computation that leaves the clock as it is. *)
Definition timeless {W A} (m : M W A) : Prop :=
  forall st, wp m (fun _ st' => st_now st' = st_now st) st.

(** The arguments [status] and [catalog_managed] of the images data source. *)
Definition status_arg (env : vpc.ImagesEnv) (d : schema.ResourceData) : string :=
  match schema.GetOk d (vpc.isImageStatus env) with
  | Some v => schema.as_string v
  | None => ""
  end.
Definition catalog_managed_arg (d : schema.ResourceData) : bool :=
  match schema.GetOk d vpc.isImageCatalogManaged with
  | Some v => schema.as_bool v
  | None => false
  end.

(** A list request for a later page: the options [opts] with a start token. *)
Definition later_page (opts : vpcv1.ListImagesOptions) (rq : Request) : Prop :=
  exists start, start <> "" /\ rq = ReqListImages (vpc.SetStart start opts).

(** What [imageList] leaves of the resource data [d] at time [t]: on a
    failure before the records are converted, the data as it was; after
    that the ID is the time as text and the attribute [images] is stored,
    unless the schema refuses it. *)
Definition images_outcome (env : vpc.ImagesEnv) (d : schema.ResourceData) (t : time.Duration)
    (res : diag.Diagnostics) (d' : schema.ResourceData) : Prop :=
  (res <> [] /\ d' = d) \/
  (schema.rd_id d' = vpc.timeString env t /\
   ((res = [] /\
     exists infos, schema.rd_attrs d' = <["images" := vpc.flattened infos]> (schema.rd_attrs d)) \/
    (exists e,
       schema.rd_refuse d "images" = Some e /\
       res = diag.GetDiag (flex.DiscriminatedTerraformErrorf e ("Error setting images " +:+ e)
                             "(Data) ibm_is_images" "read" "images-set") /\
       schema.rd_attrs d' = schema.rd_attrs d))).

(** The resource data after a sequence of [d.Set] calls whose errors are
    ignored. *)
Definition store_all (writes : list (string * schema.value)) (d : schema.ResourceData)
    : schema.ResourceData :=
  fold_left (fun d kv => fst (schema.Set_ (fst kv) (snd kv) d)) writes d.

(** [d'] is [d] after the writes: a key that is not written, or that the
    schema refuses, keeps its value; a key that is written once and not
    refused has the value written. *)
Definition stores (writes : list (string * schema.value)) (d d' : schema.ResourceData)
    : Prop :=
  schema.rd_id d' = schema.rd_id d /\
  (forall key, key ∉ writes.*1 \/ is_Some (schema.rd_refuse d key) ->
     schema.rd_attrs d' !! key = schema.rd_attrs d !! key) /\
  (NoDup writes.*1 ->
   forall key v, (key, v) ∈ writes -> schema.rd_refuse d key = None ->
     schema.rd_attrs d' !! key = Some v).

(** What [dataSourceIBMPIKeyRead] writes for a key. *)
Definition key_writes (names : power.Names) (key : conns.SSHKey)
    : list (string * schema.value) :=
  [(power.Attr_CreationDate names, schema.of_ptr (conns.k_CreationDate key));
   (power.Attr_Description names, schema.VStr (conns.k_Description key));
   (power.Attr_KeyName names, schema.of_ptr (conns.k_Name key));
   (power.Attr_PrimaryWorkspace names, power.of_bool_ptr (conns.k_PrimaryWorkspace key));
   (power.Attr_SSHKey names, schema.of_ptr (conns.k_SSHKey key));
   (power.Attr_SSHKeyID names, schema.VStr (conns.k_ID key));
   (power.Attr_Visibility names, schema.of_ptr (conns.k_Visibility key))].

(** What [dataSourceIBMPISPPPlacementGroupRead] writes for a placement
    group, the user tags being [tags]. *)
Definition group_writes (names : power.Names) (group : conns.SPPPlacementGroup)
    (tags : schema.value) : list (string * schema.value) :=
  ((if String.eqb (conns.pg_Crn group) "" then []
    else [(power.Attr_CRN names, schema.VStr (conns.pg_Crn group));
          (power.Attr_UserTags names, tags)]) ++
   [(power.Attr_Members names,
     schema.VList (schema.VStr <$> conns.pg_MemberSharedProcessorPools group));
    (power.Attr_Name names, schema.of_ptr (conns.pg_Name group));
    (power.Attr_Policy names, schema.of_ptr (conns.pg_Policy group))])%list.

(** The error the stable poll returns for a get request that failed with [e]. *)
Definition get_failed (e : error) : error := "GetVPNServerRouteWithContext failed: " +:+ e.

(** A Power session that knows one key and one placement group. *)
Module powerFixture.
Import schema conns.

Definition key : SSHKey :=
  {| k_CreationDate := Some "2024-01-01"; k_Description := "laptop"; k_ID := "key-1";
     k_Name := Some "my-key"; k_PrimaryWorkspace := Some true;
     k_SSHKey := Some "ssh-rsa AAAA"; k_Visibility := Some "account" |}.

Definition group : SPPPlacementGroup :=
  {| pg_Crn := ""; pg_ID := Some "pg-1"; pg_MemberSharedProcessorPools := ["pool-1"];
     pg_Name := Some "group"; pg_Policy := Some "affinity" |}.

Definition session : IBMPISession fixture.Cloud :=
  {| SSHKeyGet := fun _ _ w => ((Some key, None), w);
     SPPPlacementGroupGet := fun _ _ w => ((Some group, None), w) |}.

Definition meta : ClientSession fixture.Cloud :=
  {| VpcV1API := (None, Some "no vpc client");
     IBMPISession_ := (Some session, None);
     GetGlobalTagsUsingCRN := fun _ _ w => ((VList [], None), w) |}.

End powerFixture.

(** * Properties *)

(** ** Splitting an identifier *)

Lemma Contains_app_sep (s r : string) (sep : ascii) :
  gostrings.Contains (s +:+ String sep r) sep = true.
Proof.
  induction s as [|c s IH]; simpl.
  - by rewrite Ascii.eqb_refl.
  - destruct (Ascii.eqb c sep); [done | exact IH].
Qed.

Lemma Split_without_sep (s : string) (sep : ascii) :
  gostrings.Contains s sep = false -> gostrings.Split s sep = [s].
Proof.
  induction s as [|c s IH]; simpl; [done |].
  destruct (Ascii.eqb c sep); [done |].
  intros H. by rewrite (IH H).
Qed.

Lemma Split_at_first_sep (s r : string) (sep : ascii) :
  gostrings.Contains s sep = false ->
  gostrings.Split (s +:+ String sep r) sep = s :: gostrings.Split r sep.
Proof.
  induction s as [|c s IH]; simpl.
  - by rewrite Ascii.eqb_refl.
  - destruct (Ascii.eqb c sep); [done |].
    intros H. by rewrite (IH H).
Qed.

Lemma SepIdParts_pair (s r : string) :
  gostrings.Contains s "/" = false ->
  gostrings.Contains r "/" = false ->
  flex.SepIdParts (s +:+ "/" +:+ r) "/" = ([s; r], None).
Proof.
  intros Hs Hr. unfold flex.SepIdParts.
  change (s +:+ "/" +:+ r) with (s +:+ String "/" r).
  rewrite Contains_app_sep, (Split_at_first_sep _ _ _ Hs), (Split_without_sep _ _ Hr).
  reflexivity.
Qed.

(** An ID that contains the separator has a first and a second part. *)
Lemma Split_two_parts (id : string) (sep : ascii) :
  gostrings.Contains id sep = true ->
  exists p0 p1 rest, gostrings.Split id sep = p0 :: p1 :: rest.
Proof.
  induction id as [|c id IH]; simpl; [done |].
  destruct (Ascii.eqb c sep).
  - intros _. destruct id as [|c' id']; simpl.
    + by eexists _, _, _.
    + destruct (Ascii.eqb c' sep); [by eexists _, _, _ |].
      destruct (gostrings.Split id' sep); by eexists _, _, _.
  - intros H. destruct (IH H) as (p0 & p1 & rest & ->). by eexists _, _, _.
Qed.

(** ** Reasoning about runs *)

Section Runs.
Context {W : Type}.
Implicit Types st : St W.

Lemma wp_elim {A} (m : M W A) Q st a st' :
  wp m Q st -> m st = Done (a, st') -> Q a st'.
Proof. unfold wp. intros H E. by rewrite E in H. Qed.

Lemma wp_intro {A} (m : M W A) (Q : A -> St W -> Prop) st :
  (forall a st', m st = Done (a, st') -> Q a st') -> wp m Q st.
Proof. unfold wp. destruct (m st) as [[a st']| |]; auto. Qed.

Lemma wp_mono {A} (m : M W A) (Q Q' : A -> St W -> Prop) st :
  (forall a st', Q a st' -> Q' a st') -> wp m Q st -> wp m Q' st.
Proof. unfold wp. destruct (m st) as [[a st']| |]; auto. Qed.

Lemma wp_ret {A} (a : A) (Q : A -> St W -> Prop) st : Q a st -> wp (ret a) Q st.
Proof. done. Qed.

Lemma wp_bind {A B} (m : M W A) (f : A -> M W B) (Q : B -> St W -> Prop) st :
  wp m (fun a st' => wp (f a) Q st') st -> wp (bind m f) Q st.
Proof. unfold wp, bind. destruct (m st) as [[a st']| |]; auto. Qed.

Lemma wp_panic {A} reason (Q : A -> St W -> Prop) st : wp (panic reason) Q st.
Proof. done. Qed.

Lemma wp_diverge {A} (Q : A -> St W -> Prop) st : wp diverge Q st.
Proof. done. Qed.

Lemma wp_deref {A} (p : option A) (Q : A -> St W -> Prop) st :
  (forall a, p = Some a -> Q a st) -> wp (deref p) Q st.
Proof. destruct p; [intros H; by apply H | done]. Qed.

Lemma wp_index {A} (l : list A) i (Q : A -> St W -> Prop) st :
  (forall a, l !! i = Some a -> Q a st) -> wp (index l i) Q st.
Proof. unfold index. destruct (l !! i); [intros H; by apply H | done]. Qed.

(** [steady] is a preorder, and the requests of two runs in a row add up. *)
Lemma steady_refl P st : steady P st st.
Proof.
  split; [done |]. exists []. split; [|constructor].
  unfold issued. by rewrite app_nil_r.
Qed.

Lemma steady_trans P st1 st2 st3 :
  steady P st1 st2 -> steady P st2 st3 -> steady P st1 st3.
Proof.
  intros [Hd1 (q1 & Hq1 & HP1)] [Hd2 (q2 & Hq2 & HP2)].
  split; [congruence |]. exists (q1 ++ q2)%list. split.
  - unfold issued in *. by rewrite Hq2, Hq1, app_assoc.
  - by apply Forall_app.
Qed.

Lemma steady_sleepBefore P st deadline dt a st' :
  sleepBefore deadline dt st = Done (a, st') -> steady P st st'.
Proof.
  unfold sleepBefore. destruct (_ <=? _); intros [= _ <-]; (split; [done |]);
    exists []; (split; [|constructor]); unfold issued; simpl; by rewrite app_nil_r.
Qed.

Lemma steady_call {A} P (rq : Request) (op : W -> A * W) st a st' :
  P rq -> call rq op st = Done (a, st') -> steady P st st'.
Proof.
  unfold call. destruct (op (st_world st)) as [a' w']. intros HP [= _ <-].
  split; [done |]. exists [rq]. split; [done | by constructor].
Qed.

End Runs.

(** ** The poll helpers address the route named by the ID *)

Section Polls.
Context {W : Type}.
Implicit Types st : St W.

(** The one request a refresh issues for the ID [s/r]. *)
Lemma stable_Refresh_request (vpcClient : option (vpcv1.VpcV1 W)) (s r : string) st :
  gostrings.Contains s "/" = false ->
  gostrings.Contains r "/" = false ->
  schema.rd_id (st_d st) = s +:+ "/" +:+ r ->
  wp (vpc.isWaitForVPNServerRouteStable_Refresh vpcClient)
     (fun _ st' =>
        st_d st' = st_d st /\
        issued st st' [ReqGet {| vpcv1.g_VPNServerID := Some s; vpcv1.g_ID := Some r |}])
     st.
Proof.
  intros Hs Hr Hid. apply wp_intro. intros a st' H.
  unfold vpc.isWaitForVPNServerRouteStable_Refresh, bind, get_d, schema.Id in H.
  rewrite Hid, (SepIdParts_pair _ _ Hs Hr) in H. simpl in H.
  destruct vpcClient as [client|]; simpl in H; [|done].
  unfold call in H.
  destruct (vpcv1.GetVPNServerRouteWithContext client _ (st_world st)) as [rep w'].
  simpl in H.
  destruct (vpcv1.err rep).
  { injection H as _ <-. done. }
  destruct (vpcv1.result rep) as [route|]; simpl in H; [|done].
  destruct (vpcv1.LifecycleState route) as [state|]; simpl in H; [|done].
  destruct (_ || _)%bool; injection H as _ <-; done.
Qed.

Lemma deleted_Refresh_request (sess : option (vpcv1.VpcV1 W)) (s r : string) st :
  gostrings.Contains s "/" = false ->
  gostrings.Contains r "/" = false ->
  schema.rd_id (st_d st) = s +:+ "/" +:+ r ->
  wp (vpc.isWaitForVPNServerRouteDeleted_Refresh sess)
     (fun _ st' =>
        st_d st' = st_d st /\
        issued st st' [ReqGet {| vpcv1.g_VPNServerID := Some s; vpcv1.g_ID := Some r |}])
     st.
Proof.
  intros Hs Hr Hid. apply wp_intro. intros a st' H.
  unfold vpc.isWaitForVPNServerRouteDeleted_Refresh, bind, get_d, schema.Id in H.
  rewrite Hid, (SepIdParts_pair _ _ Hs Hr) in H. simpl in H.
  destruct sess as [client|]; simpl in H; [|done].
  unfold call in H.
  destruct (vpcv1.GetVPNServerRouteWithContext client _ (st_world st)) as [rep w'].
  simpl in H.
  destruct (vpcv1.err rep).
  { destruct (vpcv1.response rep) as [resp|];
      [destruct (vpcv1.StatusCode resp =? 404)|]; injection H as _ <-; done. }
  destruct (vpcv1.result rep) as [route|]; simpl in H; [|done].
  destruct (vpcv1.LifecycleState route) as [state|]; simpl in H; [|done].
  injection H as _ <-; done.
Qed.

End Polls.

(** ** Invariants of [WaitForState] *)

Section WaitInvariant.
Context {W R : Type}.
Implicit Types st : St W.
Variable conf : resource.StateChangeConf W R.
Variable Pre : schema.ResourceData -> Prop.
Variable P : Request -> Prop.
Hypothesis Refresh_steady :
  forall st, Pre (st_d st) ->
    wp (resource.Refresh conf) (fun _ st' => steady P st st') st.

Lemma refreshLoop_steady fuel deadline wait tick st :
  Pre (st_d st) ->
  wp (resource.refreshLoop fuel conf deadline wait tick)
     (fun _ st' => steady P st st') st.
Proof.
  revert deadline wait tick st.
  induction fuel as [|fuel IH]; intros deadline wait tick st HPre; [done |].
  apply wp_intro. intros a st' H. simpl in H.
  unfold bind at 1 in H.
  destruct (sleepBefore deadline wait st) as [[inTime st1]| |] eqn:Hsleep; try done.
  pose proof (steady_sleepBefore P _ _ _ _ _ Hsleep) as S1.
  destruct inTime; cbn [negb] in H.
  2:{ injection H as _ <-. done. }
  unfold bind at 1 in H.
  assert (HPre1 : Pre (st_d st1)) by (destruct S1 as [-> _]; done).
  pose proof (Refresh_steady st1 HPre1) as HR. unfold wp in HR.
  destruct (resource.Refresh conf st1) as [[[[res state] err] st2]| |]; try done.
  assert (S2 : steady P st st2) by (eapply steady_trans; eauto).
  assert (HPre2 : Pre (st_d st2)) by (destruct HR as [-> _]; done).
  assert (Hrec : forall w t, resource.refreshLoop fuel conf deadline w t st2 = Done (a, st') ->
                             steady P st st').
  { intros w t E. eapply steady_trans; [exact S2 |].
    exact (wp_elim _ _ _ _ _ (IH deadline w t st2 HPre2) E). }
  destruct err.
  { injection H as _ <-. done. }
  destruct res.
  - destruct (resource.inStates state (resource.Target conf)).
    { injection H as _ <-. done. }
    destruct (resource.inStates state (resource.Pending conf)); [by eapply Hrec |].
    destruct (Nat.ltb 0 (length (resource.Pending conf))); [|by eapply Hrec].
    injection H as _ <-. done.
  - destruct (Nat.eqb (length (resource.Target conf)) 0).
    { injection H as _ <-. done. }
    destruct (Nat.ltb resource.NotFoundChecks (S tick)); [|by eapply Hrec].
    injection H as _ <-. done.
Qed.

Lemma WaitForState_steady st :
  Pre (st_d st) ->
  wp (resource.WaitForState conf) (fun _ st' => steady P st st') st.
Proof.
  intros HPre. apply wp_intro. intros a st' H.
  unfold resource.WaitForState, bind at 1, now at 1 in H. cbv zeta in H.
  unfold bind at 1 in H.
  destruct (sleepBefore _ (resource.Delay conf) st) as [[inTime st1]| |] eqn:Hsleep; try done.
  pose proof (steady_sleepBefore P _ _ _ _ _ Hsleep) as S1.
  destruct inTime; cbn [negb] in H.
  2:{ injection H as _ <-. done. }
  eapply steady_trans; [exact S1 |].
  assert (HPre1 : Pre (st_d st1)) by (destruct S1 as [-> _]; done).
  exact (wp_elim _ _ _ _ _ (refreshLoop_steady _ _ _ _ st1 HPre1) H).
Qed.

End WaitInvariant.

(** ** The read handler after its get request *)

Section ReadSets.
Context {W : Type}.
Implicit Types st : St W.

(** Storing an attribute leaves the ID, the cloud, the clock and the
    requests as they are. *)
Lemma d_Set_frame key v st e st' :
  d_Set key v st = Done (e, st') ->
  schema.rd_id (st_d st') = schema.rd_id (st_d st) /\
  st_world st' = st_world st /\ st_now st' = st_now st /\ st_trace st' = st_trace st.
Proof.
  unfold d_Set, schema.Set_.
  destruct (schema.rd_refuse (st_d st) key); intros [= _ <-]; done.
Qed.

(** A step of the chain of [Set] calls: [Q] holds of the early return and of
    what the rest of the chain returns, for an invariant [I] of the state
    that storing an attribute preserves. *)
Lemma wp_set_or_return (I : St W -> Prop) (Q : diag.Diagnostics -> St W -> Prop)
    key v component k st :
  I st ->
  (forall st1 st2 e, I st1 -> d_Set key v st1 = Done (e, st2) -> I st2) ->
  (forall e st1, I st1 ->
     Q (diag.GetDiag (flex.DiscriminatedTerraformErrorf e e
                        "ibm_is_vpn_server_route" "read" component)) st1) ->
  (forall st1, I st1 -> wp k Q st1) ->
  wp (vpc.set_or_return key v component k) Q st.
Proof.
  intros HI Hset Hret Hk. apply wp_intro. intros a st' H.
  unfold vpc.set_or_return, bind in H.
  destruct (d_Set key v st) as [[e st1]| |] eqn:E; try done.
  pose proof (Hset _ _ _ HI E) as HI1.
  destruct e.
  - injection H as <- <-. by apply Hret.
  - exact (wp_elim _ _ _ _ _ (Hk st1 HI1) H).
Qed.

End ReadSets.

(** Runs the chain of [Set] calls of the read handler under [wp], given the
    invariant [I] and tactics for its three obligations. *)
Ltac wp_sets I tset tret :=
  repeat first
    [ apply (wp_set_or_return I); [assumption | tset | tret | intros ? ?]
    | apply wp_bind, wp_deref; intros ? ?
    | match goal with
      | |- wp (match ?x with Some _ => _ | None => _ end) _ _ => destruct x
      end ].

Section Primitives.
Context {W : Type}.
Implicit Types st : St W.

Lemma wp_get_d (Q : schema.ResourceData -> St W -> Prop) st :
  Q (st_d st) st -> wp get_d Q st.
Proof. done. Qed.

Lemma wp_now (Q : time.Duration -> St W -> Prop) st :
  Q (st_now st) st -> wp now Q st.
Proof. done. Qed.

Lemma wp_modify_d f (Q : unit -> St W -> Prop) st :
  Q tt {| st_d := f (st_d st); st_world := st_world st;
          st_now := st_now st; st_trace := st_trace st |} ->
  wp (modify_d f) Q st.
Proof. done. Qed.

Lemma wp_call {A} rq (op : W -> A * W) (Q : A -> St W -> Prop) st :
  (forall a w', op (st_world st) = (a, w') ->
     Q a {| st_d := st_d st; st_world := w';
            st_now := st_now st; st_trace := (st_trace st ++ [rq])%list |}) ->
  wp (call rq op) Q st.
Proof.
  intros H. unfold wp, call. destruct (op (st_world st)) as [a w']. by apply H.
Qed.

Lemma wp_effect {A} (op : W -> A * W) (Q : A -> St W -> Prop) st :
  (forall a w', op (st_world st) = (a, w') ->
     Q a {| st_d := st_d st; st_world := w';
            st_now := st_now st; st_trace := st_trace st |}) ->
  wp (effect op) Q st.
Proof.
  intros H. unfold wp, effect. destruct (op (st_world st)) as [a w']. by apply H.
Qed.

Lemma wp_d_Set key v (Q : option error -> St W -> Prop) st :
  (forall e st', d_Set key v st = Done (e, st') -> Q e st') ->
  wp (d_Set key v) Q st.
Proof. apply wp_intro. Qed.

End Primitives.

(** Indexing a slice whose elements are known. *)
Ltac wp_idx :=
  apply wp_bind, wp_index;
  let a := fresh "part" in
  let E := fresh "E" in
  intros a E; cbn in E; injection E as <-.

(** ** The requests of the handlers name the route of the ID *)

Section HandlerRequests.
Context {W : Type}.
Implicit Types st : St W.
Variables s r : string.
Hypothesis Hs : gostrings.Contains s "/" = false.
Hypothesis Hr : gostrings.Contains r "/" = false.

Let getOptions :=
  {| vpcv1.g_VPNServerID := Some s; vpcv1.g_ID := Some r |}.

(** What the read handler issues: nothing when the client cannot be
    initialised, else one get request for [s] and [r]. *)
Lemma Read_requests (meta : conns.ClientSession W) st :
  schema.rd_id (st_d st) = s +:+ "/" +:+ r ->
  wp (vpc.resourceIBMIsVPNServerRouteRead meta)
     (fun _ st' =>
        issued st st' (match snd (conns.VpcV1API meta) with
                       | Some _ => []
                       | None => [ReqGet getOptions]
                       end))
     st.
Proof.
  intros Hid. unfold vpc.resourceIBMIsVPNServerRouteRead, vpc.vpcClient.
  destruct (conns.VpcV1API meta) as [sess [e|]]; simpl.
  { apply wp_ret. unfold issued. by rewrite app_nil_r. }
  apply wp_bind, wp_get_d. unfold schema.Id.
  rewrite Hid, (SepIdParts_pair _ _ Hs Hr). cbv beta iota.
  do 2 wp_idx.
  apply wp_bind, wp_deref. intros client _.
  apply wp_bind, wp_call. intros rep w' _. cbv zeta.
  set (st1 := {| st_d := st_d st; st_world := w' |}).
  assert (Hst1 : st_trace st1 = (st_trace st ++ [ReqGet getOptions])%list) by done.
  clearbody st1.
  destruct (vpcv1.err rep).
  { destruct (vpcv1.response rep) as [resp|];
      [destruct (vpcv1.StatusCode resp =? 404)|]; done. }
  wp_sets (fun st2 : St W => st_trace st2 = (st_trace st ++ [ReqGet getOptions])%list)
          ltac:(intros ? ? ? ? E; apply d_Set_frame in E; destruct E as (_ & _ & _ & ->); assumption)
          ltac:(intros ? ? E; exact E).
  all: apply wp_ret; assumption.
Qed.








End HandlerRequests.



(** ** What [WaitForState] returns *)

Section WaitRuns.
Context {W R : Type}.
Implicit Types st : St W.
Variable conf : resource.StateChangeConf W R.
Hypothesis Refresh_clock_free : clock_free (resource.Refresh conf).
Hypothesis MinTimeout_10s : resource.MinTimeout conf = 10 * time.Second.

Lemma sleepBefore_in_time deadline dt st :
  0 <= dt -> st_now st + dt < deadline ->
  sleepBefore deadline dt st = Done (true, advance dt st).
Proof.
  intros H0 H. unfold sleepBefore. rewrite Z.max_r by lia.
  replace (deadline <=? st_now st + dt) with false by (symmetry; apply Z.leb_gt; lia).
  reflexivity.
Qed.

Lemma sleepBefore_late deadline dt st :
  0 <= dt -> deadline <= st_now st + dt ->
  sleepBefore deadline dt st = Done (false, at_time (Z.max (st_now st) deadline) st).
Proof.
  intros H0 H. unfold sleepBefore. rewrite Z.max_r by lia.
  replace (deadline <=? st_now st + dt) with true by (symmetry; apply Z.leb_le; lia).
  reflexivity.
Qed.

Lemma at_time_advance t dt st : at_time t (advance dt st) = at_time t st.
Proof. done. Qed.

Lemma advance_advance dt1 dt2 st : advance dt1 (advance dt2 st) = advance (dt2 + dt1) st.
Proof. unfold advance; simpl. f_equal. lia. Qed.

Lemma advance_eq dt1 dt2 st : dt1 = dt2 -> advance dt1 st = advance dt2 st.
Proof. by intros ->. Qed.

Lemma Refresh_advance dt st a st' :
  resource.Refresh conf st = Done (a, st') ->
  resource.Refresh conf (advance dt st) = Done (a, advance dt st').
Proof. intros E. destruct (Refresh_clock_free st) as [H _]. by rewrite H, E. Qed.

Lemma Refresh_now st a st' :
  resource.Refresh conf st = Done (a, st') -> st_now st' = st_now st.
Proof. intros E. destruct (Refresh_clock_free st) as [_ H]. by eapply H. Qed.

Lemma rounds_advance dt seen st st' :
  rounds conf seen st st' -> rounds conf seen (advance dt st) (advance dt st').
Proof.
  induction 1 as [|? ? ? ? ? ? HR _ IH]; [constructor |].
  econstructor; [|exact IH]. by apply Refresh_advance.
Qed.

Lemma rounds_now seen st st' : rounds conf seen st st' -> st_now st' = st_now st.
Proof.
  induction 1 as [|? ? ? ? ? ? HR _ IH]; [done |].
  rewrite IH. by eapply Refresh_now.
Qed.

(** With a minimal wait of ten seconds, every wait after the first, which is
    zero, lasts ten seconds. *)
Lemma nextWait_10s wait :
  wait = 0 \/ wait = 10 * time.Second ->
  resource.nextWait conf wait = 10 * time.Second.
Proof.
  unfold resource.nextWait. rewrite MinTimeout_10s.
  intros [-> | ->]; reflexivity.
Qed.

Lemma wait_nonneg wait : wait = 0 \/ wait = 10 * time.Second -> 0 <= wait.
Proof. intros [-> | ->]; done. Qed.

(** One round of the loop that sees a pending state. *)
Lemma refreshLoop_pending fuel deadline wait tick st res state st1 :
  wait = 0 \/ wait = 10 * time.Second ->
  st_now st + wait < deadline ->
  resource.Refresh conf st = Done ((Some res, state, None), st1) ->
  is_pending conf state ->
  resource.refreshLoop (S fuel) conf deadline wait tick st =
  resource.refreshLoop fuel conf deadline (10 * time.Second) 0 (advance wait st1).
Proof.
  intros Hwait Htime HR [Htarget Hpending].
  cbn [resource.refreshLoop]. unfold bind at 1.
  rewrite (sleepBefore_in_time _ _ _ (wait_nonneg _ Hwait) Htime). cbn [negb].
  unfold bind at 1. rewrite (Refresh_advance _ _ _ _ HR).
  rewrite Htarget, Hpending, (nextWait_10s _ Hwait). reflexivity.
Qed.

(** One round of the loop past the deadline. *)
Lemma refreshLoop_late fuel deadline wait tick st :
  wait = 0 \/ wait = 10 * time.Second ->
  deadline <= st_now st + wait ->
  resource.refreshLoop (S fuel) conf deadline wait tick st =
  Done ((None, Some resource.TimeoutError), at_time (Z.max (st_now st) deadline) st).
Proof.
  intros Hwait Htime.
  cbn [resource.refreshLoop]. unfold bind at 1.
  rewrite (sleepBefore_late _ _ _ (wait_nonneg _ Hwait) Htime). reflexivity.
Qed.

(** One round of the loop that sees a target state. *)
Lemma refreshLoop_target fuel deadline wait tick st res state st1 :
  wait = 0 \/ wait = 10 * time.Second ->
  st_now st + wait < deadline ->
  resource.Refresh conf st = Done ((Some res, state, None), st1) ->
  resource.inStates state (resource.Target conf) = true ->
  resource.refreshLoop (S fuel) conf deadline wait tick st =
  Done ((Some res, None), advance wait st1).
Proof.
  intros Hwait Htime HR Htarget.
  cbn [resource.refreshLoop]. unfold bind at 1.
  rewrite (sleepBefore_in_time _ _ _ (wait_nonneg _ Hwait) Htime). cbn [negb].
  unfold bind at 1. rewrite (Refresh_advance _ _ _ _ HR), Htarget. reflexivity.
Qed.

(** The loop runs through the pending rounds, then returns the object of
    the first round that reports a target state. *)
Lemma refreshLoop_reaches seen : forall fuel deadline wait tick st st1 res state st2,
  wait = 0 \/ wait = 10 * time.Second ->
  rounds conf seen st st1 ->
  Forall (fun rs => is_pending conf (snd rs)) seen ->
  resource.Refresh conf st1 = Done ((Some res, state, None), st2) ->
  resource.inStates state (resource.Target conf) = true ->
  st_now st + wait + 10 * time.Second * Z.of_nat (length seen) < deadline ->
  (length seen < fuel)%nat ->
  resource.refreshLoop fuel conf deadline wait tick st =
  Done ((Some res, None), advance (wait + 10 * time.Second * Z.of_nat (length seen)) st2).
Proof.
  induction seen as [|[res0 state0] seen IH];
    intros fuel deadline wait tick st st1 res state st2 Hwait Hrounds Hpend HR Htarget Htime Hfuel.
  - inversion Hrounds; subst.
    destruct fuel as [|fuel]; [simpl in Hfuel; lia |].
    simpl length in Htime.
    rewrite (refreshLoop_target fuel deadline wait tick st1 res state st2 Hwait);
      [| lia | exact HR | exact Htarget].
    do 2 f_equal. apply advance_eq. simpl. lia.
  - inversion Hrounds as [|? ? ? st0 ? ? HR0 Hrest]; subst.
    inversion Hpend as [|? ? Hp0 Hpend']; subst.
    destruct fuel as [|fuel]; [simpl in Hfuel; lia |].
    simpl length in *.
    assert (0 < time.Second) by done.
    rewrite (refreshLoop_pending fuel deadline wait tick st res0 state0 st0 Hwait);
      [| nia | exact HR0 | exact Hp0].
    rewrite (IH fuel deadline _ 0%nat _ _ res state (advance wait st2)
               (or_intror eq_refl) (rounds_advance wait _ _ _ Hrest) Hpend').
    + rewrite advance_advance. do 2 f_equal. apply advance_eq. lia.
    + by apply Refresh_advance.
    + exact Htarget.
    + cbn [st_now advance]. rewrite (Refresh_now _ _ _ HR0). lia.
    + lia.
Qed.

(** The loop runs through the pending rounds and finds the deadline passed
    before the next one. *)
Lemma refreshLoop_times_out seen : forall fuel deadline wait tick st st1,
  wait = 0 \/ wait = 10 * time.Second ->
  rounds conf seen st st1 ->
  Forall (fun rs => is_pending conf (snd rs)) seen ->
  (seen <> [] ->
   st_now st + wait + 10 * time.Second * (Z.of_nat (length seen) - 1) < deadline) ->
  deadline <= st_now st + wait + 10 * time.Second * Z.of_nat (length seen) ->
  (length seen < fuel)%nat ->
  resource.refreshLoop fuel conf deadline wait tick st =
  Done ((None, Some resource.TimeoutError), at_time (Z.max (st_now st) deadline) st1).
Proof.
  induction seen as [|[res0 state0] seen IH];
    intros fuel deadline wait tick st st1 Hwait Hrounds Hpend Hfit Hlate Hfuel.
  - inversion Hrounds; subst.
    destruct fuel as [|fuel]; [simpl in Hfuel; lia |].
    simpl length in Hlate.
    rewrite (refreshLoop_late fuel deadline wait tick st1 Hwait); [|lia].
    reflexivity.
  - inversion Hrounds as [|? ? ? st0 ? ? HR0 Hrest]; subst.
    inversion Hpend as [|? ? Hp0 Hpend']; subst.
    destruct fuel as [|fuel]; [simpl in Hfuel; lia |].
    simpl length in *.
    assert (0 < time.Second) by done.
    specialize (Hfit ltac:(done)).
    rewrite (refreshLoop_pending fuel deadline wait tick st res0 state0 st0 Hwait);
      [| nia | exact HR0 | exact Hp0].
    pose proof (wait_nonneg _ Hwait) as Hw0.
    rewrite (IH fuel deadline _ 0%nat _ _
               (or_intror eq_refl) (rounds_advance wait _ _ _ Hrest) Hpend').
    + rewrite at_time_advance. cbn [st_now advance].
      rewrite (Refresh_now _ _ _ HR0). do 3 f_equal. nia.
    + intros _. cbn [st_now advance]. rewrite (Refresh_now _ _ _ HR0). lia.
    + cbn [st_now advance]. rewrite (Refresh_now _ _ _ HR0). lia.
    + lia.
Qed.

End WaitRuns.

Section WaitForStateRuns.
Context {W R : Type}.
Implicit Types st : St W.
Variable conf : resource.StateChangeConf W R.
Hypothesis Refresh_clock_free : clock_free (resource.Refresh conf).
Hypothesis MinTimeout_10s : resource.MinTimeout conf = 10 * time.Second.
Hypothesis Delay_10s : resource.Delay conf = 10 * time.Second.

Lemma budget_suffices (n : nat) :
  (n <> 0%nat -> 10 * time.Second * Z.of_nat n < resource.Timeout conf) ->
  (n < resource.refreshBudget conf)%nat.
Proof.
  intros H. unfold resource.refreshBudget.
  destruct n as [|n]; [lia |]. specialize (H ltac:(done)).
  assert (Z.of_nat (S n) <= resource.Timeout conf / (200 * time.Millisecond)); [|lia].
  apply Z.div_le_lower_bound; [done |].
  unfold time.Second, time.Millisecond in *. lia.
Qed.

(** [WaitForState] polls first after ten seconds and then every ten seconds;
    it returns the object of the first poll that reports a target state. *)
Lemma WaitForState_reaches seen st st1 res state st2 :
  rounds conf seen st st1 ->
  Forall (fun rs => is_pending conf (snd rs)) seen ->
  resource.Refresh conf st1 = Done ((Some res, state, None), st2) ->
  resource.inStates state (resource.Target conf) = true ->
  10 * time.Second * (Z.of_nat (length seen) + 1) < resource.Timeout conf ->
  resource.WaitForState conf st =
  Done ((Some res, None), advance (10 * time.Second * (Z.of_nat (length seen) + 1)) st2).
Proof.
  intros Hrounds Hpend HR Htarget Htime.
  assert (0 < time.Second) by done.
  unfold resource.WaitForState. unfold bind at 1, now at 1. cbv zeta. unfold bind at 1.
  rewrite Delay_10s, sleepBefore_in_time by lia. cbn [negb].
  rewrite (refreshLoop_reaches conf Refresh_clock_free MinTimeout_10s seen _ _ 0 0%nat _ _
             res state (advance (10 * time.Second) st2)
             (or_introl eq_refl) (rounds_advance conf Refresh_clock_free _ _ _ _ Hrounds) Hpend).
  - rewrite advance_advance. do 2 f_equal. apply advance_eq. lia.
  - by apply Refresh_advance.
  - exact Htarget.
  - cbn [st_now advance]. lia.
  - apply budget_suffices. intros _. lia.
Qed.

(** [WaitForState] fails with a timeout when every poll that starts before
    the deadline reports a pending state. *)
Lemma WaitForState_times_out seen st st1 :
  rounds conf seen st st1 ->
  Forall (fun rs => is_pending conf (snd rs)) seen ->
  (seen <> [] -> 10 * time.Second * Z.of_nat (length seen) < resource.Timeout conf) ->
  resource.Timeout conf <= 10 * time.Second * (Z.of_nat (length seen) + 1) ->
  resource.WaitForState conf st =
  Done ((None, Some resource.TimeoutError),
        at_time (st_now st + Z.max 0 (resource.Timeout conf)) st1).
Proof.
  intros Hrounds Hpend Hfit Hlate.
  assert (0 < time.Second) by done.
  unfold resource.WaitForState. unfold bind at 1, now at 1. cbv zeta. unfold bind at 1.
  rewrite Delay_10s.
  destruct seen as [|rs seen].
  - inversion Hrounds; subst. simpl length in Hlate.
    rewrite sleepBefore_late by lia. cbn [negb]. unfold ret. do 3 f_equal. lia.
  - specialize (Hfit ltac:(done)). cbn [length] in *.
    rewrite sleepBefore_in_time by lia. cbn [negb].
    rewrite (refreshLoop_times_out conf Refresh_clock_free MinTimeout_10s (rs :: seen)
               _ _ 0 0%nat _ _
               (or_introl eq_refl) (rounds_advance conf Refresh_clock_free _ _ _ _ Hrounds)
               Hpend).
    + rewrite at_time_advance. cbn [st_now advance]. do 3 f_equal. lia.
    + intros _. cbn [st_now advance length]. lia.
    + cbn [st_now advance length]. lia.
    + apply budget_suffices. intros _. cbn [length]. lia.
Qed.

End WaitForStateRuns.

(** ** [WaitForState] always ends *)

Section WaitHalts.
Context {W R : Type}.
Implicit Types st : St W.
Variable conf : resource.StateChangeConf W R.
Hypothesis Refresh_halts : forall st, resource.Refresh conf st <> Diverge.
Hypothesis Refresh_forward :
  forall st a st', resource.Refresh conf st = Done (a, st') -> st_now st <= st_now st'.

(** Every wait after the first lasts 200ms or more. *)
Lemma nextWait_lower wait :
  wait = 0 \/ 200 * time.Millisecond <= wait ->
  200 * time.Millisecond <= resource.nextWait conf wait.
Proof.
  intros Hwait. unfold resource.nextWait.
  set (w := 2 * _).
  assert (200 * time.Millisecond <= w).
  { subst w. destruct Hwait as [-> | Hwait]; [done |].
    destruct (Z.eqb_spec wait 0); unfold time.Millisecond in *; lia. }
  destruct (Z.ltb_spec w (resource.MinTimeout conf)); [lia |].
  destruct (Z.ltb_spec (10 * time.Second) w); [done | lia].
Qed.

(** The loop ends within the rounds that fit before the deadline. *)
Lemma refreshLoop_halts fuel : forall deadline wait tick st,
  wait = 0 \/ 200 * time.Millisecond <= wait ->
  deadline - (st_now st + wait) <= 200 * time.Millisecond * (Z.of_nat fuel - 1) ->
  (1 <= fuel)%nat ->
  resource.refreshLoop fuel conf deadline wait tick st <> Diverge.
Proof.
  induction fuel as [|fuel IH]; intros deadline wait tick st Hwait Hfit Hfuel; [lia |].
  assert (Hw0 : 0 <= wait) by (unfold time.Millisecond in *; lia).
  cbn [resource.refreshLoop]. unfold bind at 1, sleepBefore.
  rewrite Z.max_r by exact Hw0.
  destruct (Z.leb_spec deadline (st_now st + wait)) as [Hlate | Hearly]; [done |].
  cbn [negb]. unfold bind at 1.
  match goal with |- context [resource.Refresh conf ?st1] =>
    pose proof (Refresh_halts st1) as Hh;
    pose proof (Refresh_forward st1) as Hf;
    destruct (resource.Refresh conf st1) as [[[[res state] err] st2]| |]; [|done..]
  end.
  specialize (Hf _ _ eq_refl). cbn [st_now] in Hf.
  pose proof (nextWait_lower wait Hwait) as Hnext.
  assert (Hrec : forall t,
            resource.refreshLoop fuel conf deadline (resource.nextWait conf wait) t st2
            <> Diverge).
  { intros t. apply IH; [by right | |]; unfold time.Millisecond in *; lia. }
  destruct err; [done |].
  destruct res.
  - destruct (resource.inStates state (resource.Target conf)); [done |].
    destruct (resource.inStates state (resource.Pending conf)); [apply Hrec |].
    destruct (Nat.ltb 0 (length (resource.Pending conf))); [done | apply Hrec].
  - destruct (Nat.eqb (length (resource.Target conf)) 0); [done |].
    destruct (Nat.ltb resource.NotFoundChecks (S tick)); [done | apply Hrec].
Qed.

Lemma WaitForState_halts st : resource.WaitForState conf st <> Diverge.
Proof.
  unfold resource.WaitForState. unfold bind at 1, now at 1. cbv zeta.
  unfold bind at 1, sleepBefore.
  destruct (Z.leb_spec (st_now st + resource.Timeout conf)
              (st_now st + Z.max 0 (resource.Delay conf))) as [Hlate | Hearly]; [done |].
  cbn [negb]. apply refreshLoop_halts; [by left | | unfold resource.refreshBudget; lia].
  cbn [st_now]. unfold resource.refreshBudget.
  assert (0 <= resource.Timeout conf) by lia.
  pose proof (Z.mul_succ_div_gt (resource.Timeout conf) (200 * time.Millisecond) eq_refl).
  rewrite Nat2Z.inj_add, Z2Nat.id by (apply Z.div_pos; [lia | done]).
  lia.
Qed.

End WaitHalts.

(** ** The refresh closures of the poll helpers *)

Section Refreshes.
Context {W : Type}.
Implicit Types st : St W.
Variable client : vpcv1.VpcV1 W.

Lemma stable_Refresh_clock_free :
  clock_free (vpc.isWaitForVPNServerRouteStable_Refresh (Some client)).
Proof.
  intros st. unfold vpc.isWaitForVPNServerRouteStable_Refresh, bind, get_d, index, call, deref, ret, panic.
  split; [intros dt | intros a st']; cbn [advance st_d st_world st_now st_trace];
    repeat (case_match; simplify_eq/=; try done).
  all: by intros [= _ <-].
Qed.

Lemma stable_Refresh_halts (sess : option (vpcv1.VpcV1 W)) st :
  vpc.isWaitForVPNServerRouteStable_Refresh sess st <> Diverge.
Proof.
  unfold vpc.isWaitForVPNServerRouteStable_Refresh, bind, get_d, index, call, deref, ret, panic.
  repeat (case_match; simplify_eq/=; try done).
Qed.

Lemma deleted_Refresh_halts (sess : option (vpcv1.VpcV1 W)) st :
  vpc.isWaitForVPNServerRouteDeleted_Refresh sess st <> Diverge.
Proof.
  unfold vpc.isWaitForVPNServerRouteDeleted_Refresh, bind, get_d, index, call, deref, ret, panic.
  repeat (case_match; simplify_eq/=; try done).
Qed.

Lemma stable_Refresh_forward (sess : option (vpcv1.VpcV1 W)) st a st' :
  vpc.isWaitForVPNServerRouteStable_Refresh sess st = Done (a, st') ->
  st_now st <= st_now st'.
Proof.
  unfold vpc.isWaitForVPNServerRouteStable_Refresh, bind, get_d, index, call, deref, ret, panic.
  repeat (case_match; simplify_eq/=; try done); intros [= _ <-]; cbn; lia.
Qed.

Lemma deleted_Refresh_forward (sess : option (vpcv1.VpcV1 W)) st a st' :
  vpc.isWaitForVPNServerRouteDeleted_Refresh sess st = Done (a, st') ->
  st_now st <= st_now st'.
Proof.
  unfold vpc.isWaitForVPNServerRouteDeleted_Refresh, bind, get_d, index, call, deref, ret, panic.
  repeat (case_match; simplify_eq/=; try done); intros [= _ <-]; cbn; lia.
Qed.

(** Both polls end, whatever the cloud answers. *)
Lemma Stable_halts (sess : option (vpcv1.VpcV1 W)) timeout st :
  vpc.isWaitForVPNServerRouteStable sess timeout st <> Diverge.
Proof.
  apply WaitForState_halts;
    [apply stable_Refresh_halts | apply stable_Refresh_forward].
Qed.

Lemma Deleted_halts (sess : option (vpcv1.VpcV1 W)) st :
  vpc.isWaitForVPNServerRouteDeleted sess st <> Diverge.
Proof.
  unfold vpc.isWaitForVPNServerRouteDeleted. unfold bind at 1, get_d at 1.
  apply WaitForState_halts;
    [apply deleted_Refresh_halts | apply deleted_Refresh_forward].
Qed.

Lemma deleted_Refresh_clock_free :
  clock_free (vpc.isWaitForVPNServerRouteDeleted_Refresh (Some client)).
Proof.
  intros st. unfold vpc.isWaitForVPNServerRouteDeleted_Refresh, bind, get_d, index, call, deref, ret, panic.
  split; [intros dt | intros a st']; cbn [advance st_d st_world st_now st_trace];
    repeat (case_match; simplify_eq/=; try done).
  all: by intros [= _ <-].
Qed.

End Refreshes.

Section PollRuns.
Context {W : Type}.
Implicit Types st : St W.
Variable client : vpcv1.VpcV1 W.
Variables s r : string.
Hypothesis Hs : gostrings.Contains s "/" = false.
Hypothesis Hr : gostrings.Contains r "/" = false.

Let getOptions := {| vpcv1.g_VPNServerID := Some s; vpcv1.g_ID := Some r |}.
Let get := vpcv1.GetVPNServerRouteWithContext client getOptions.

Lemma after_0_0 st rq : after st (st_world st) 0 0 rq = st.
Proof.
  destruct st. unfold after; simpl. f_equal; [lia | by rewrite app_nil_r].
Qed.

Lemma after_after st w1 w2 dt1 dt2 n1 n2 rq :
  after (after st w1 dt1 n1 rq) w2 dt2 n2 rq = after st w2 (dt1 + dt2) (n1 + n2) rq.
Proof.
  unfold after; simpl. f_equal; [lia |].
  by rewrite <- app_assoc, replicate_add.
Qed.

Lemma advance_after dt st w dt0 n rq :
  advance dt (after st w dt0 n rq) = after st w (dt0 + dt) n rq.
Proof. unfold advance, after; simpl. f_equal. lia. Qed.

Lemma at_time_after dt st w dt0 n rq :
  at_time (st_now st + dt) (after st w dt0 n rq) = after st w dt n rq.
Proof. done. Qed.

Lemma seen_in_reports rep state : reports rep state -> seen_in rep = (vpcv1.result rep, state).
Proof. intros [_ (route & Hres & Hstate)]. unfold seen_in. by rewrite Hres, Hstate. Qed.

(** A refresh of the stable poll on a get request that succeeds. *)
Lemma stable_Refresh_reports st rep w1 state :
  schema.rd_id (st_d st) = s +:+ "/" +:+ r ->
  get (st_world st) = (rep, w1) ->
  reports rep state ->
  vpc.isWaitForVPNServerRouteStable_Refresh (Some client) st =
  Done ((Some (vpcv1.result rep), state, None), after st w1 0 1 (ReqGet getOptions)).
Proof.
  intros Hid Hget [Herr (route & Hres & Hstate)].
  unfold vpc.isWaitForVPNServerRouteStable_Refresh, bind, get_d, schema.Id.
  rewrite Hid, (SepIdParts_pair _ _ Hs Hr). cbn.
  unfold call. fold getOptions. fold get. rewrite Hget. cbn.
  rewrite Herr, Hres. cbn. rewrite Hstate. cbn.
  destruct (_ || _)%bool; unfold ret, after; do 2 f_equal; f_equal; lia.
Qed.

(** A refresh of the delete poll on a get request that succeeds. *)
Lemma deleted_Refresh_reports st rep w1 state :
  schema.rd_id (st_d st) = s +:+ "/" +:+ r ->
  get (st_world st) = (rep, w1) ->
  reports rep state ->
  vpc.isWaitForVPNServerRouteDeleted_Refresh (Some client) st =
  Done ((Some (vpcv1.result rep), state, None), after st w1 0 1 (ReqGet getOptions)).
Proof.
  intros Hid Hget [Herr (route & Hres & Hstate)].
  unfold vpc.isWaitForVPNServerRouteDeleted_Refresh, bind, get_d, schema.Id.
  rewrite Hid, (SepIdParts_pair _ _ Hs Hr). cbn.
  unfold call. fold getOptions. fold get. rewrite Hget. cbn.
  rewrite Herr, Hres. cbn. rewrite Hstate. cbn.
  unfold ret, after; do 2 f_equal; f_equal; lia.
Qed.

(** A refresh of the delete poll on a get request that fails with 404. *)
Lemma deleted_Refresh_gone st rep w1 :
  schema.rd_id (st_d st) = s +:+ "/" +:+ r ->
  get (st_world st) = (rep, w1) ->
  fails_with rep 404 ->
  vpc.isWaitForVPNServerRouteDeleted_Refresh (Some client) st =
  Done ((Some (vpcv1.result rep), "deleted", None), after st w1 0 1 (ReqGet getOptions)).
Proof.
  intros Hid Hget (e & resp & Herr & Hresp & Hcode).
  unfold vpc.isWaitForVPNServerRouteDeleted_Refresh, bind, get_d, schema.Id.
  rewrite Hid, (SepIdParts_pair _ _ Hs Hr). cbn.
  unfold call. fold getOptions. fold get. rewrite Hget. cbn.
  rewrite Herr, Hresp, Hcode. cbn.
  unfold ret, after; do 2 f_equal; f_equal; lia.
Qed.

(** Successive refreshes of the stable poll, on get requests that succeed. *)
Lemma stable_rounds timeout replies : forall st w',
  schema.rd_id (st_d st) = s +:+ "/" +:+ r ->
  answers get replies (st_world st) w' ->
  Forall (fun rep => exists state, reports rep state) replies ->
  rounds (vpc.isWaitForVPNServerRouteStable_stateConf (Some client) timeout)
         (seen_in <$> replies) st
         (after st w' 0 (length replies) (ReqGet getOptions)).
Proof.
  induction replies as [|rep replies IH]; intros st w' Hid Hans Hrep.
  - inversion Hans; subst. rewrite after_0_0. constructor.
  - inversion Hans as [|? ? w1 ? ? Hget Hrest]; subst.
    inversion Hrep as [|? ? [state Hstate] Hrep']; subst.
    cbn [fmap list_fmap]. rewrite (seen_in_reports _ _ Hstate).
    econstructor.
    + cbn [resource.Refresh vpc.isWaitForVPNServerRouteStable_stateConf].
      exact (stable_Refresh_reports st rep w1 state Hid Hget Hstate).
    + specialize (IH (after st w1 0 1 (ReqGet getOptions)) w' Hid Hrest Hrep').
      rewrite after_after in IH. exact IH.
Qed.

(** Successive refreshes of the delete poll, on get requests that succeed. *)
Lemma deleted_rounds d replies : forall st w',
  schema.rd_id (st_d st) = s +:+ "/" +:+ r ->
  answers get replies (st_world st) w' ->
  Forall (fun rep => exists state, reports rep state) replies ->
  rounds (vpc.isWaitForVPNServerRouteDeleted_stateConf (Some client) d)
         (seen_in <$> replies) st
         (after st w' 0 (length replies) (ReqGet getOptions)).
Proof.
  induction replies as [|rep replies IH]; intros st w' Hid Hans Hrep.
  - inversion Hans; subst. rewrite after_0_0. constructor.
  - inversion Hans as [|? ? w1 ? ? Hget Hrest]; subst.
    inversion Hrep as [|? ? [state Hstate] Hrep']; subst.
    cbn [fmap list_fmap]. rewrite (seen_in_reports _ _ Hstate).
    econstructor.
    + cbn [resource.Refresh vpc.isWaitForVPNServerRouteDeleted_stateConf].
      exact (deleted_Refresh_reports st rep w1 state Hid Hget Hstate).
    + specialize (IH (after st w1 0 1 (ReqGet getOptions)) w' Hid Hrest Hrep').
      rewrite after_after in IH. exact IH.
Qed.

Lemma answers_app {A} (op : W -> A * W) l1 l2 w w' :
  answers op (l1 ++ l2) w w' ->
  exists w1, answers op l1 w w1 /\ answers op l2 w1 w'.
Proof.
  revert w. induction l1 as [|a l1 IH]; intros w H; simpl in H.
  - exists w. split; [constructor | exact H].
  - inversion H as [|? ? w0 ? ? Hop Hrest]; subst.
    destruct (IH _ Hrest) as (w1 & H1 & H2).
    exists w1. split; [econstructor; eassumption | exact H2].
Qed.

Lemma stable_pending_seen timeout replies :
  Forall stable_pending replies ->
  Forall (fun rep => exists state, reports rep state) replies /\
  Forall (fun rs => is_pending (vpc.isWaitForVPNServerRouteStable_stateConf
                                  (Some client) timeout) (snd rs))
         (seen_in <$> replies).
Proof.
  induction 1 as [|rep replies Hrep _ [IH1 IH2]]; [by split; constructor |].
  split; cbn [fmap list_fmap]; constructor; try assumption.
  - destruct Hrep; by eexists.
  - destruct Hrep as [H | H]; rewrite (seen_in_reports _ _ H); by split.
Qed.

Lemma deleted_pending_seen d replies :
  Forall deleted_pending replies ->
  Forall (fun rep => exists state, reports rep state) replies /\
  Forall (fun rs => is_pending (vpc.isWaitForVPNServerRouteDeleted_stateConf
                                  (Some client) d) (snd rs))
         (seen_in <$> replies).
Proof.
  induction 1 as [|rep replies Hrep _ [IH1 IH2]]; [by split; constructor |].
  split; cbn [fmap list_fmap]; constructor; try assumption.
  - destruct Hrep; by eexists.
  - destruct Hrep as [H | H]; rewrite (seen_in_reports _ _ H); by split.
Qed.

(** The stable poll returns the route of the first reply that reports
    [stable] or [failed], after as many get requests as there are replies. *)
Lemma Stable_reaches timeout st pend rep w' :
  schema.rd_id (st_d st) = s +:+ "/" +:+ r ->
  answers get (pend ++ [rep]) (st_world st) w' ->
  Forall stable_pending pend ->
  stable_target rep ->
  10 * time.Second * (Z.of_nat (length pend) + 1) < timeout ->
  vpc.isWaitForVPNServerRouteStable (Some client) timeout st =
  Done ((Some (vpcv1.result rep), None),
        after st w' (10 * time.Second * (Z.of_nat (length pend) + 1))
              (length pend + 1) (ReqGet getOptions)).
Proof.
  intros Hid Hans Hpend Htarget Htime.
  destruct (answers_app _ _ _ _ _ Hans) as (w1 & Hans1 & Hans2).
  inversion Hans2 as [|? ? w2 ? ? Hget Hnil]; subst. inversion Hnil; subst.
  destruct (stable_pending_seen timeout _ Hpend) as [Hrep Hseen].
  pose proof (stable_rounds timeout pend st w1 Hid Hans1 Hrep) as Hrounds.
  assert (exists state,
            reports rep state /\
            resource.inStates state
              (resource.Target (vpc.isWaitForVPNServerRouteStable_stateConf
                                  (Some client) timeout)) = true)
    as (state & Hstate & Hin) by (destruct Htarget; by eexists).
  unfold vpc.isWaitForVPNServerRouteStable.
  erewrite (WaitForState_reaches (vpc.isWaitForVPNServerRouteStable_stateConf (Some client) timeout)
              (stable_Refresh_clock_free client) eq_refl eq_refl
              _ _ _ _ state _ Hrounds Hseen);
    [| exact (stable_Refresh_reports (after st w1 0 (length pend) (ReqGet getOptions))
                rep w' state Hid Hget Hstate)
     | exact Hin
     | by rewrite length_fmap ].
  rewrite length_fmap, after_after, advance_after. do 2 f_equal.
Qed.

(** The stable poll fails with a timeout when all the polls that start
    before the deadline see [pending] or [updating]. *)
Lemma Stable_times_out timeout st pend w' :
  schema.rd_id (st_d st) = s +:+ "/" +:+ r ->
  answers get pend (st_world st) w' ->
  Forall stable_pending pend ->
  (pend <> [] -> 10 * time.Second * Z.of_nat (length pend) < timeout) ->
  timeout <= 10 * time.Second * (Z.of_nat (length pend) + 1) ->
  vpc.isWaitForVPNServerRouteStable (Some client) timeout st =
  Done ((None, Some resource.TimeoutError),
        after st w' (Z.max 0 timeout) (length pend) (ReqGet getOptions)).
Proof.
  intros Hid Hans Hpend Hfit Hlate.
  destruct (stable_pending_seen timeout _ Hpend) as [Hrep Hseen].
  pose proof (stable_rounds timeout pend st w' Hid Hans Hrep) as Hrounds.
  unfold vpc.isWaitForVPNServerRouteStable.
  erewrite (WaitForState_times_out (vpc.isWaitForVPNServerRouteStable_stateConf (Some client) timeout)
              (stable_Refresh_clock_free client) eq_refl eq_refl
              _ _ _ Hrounds Hseen).
  - reflexivity.
  - rewrite length_fmap. intros Hne. apply Hfit. by destruct pend.
  - by rewrite length_fmap.
Qed.

(** The delete poll returns without error at the first reply that reports
    [deleted] or [failed], or that fails with 404. *)
Lemma Deleted_reaches st pend rep w' :
  schema.rd_id (st_d st) = s +:+ "/" +:+ r ->
  answers get (pend ++ [rep]) (st_world st) w' ->
  Forall deleted_pending pend ->
  deleted_target rep ->
  10 * time.Second * (Z.of_nat (length pend) + 1)
    < schema.Timeout (st_d st) schema.TimeoutDelete ->
  vpc.isWaitForVPNServerRouteDeleted (Some client) st =
  Done ((Some (vpcv1.result rep), None),
        after st w' (10 * time.Second * (Z.of_nat (length pend) + 1))
              (length pend + 1) (ReqGet getOptions)).
Proof.
  intros Hid Hans Hpend Htarget Htime.
  destruct (answers_app _ _ _ _ _ Hans) as (w1 & Hans1 & Hans2).
  inversion Hans2 as [|? ? w2 ? ? Hget Hnil]; subst. inversion Hnil; subst.
  destruct (deleted_pending_seen (st_d st) _ Hpend) as [Hrep Hseen].
  pose proof (deleted_rounds (st_d st) pend st w1 Hid Hans1 Hrep) as Hrounds.
  assert (exists state,
            vpc.isWaitForVPNServerRouteDeleted_Refresh (Some client)
              (after st w1 0 (length pend) (ReqGet getOptions)) =
            Done ((Some (vpcv1.result rep), state, None),
                  after (after st w1 0 (length pend) (ReqGet getOptions)) w' 0 1
                        (ReqGet getOptions)) /\
            resource.inStates state
              (resource.Target (vpc.isWaitForVPNServerRouteDeleted_stateConf
                                  (Some client) (st_d st))) = true)
    as (state & HR & Hin).
  { destruct Htarget as [H | [H | H]].
    - exists "deleted". split; [|done]. by apply deleted_Refresh_reports.
    - exists "failed". split; [|done]. by apply deleted_Refresh_reports.
    - exists "deleted". split; [|done]. by apply deleted_Refresh_gone. }
  unfold vpc.isWaitForVPNServerRouteDeleted. unfold bind at 1, get_d at 1.
  erewrite (WaitForState_reaches (vpc.isWaitForVPNServerRouteDeleted_stateConf (Some client) (st_d st))
              (deleted_Refresh_clock_free client) eq_refl eq_refl
              _ _ _ _ state _ Hrounds Hseen);
    [| exact HR | exact Hin | by rewrite length_fmap ].
  rewrite length_fmap, after_after, advance_after. do 2 f_equal.
Qed.

(** The delete poll fails with a timeout when all the polls that start
    before the deadline see [retry] or [deleting]. *)
Lemma Deleted_times_out st pend w' :
  schema.rd_id (st_d st) = s +:+ "/" +:+ r ->
  answers get pend (st_world st) w' ->
  Forall deleted_pending pend ->
  (pend <> [] ->
   10 * time.Second * Z.of_nat (length pend) < schema.Timeout (st_d st) schema.TimeoutDelete) ->
  schema.Timeout (st_d st) schema.TimeoutDelete
    <= 10 * time.Second * (Z.of_nat (length pend) + 1) ->
  vpc.isWaitForVPNServerRouteDeleted (Some client) st =
  Done ((None, Some resource.TimeoutError),
        after st w' (Z.max 0 (schema.Timeout (st_d st) schema.TimeoutDelete))
              (length pend) (ReqGet getOptions)).
Proof.
  intros Hid Hans Hpend Hfit Hlate.
  destruct (deleted_pending_seen (st_d st) _ Hpend) as [Hrep Hseen].
  pose proof (deleted_rounds (st_d st) pend st w' Hid Hans Hrep) as Hrounds.
  unfold vpc.isWaitForVPNServerRouteDeleted. unfold bind at 1, get_d at 1.
  erewrite (WaitForState_times_out (vpc.isWaitForVPNServerRouteDeleted_stateConf (Some client) (st_d st))
              (deleted_Refresh_clock_free client) eq_refl eq_refl
              _ _ _ Hrounds Hseen).
  - reflexivity.
  - rewrite length_fmap. intros Hne. apply Hfit. by destruct pend.
  - by rewrite length_fmap.
Qed.

End PollRuns.

(** ** A route that is gone *)

Section NotFound.
Context {W : Type}.
Implicit Types st : St W.
Variable client : vpcv1.VpcV1 W.

(** The refresh of the delete poll on a get request that fails with 404. *)
Lemma deleted_Refresh_404 st :
  gostrings.Contains (schema.rd_id (st_d st)) "/" = true ->
  (forall o, fails_with (fst (vpcv1.GetVPNServerRouteWithContext client o (st_world st))) 404) ->
  exists res st',
    vpc.isWaitForVPNServerRouteDeleted_Refresh (Some client) st
      = Done ((Some res, vpc.isVPNServerRouteStatusDeleted, None), st') /\
    st_d st' = st_d st.
Proof.
  intros Hid H404.
  unfold vpc.isWaitForVPNServerRouteDeleted_Refresh, bind, get_d, flex.SepIdParts, schema.Id.
  rewrite Hid.
  destruct (Split_two_parts _ _ Hid) as (p0 & p1 & rest & ->). cbn.
  unfold call.
  specialize (H404 {| vpcv1.g_VPNServerID := Some p0; vpcv1.g_ID := Some p1 |}).
  destruct (vpcv1.GetVPNServerRouteWithContext client _ (st_world st)) as [rep w'].
  cbn in H404. destruct H404 as (e & resp & He & Hresp & Hcode).
  cbn. rewrite He, Hresp, Hcode. cbn. by eexists _, _.
Qed.

Lemma Read_404 (meta : conns.ClientSession W) st :
  conns.VpcV1API meta = (Some client, None) ->
  gostrings.Contains (schema.rd_id (st_d st)) "/" = true ->
  (forall o, fails_with (fst (vpcv1.GetVPNServerRouteWithContext client o (st_world st))) 404) ->
  exists st',
    vpc.resourceIBMIsVPNServerRouteRead meta st = Done ([], st') /\
    schema.rd_id (st_d st') = "".
Proof.
  intros Hmeta Hid H404.
  unfold vpc.resourceIBMIsVPNServerRouteRead, vpc.vpcClient. rewrite Hmeta.
  unfold bind, get_d, flex.SepIdParts, schema.Id.
  rewrite Hid.
  destruct (Split_two_parts _ _ Hid) as (p0 & p1 & rest & ->). cbn.
  unfold call.
  specialize (H404 {| vpcv1.g_VPNServerID := Some p0; vpcv1.g_ID := Some p1 |}).
  destruct (vpcv1.GetVPNServerRouteWithContext client _ (st_world st)) as [rep w'].
  cbn in H404. destruct H404 as (e & resp & He & Hresp & Hcode).
  cbn. rewrite He, Hresp, Hcode. cbn. by eexists.
Qed.

(** The delete poll whose first get request fails with 404. *)
Lemma Deleted_404 st :
  gostrings.Contains (schema.rd_id (st_d st)) "/" = true ->
  (forall o, fails_with (fst (vpcv1.GetVPNServerRouteWithContext client o (st_world st))) 404) ->
  10 * time.Second < schema.Timeout (st_d st) schema.TimeoutDelete ->
  exists res st',
    vpc.isWaitForVPNServerRouteDeleted (Some client) st = Done ((Some res, None), st').
Proof.
  intros Hid H404 Htime.
  destruct (deleted_Refresh_404 st Hid H404) as (res & st' & E & _).
  unfold vpc.isWaitForVPNServerRouteDeleted. unfold bind at 1, get_d at 1.
  erewrite (WaitForState_reaches
              (vpc.isWaitForVPNServerRouteDeleted_stateConf (Some client) (st_d st))
              (deleted_Refresh_clock_free client) eq_refl eq_refl
              [] st st res _ st' (rounds_nil _ st) (Forall_nil_2 _) E eq_refl).
  - by eexists _, _.
  - exact Htime.
Qed.

End NotFound.

(** C2. When the get request of the read handler fails with status 404, the
    handler clears the ID and returns no diagnostic.  In the delete poll, a
    get request that fails with 404 makes the refresh report the state
    [deleted] with no error, and the poll then ends without error. *)
Theorem C2_not_found_is_gone {W : Type} (meta : conns.ClientSession W)
    (client : vpcv1.VpcV1 W) (st : St W) :
  conns.VpcV1API meta = (Some client, None) ->
  gostrings.Contains (schema.rd_id (st_d st)) "/" = true ->
  (forall o, fails_with (fst (vpcv1.GetVPNServerRouteWithContext client o (st_world st))) 404) ->
  (exists st',
     vpc.resourceIBMIsVPNServerRouteRead meta st = Done ([], st') /\
     schema.rd_id (st_d st') = "") /\
  (exists res st',
     vpc.isWaitForVPNServerRouteDeleted_Refresh (Some client) st
       = Done ((Some res, "deleted", None), st')) /\
  (10 * time.Second < schema.Timeout (st_d st) schema.TimeoutDelete ->
   exists res st',
     vpc.isWaitForVPNServerRouteDeleted (Some client) st = Done ((Some res, None), st')).
Proof.
  intros Hmeta Hid H404. split; [|split].
  - by apply (Read_404 client).
  - destruct (deleted_Refresh_404 client st Hid H404) as (res & st' & E & _). by eexists _, _.
  - intros Htime. by apply Deleted_404.
Qed.

(** The read handler and the delete poll against a cloud that has no route
    left. *)
Lemma C2_witness :
  let st := fixture.state (fixture.data "vs-1/rt-9" ∅)
              {| fixture.gets := []; fixture.pages := [] |} in
  exists st',
    vpc.resourceIBMIsVPNServerRouteRead fixture.meta st = Done ([], st') /\
    schema.rd_id (st_d st') = "".
Proof.
  intros st.
  refine (proj1 (C2_not_found_is_gone fixture.meta fixture.client st eq_refl eq_refl _)).
  intros o. exists "not found", {| vpcv1.StatusCode := 404 |}. by vm_compute.
Defined.

(** The two poll helpers against a cloud of type [W], for the route [s/r]. *)
Section C4.
Context {W : Type}.
Variable client : vpcv1.VpcV1 W.
Variables s r : string.

Let getOptions := {| vpcv1.g_VPNServerID := Some s; vpcv1.g_ID := Some r |}.
Let get := vpcv1.GetVPNServerRouteWithContext client getOptions.

(** C4. The stable poll issues one get request every ten seconds, from ten
    seconds after its start: as long as the replies report [pending] or
    [updating] it goes on, at the first reply that reports [stable] or
    [failed] it returns that route without error, and when the timeout
    given by the caller elapses first it fails with a timeout error at that
    time.  The delete poll does the same with [retry] or [deleting] as
    pending states, with [deleted] or [failed] (or a 404) as targets, and
    with the delete timeout of the resource.  Whatever the cloud answers,
    both polls end. *)
Theorem C4_poll_until_target_or_timeout (st : St W) :
  gostrings.Contains s "/" = false ->
  gostrings.Contains r "/" = false ->
  schema.rd_id (st_d st) = s +:+ "/" +:+ r ->
  (forall timeout pend rep w',
     answers get (pend ++ [rep]) (st_world st) w' ->
     Forall stable_pending pend ->
     stable_target rep ->
     10 * time.Second * (Z.of_nat (length pend) + 1) < timeout ->
     vpc.isWaitForVPNServerRouteStable (Some client) timeout st =
     Done ((Some (vpcv1.result rep), None),
           after st w' (10 * time.Second * (Z.of_nat (length pend) + 1))
                 (length pend + 1) (ReqGet getOptions))) /\
  (forall timeout pend w',
     answers get pend (st_world st) w' ->
     Forall stable_pending pend ->
     (pend <> [] -> 10 * time.Second * Z.of_nat (length pend) < timeout) ->
     timeout <= 10 * time.Second * (Z.of_nat (length pend) + 1) ->
     vpc.isWaitForVPNServerRouteStable (Some client) timeout st =
     Done ((None, Some resource.TimeoutError),
           after st w' (Z.max 0 timeout) (length pend) (ReqGet getOptions))) /\
  (forall pend rep w',
     answers get (pend ++ [rep]) (st_world st) w' ->
     Forall deleted_pending pend ->
     deleted_target rep ->
     10 * time.Second * (Z.of_nat (length pend) + 1)
       < schema.Timeout (st_d st) schema.TimeoutDelete ->
     vpc.isWaitForVPNServerRouteDeleted (Some client) st =
     Done ((Some (vpcv1.result rep), None),
           after st w' (10 * time.Second * (Z.of_nat (length pend) + 1))
                 (length pend + 1) (ReqGet getOptions))) /\
  (forall pend w',
     answers get pend (st_world st) w' ->
     Forall deleted_pending pend ->
     (pend <> [] ->
      10 * time.Second * Z.of_nat (length pend)
        < schema.Timeout (st_d st) schema.TimeoutDelete) ->
     schema.Timeout (st_d st) schema.TimeoutDelete
       <= 10 * time.Second * (Z.of_nat (length pend) + 1) ->
     vpc.isWaitForVPNServerRouteDeleted (Some client) st =
     Done ((None, Some resource.TimeoutError),
           after st w' (Z.max 0 (schema.Timeout (st_d st) schema.TimeoutDelete))
                 (length pend) (ReqGet getOptions))) /\
  (forall sess timeout (st0 : St W),
     vpc.isWaitForVPNServerRouteStable sess timeout st0 <> Diverge) /\
  (forall sess (st0 : St W),
     vpc.isWaitForVPNServerRouteDeleted sess st0 <> Diverge).
Proof.
  intros Hs Hr Hid. split; [|split; [|split; [|split; [|split]]]].
  - intros. by apply Stable_reaches.
  - intros. by apply Stable_times_out.
  - intros. by apply Deleted_reaches.
  - intros. by apply Deleted_times_out.
  - intros. apply Stable_halts.
  - intros. apply Deleted_halts.
Qed.

End C4.

(** The stable poll against a cloud whose route is [pending], then
    [updating], then [stable]: three get requests, thirty seconds. *)
Lemma C4_witness :
  let w := {| fixture.gets := [fixture.ok (fixture.route "rt-9" "pending");
                               fixture.ok (fixture.route "rt-9" "updating");
                               fixture.ok (fixture.route "rt-9" "stable")];
              fixture.pages := [] |} in
  let st := fixture.state (fixture.data "vs-1/rt-9" ∅) w in
  vpc.isWaitForVPNServerRouteStable (Some fixture.client) (10 * time.Minute) st =
  Done ((Some (Some (fixture.route "rt-9" "stable")), None),
        after st {| fixture.gets := []; fixture.pages := [] |} (30 * time.Second) 3
              (ReqGet {| vpcv1.g_VPNServerID := Some "vs-1"; vpcv1.g_ID := Some "rt-9" |})).
Proof.
  intros w st.
  destruct (C4_poll_until_target_or_timeout fixture.client "vs-1" "rt-9" st
              eq_refl eq_refl eq_refl) as [Hreach _].
  refine (Hreach (10 * time.Minute)
            [fixture.ok (fixture.route "rt-9" "pending");
             fixture.ok (fixture.route "rt-9" "updating")]
            (fixture.ok (fixture.route "rt-9" "stable"))
            {| fixture.gets := []; fixture.pages := [] |} _ _ _ _).
  - repeat (econstructor; [reflexivity |]). constructor.
  - constructor; [|constructor; [|constructor]].
    + left. split; [reflexivity |]. by eexists.
    + right. split; [reflexivity |]. by eexists.
  - left. split; [reflexivity |]. by eexists.
  - reflexivity.
Defined.

(** A timeout of 25 seconds against a route that stays [pending]: the polls
    of second 10 and of second 20, and the failure at second 25. *)
Example stable_poll_times_out_at_25s :
  let p := fixture.ok (fixture.route "rt-9" "pending") in
  let st := fixture.state (fixture.data "vs-1/rt-9" ∅)
              {| fixture.gets := [p; p; p; p]; fixture.pages := [] |} in
  vpc.isWaitForVPNServerRouteStable (Some fixture.client) (25 * time.Second) st =
  Done ((None, Some resource.TimeoutError),
        after st {| fixture.gets := [p; p]; fixture.pages := [] |} (25 * time.Second) 2
              (ReqGet {| vpcv1.g_VPNServerID := Some "vs-1"; vpcv1.g_ID := Some "rt-9" |})).
Proof. vm_compute. reflexivity. Qed.

(** A state that is neither pending nor a target ends the stable poll with
    an error. *)
Example stable_poll_unexpected_state :
  let st := fixture.state (fixture.data "vs-1/rt-9" ∅)
              {| fixture.gets := [fixture.ok (fixture.route "rt-9" "deleting")];
                 fixture.pages := [] |} in
  exists res st',
    vpc.isWaitForVPNServerRouteStable (Some fixture.client) (25 * time.Second) st =
    Done ((res, Some (resource.UnexpectedStateError "deleting")), st').
Proof. eexists _, _. vm_compute. reflexivity. Qed.

(** ** The configuration of the polls *)


(** ** Flattening the reasons *)

Section Flatten.
Import schema vpcv1.

(** A loop that only appends to its accumulator. *)
Lemma fold_left_appends {A B} (f : list B -> A -> list B) (l : list A) (acc : list B) :
  (forall acc a, f acc a = (acc ++ f [] a)%list) ->
  fold_left f l acc = (acc ++ fold_left f l [])%list.
Proof.
  intros Hf. revert acc. induction l as [|a l IH]; intros acc; cbn [fold_left].
  - by rewrite app_nil_r.
  - rewrite (IH (f acc a)), (IH (f [] a)), (Hf acc a). by rewrite app_assoc.
Qed.

Lemma flattenLR_cons lr l :
  vpc.resourceVPNServerRouteFlattenLifecycleReasons (lr :: l) =
  (vpc.resourceVPNServerRouteFlattenLifecycleReasons [lr]
     ++ vpc.resourceVPNServerRouteFlattenLifecycleReasons l)%list.
Proof.
  unfold vpc.resourceVPNServerRouteFlattenLifecycleReasons. cbn [fold_left].
  apply fold_left_appends. intros acc a.
  destruct (lr_Code a), (lr_Message a); by rewrite ?app_nil_r.
Qed.

Lemma flattenHR_cons hr l :
  vpc.resourceVPNServerRouteFlattenHealthReasons (hr :: l) =
  (vpc.resourceVPNServerRouteFlattenHealthReasons [hr]
     ++ vpc.resourceVPNServerRouteFlattenHealthReasons l)%list.
Proof.
  unfold vpc.resourceVPNServerRouteFlattenHealthReasons. cbn [fold_left].
  apply fold_left_appends. intros acc a.
  destruct (hr_Code a), (hr_Message a); by rewrite ?app_nil_r.
Qed.

(** The map built for a reason that has its code and its message. *)
Lemma copy_of_built code message moreInfo :
  copy_of (Some code) (Some message) moreInfo
    (match moreInfo with
     | Some info => <["more_info" := VStr info]> (<["message" := VStr message]>
                      (<["code" := VStr code]> ∅))
     | None => <["message" := VStr message]> (<["code" := VStr code]> ∅)
     end).
Proof.
  destruct moreInfo; repeat split; try (intros key H1 H2 H3); by simplify_map_eq.
Qed.

Lemma flattenLR_one lr :
  vpc.resourceVPNServerRouteFlattenLifecycleReasons [lr] = [] /\ lr_complete lr = false \/
  exists m, vpc.resourceVPNServerRouteFlattenLifecycleReasons [lr] = [m] /\
            lr_complete lr = true /\ lr_copied lr m.
Proof.
  unfold vpc.resourceVPNServerRouteFlattenLifecycleReasons, lr_complete, lr_copied.
  cbn [fold_left].
  destruct (lr_Code lr) as [code|], (lr_Message lr) as [message|]; try by left.
  right. eexists. split; [reflexivity |]. split; [done |].
  apply copy_of_built.
Qed.

Lemma flattenHR_one hr :
  vpc.resourceVPNServerRouteFlattenHealthReasons [hr] = [] /\ hr_complete hr = false \/
  exists m, vpc.resourceVPNServerRouteFlattenHealthReasons [hr] = [m] /\
            hr_complete hr = true /\ hr_copied hr m.
Proof.
  unfold vpc.resourceVPNServerRouteFlattenHealthReasons, hr_complete, hr_copied.
  cbn [fold_left].
  destruct (hr_Code hr) as [code|], (hr_Message hr) as [message|]; try by left.
  right. eexists. split; [reflexivity |]. split; [done |].
  apply copy_of_built.
Qed.

Lemma flattenLR_copies l :
  Forall2 lr_copied (List.filter lr_complete l)
          (vpc.resourceVPNServerRouteFlattenLifecycleReasons l).
Proof.
  induction l as [|lr l IH]; [constructor |].
  rewrite flattenLR_cons. cbn [List.filter].
  destruct (flattenLR_one lr) as [[-> ->] | (m & -> & -> & Hm)]; [exact IH |].
  by constructor.
Qed.

Lemma flattenHR_copies l :
  Forall2 hr_copied (List.filter hr_complete l)
          (vpc.resourceVPNServerRouteFlattenHealthReasons l).
Proof.
  induction l as [|hr l IH]; [constructor |].
  rewrite flattenHR_cons. cbn [List.filter].
  destruct (flattenHR_one hr) as [[-> ->] | (m & -> & -> & Hm)]; [exact IH |].
  by constructor.
Qed.

Lemma filter_all {A} (f : A -> bool) (l : list A) :
  forallb f l = true -> List.filter f l = l.
Proof.
  induction l as [|a l IH]; [done |]. cbn. destruct (f a); [|done].
  intros H. by rewrite (IH H).
Qed.

End Flatten.

(** C3, as the spec states it, fails on a lifecycle reason without a code:
    the output is empty, not of the length of the input. *)
Lemma C3_counterexample :
  let reasons := [{| vpcv1.lr_Code := None; vpcv1.lr_Message := Some "gone";
                     vpcv1.lr_MoreInfo := None |}] in
  vpc.resourceVPNServerRouteFlattenLifecycleReasons reasons = [] /\
  length (vpc.resourceVPNServerRouteFlattenLifecycleReasons reasons) <> length reasons.
Proof. split; [reflexivity | discriminate]. Qed.

(** C3, amended.  Each of the two functions returns, in input order, one map
    for each input element that has both a code and a message, and none for
    the others; the map holds the code and the message of its element, its
    more_info when the element has one, and no other key.  The output is as
    long as the input when every element has a code and a message. *)
Theorem C3_flatten_copies_complete_reasons
    (lifecycleReasons : list vpcv1.VPNServerRouteLifecycleReason)
    (healthReasons : list vpcv1.VPNServerRouteHealthReason) :
  (Forall2 lr_copied (List.filter lr_complete lifecycleReasons)
           (vpc.resourceVPNServerRouteFlattenLifecycleReasons lifecycleReasons) /\
   (forallb lr_complete lifecycleReasons = true ->
    length (vpc.resourceVPNServerRouteFlattenLifecycleReasons lifecycleReasons)
      = length lifecycleReasons)) /\
  (Forall2 hr_copied (List.filter hr_complete healthReasons)
           (vpc.resourceVPNServerRouteFlattenHealthReasons healthReasons) /\
   (forallb hr_complete healthReasons = true ->
    length (vpc.resourceVPNServerRouteFlattenHealthReasons healthReasons)
      = length healthReasons)).
Proof.
  split; split.
  - apply flattenLR_copies.
  - intros H. pose proof (flattenLR_copies lifecycleReasons) as HF.
    rewrite (filter_all _ _ H) in HF. symmetry. exact (Forall2_length _ _ _ HF).
  - apply flattenHR_copies.
  - intros H. pose proof (flattenHR_copies healthReasons) as HF.
    rewrite (filter_all _ _ H) in HF. symmetry. exact (Forall2_length _ _ _ HF).
Qed.

(** Two lifecycle reasons, the second without a message. *)
Example flatten_lifecycle_reasons_example :
  vpc.resourceVPNServerRouteFlattenLifecycleReasons
    [{| vpcv1.lr_Code := Some "c1"; vpcv1.lr_Message := Some "m1";
        vpcv1.lr_MoreInfo := Some "i1" |};
     {| vpcv1.lr_Code := Some "c2"; vpcv1.lr_Message := None;
        vpcv1.lr_MoreInfo := None |}] =
  [<["more_info" := schema.VStr "i1"]> (<["message" := schema.VStr "m1"]>
     (<["code" := schema.VStr "c1"]> ∅))].
Proof. reflexivity. Qed.

(** ** The pagination loop of [imageList] *)

Section Pagination.
Context {W : Type}.
Implicit Types st : St W.
Variable env : vpc.ImagesEnv.
Variable client : vpcv1.VpcV1 W.
Hypothesis GetNext_spec : forall next, vpc.GetNext env next = "" <-> next = None.

Lemma page_options_idem start start' opts :
  start' <> "" ->
  page_options start' (page_options start opts) = vpc.SetStart start' opts.
Proof.
  intros H. unfold page_options.
  destruct (String.eqb_spec start' ""); [done |]. cbn [negb].
  by destruct (negb (String.eqb start "")).
Qed.

(** A run of pages makes the loop return their images, after one request
    per page. *)
Lemma pages_run_loop opts start w pages reqs w' :
  pages_run env client opts start w pages reqs w' ->
  forall fuel allrecs st,
    (length pages <= fuel)%nat ->
    st_world st = w ->
    vpc.imageList_pages env fuel (Some client) opts start allrecs st =
    Done (inr (allrecs ++ images_of pages)%list, served st w' reqs).
Proof.
  induction 1 as [opts start w rep page w1 Hcall Herr Hres Hnext
                 |opts start w rep page link w1 pages reqs w2 Hcall Herr Hres Hnext _ IH];
    intros fuel allrecs st Hfuel Hw;
    (destruct fuel as [|fuel]; [simpl in Hfuel; lia |]);
    cbn [vpc.imageList_pages]; fold (page_options start opts);
    unfold bind at 1; cbn [deref]; unfold ret at 1;
    unfold bind at 1, call at 1; rewrite Hw, Hcall, Herr;
    unfold bind at 1; rewrite Hres; cbn [deref]; unfold ret at 1; rewrite Hnext.
  - rewrite (proj2 (GetNext_spec None) eq_refl). cbn.
    unfold ret, images_of, served. cbn. by rewrite app_nil_r.
  - destruct (String.eqb_spec (vpc.GetNext env (Some link)) "") as [E | _].
    { by apply GetNext_spec in E. }
    rewrite IH; [| simpl in Hfuel; lia | reflexivity].
    unfold images_of, served. cbn. by rewrite <- !app_assoc.
Qed.



End Pagination.

(** ** The parts of [imageList] after the pagination loop *)

Section Calm.
Context {W : Type}.
Implicit Types st : St W.

Lemma calm_ret {A} (a : A) : calm (ret (W := W) a).
Proof. intros st. done. Qed.

Lemma calm_panic {A} reason : calm (panic (W := W) (A := A) reason).
Proof. intros st. done. Qed.

Lemma calm_bind {A B} (m : M W A) (f : A -> M W B) :
  calm m -> (forall a, calm (f a)) -> calm (bind m f).
Proof.
  intros Hm Hf st. unfold bind. specialize (Hm st).
  destruct (m st) as [[a st1]| |]; [|done..].
  specialize (Hf a st1). destruct (f a st1) as [[b st2]| |]; [|done..].
  destruct Hm, Hf. split; congruence.
Qed.

Lemma calm_deref {A} (p : option A) : calm (deref (W := W) p).
Proof. destruct p; [apply calm_ret | apply calm_panic]. Qed.

Lemma calm_effect {A} (op : W -> A * W) : calm (effect op).
Proof. intros st. unfold effect. by destruct (op (st_world st)). Qed.

Lemma calm_now : calm (now (W := W)).
Proof. intros st. done. Qed.

Variable env : vpc.ImagesEnv.

Lemma calm_byStatus status allrecs : forall allrecsTemp,
  calm (vpc.imageList_byStatus (W := W) status allrecs allrecsTemp).
Proof.
  induction allrecs as [|image rest IH]; intros allrecsTemp; cbn [vpc.imageList_byStatus].
  - apply calm_ret.
  - apply calm_bind; [apply calm_deref |]. intros imageStatus.
    destruct (String.eqb status imageStatus); apply IH.
Qed.

Lemma calm_byCatalogManaged catalogManaged allrecs : forall allrecsTemp,
  calm (vpc.imageList_byCatalogManaged (W := W) catalogManaged allrecs allrecsTemp).
Proof.
  induction allrecs as [|image rest IH]; intros allrecsTemp;
    cbn [vpc.imageList_byCatalogManaged].
  - apply calm_ret.
  - destruct (vpcv1.im_CatalogOffering image); [|apply IH].
    apply calm_bind; [apply calm_deref |]. intros managed.
    destruct (Bool.eqb catalogManaged managed); apply IH.
Qed.

Lemma calm_filter status catalogManaged allrecs :
  calm (vpc.imageList_filter (W := W) status catalogManaged allrecs).
Proof.
  unfold vpc.imageList_filter. apply calm_bind.
  - destruct (negb _); [apply calm_byStatus | apply calm_ret].
  - intros recs. destruct catalogManaged; [apply calm_byCatalogManaged | apply calm_ret].
Qed.

Lemma calm_info (meta : conns.ClientSession W) image :
  calm (vpc.imageList_info env meta image).
Proof.
  unfold vpc.imageList_info.
  repeat first
    [ apply calm_ret | apply calm_deref | apply calm_effect
    | apply calm_bind; [|intros ?]
    | progress cbv zeta
    | match goal with
      | |- calm (match ?x with _ => _ end) => destruct x
      | |- calm (let '(_, _) := ?x in _) => destruct x
      end ].
Qed.

Lemma calm_infos (meta : conns.ClientSession W) allrecs : forall imagesInfo,
  calm (vpc.imageList_infos env meta allrecs imagesInfo).
Proof.
  induction allrecs as [|image rest IH]; intros imagesInfo; cbn [vpc.imageList_infos].
  - apply calm_ret.
  - apply calm_bind; [apply calm_info |]. intros [diags | l]; [apply calm_ret | apply IH].
Qed.

End Calm.

(** ** The requests of [imageList] *)

Section ImageListRequests.
Context {W : Type}.
Implicit Types st : St W.
Variable env : vpc.ImagesEnv.

Lemma page_options_filter start opts :
  vpcv1.l_RemoteAccountID (page_options start opts) = vpcv1.l_RemoteAccountID opts.
Proof. unfold page_options. by destruct (negb _). Qed.

(** Every request of the pagination loop carries the filter of the options
    the loop was entered with. *)
Lemma pages_requests sess fuel : forall opts start allrecs st,
  wp (vpc.imageList_pages env fuel sess opts start allrecs)
     (fun _ st' => steady (lists_with (vpcv1.l_RemoteAccountID opts)) st st') st.
Proof.
  induction fuel as [|fuel IH]; intros opts start allrecs st; [done |].
  cbn [vpc.imageList_pages]. fold (page_options start opts).
  apply wp_bind, wp_deref. intros client _.
  apply wp_bind. apply wp_intro. intros rep st1 Hcall.
  assert (S1 : steady (lists_with (vpcv1.l_RemoteAccountID opts)) st st1).
  { eapply steady_call; [|exact Hcall]. eexists. split; [done |].
    apply page_options_filter. }
  destruct (vpcv1.err rep); [by apply wp_ret |].
  apply wp_bind, wp_deref. intros availableImages _. cbv zeta.
  destruct (String.eqb _ ""); [by apply wp_ret |].
  eapply wp_mono; [|apply IH].
  intros ? st2 S2. rewrite page_options_filter in S2. by eapply steady_trans.
Qed.

Lemma wp_calm {A} (m : M W A) (Q : A -> St W -> Prop) st :
  calm m ->
  (forall a st', st_d st' = st_d st -> st_trace st' = st_trace st -> Q a st') ->
  wp m Q st.
Proof.
  intros Hm HQ. unfold wp. specialize (Hm st).
  destruct (m st) as [[a st']| |]; [|done..]. destruct Hm. by apply HQ.
Qed.


End ImageListRequests.


(** ** [imageList] as a whole *)

Section ImageList.
Context {W : Type}.
Implicit Types st : St W.
Variable env : vpc.ImagesEnv.
Variable client : vpcv1.VpcV1 W.
Hypothesis GetNext_spec : forall next, vpc.GetNext env next = "" <-> next = None.


End ImageList.


Lemma fixture_GetNext_spec next : vpc.GetNext fixture.env next = "" <-> next = None.
Proof. destruct next; cbn; split; done. Qed.


(** Against a cloud in which every page links to a next one the loop does
    not return, whatever the number of steps. *)
Lemma pagination_without_end (fuel : nat) :
  forall opts start allrecs (st : St unit),
    vpc.imageList_pages fixture.env fuel (Some fixture.endless) opts start allrecs st
    = Diverge.
Proof.
  induction fuel as [|fuel IH]; intros opts start allrecs st; [done |].
  cbn [vpc.imageList_pages]. unfold bind at 1. cbn [deref]. unfold ret at 1.
  unfold bind at 1, call at 1. cbn. apply IH.
Qed.

(** ** The delete handler *)

Section Delete.
Context {W : Type}.
Implicit Types st : St W.

(** A refresh of the delete poll leaves the resource data as they are. *)
Lemma deleted_Refresh_steady (sess : option (vpcv1.VpcV1 W)) st :
  wp (vpc.isWaitForVPNServerRouteDeleted_Refresh sess)
     (fun _ st' => steady (fun _ => True) st st') st.
Proof.
  apply wp_intro. intros a st'.
  unfold vpc.isWaitForVPNServerRouteDeleted_Refresh, bind, get_d, index, deref, ret, panic.
  destruct (flex.SepIdParts _ _) as [parts [e|]].
  { intros [= _ <-]. apply steady_refl. }
  destruct (parts !! 0%nat); [|done]. destruct (parts !! 1%nat); [|done].
  destruct sess as [client|]; [|done].
  destruct (call _ _ st) as [[rep st1]| |] eqn:Hcall; [|done..].
  pose proof (steady_call (fun _ => True) _ _ _ _ _ I Hcall) as S1.
  repeat (case_match; simplify_eq/=); try done; intros [= _ <-]; exact S1.
Qed.

Lemma Deleted_steady (sess : option (vpcv1.VpcV1 W)) st :
  wp (vpc.isWaitForVPNServerRouteDeleted sess)
     (fun _ st' => steady (fun _ => True) st st') st.
Proof.
  unfold vpc.isWaitForVPNServerRouteDeleted. apply wp_bind, wp_get_d.
  apply (WaitForState_steady _ (fun _ => True)); [|done].
  intros st0 _. apply deleted_Refresh_steady.
Qed.

End Delete.

(** C9. The delete handler clears the ID only at its very end, after the
    delete request and then the delete poll have both returned without
    error; whenever it returns a diagnostic instead (the client cannot be
    initialised, the ID cannot be parsed, the delete request fails, or the
    poll fails or times out), that diagnostic is a provider problem for the
    action [delete] and the resource data, the ID included, are unchanged. *)
Theorem C9_delete_clears_id_last {W : Type} (meta : conns.ClientSession W)
    (st : St W) (res : diag.Diagnostics) (st' : St W) :
  vpc.resourceIBMIsVPNServerRouteDelete meta st = Done (res, st') ->
  (res = [] /\
   schema.rd_id (st_d st') = "" /\
   exists client o resp w1 x st2,
     conns.VpcV1API meta = (Some client, None) /\
     vpcv1.DeleteVPNServerRouteWithContext client o (st_world st) = ((resp, None), w1) /\
     vpc.isWaitForVPNServerRouteDeleted (Some client) (served st w1 [ReqDelete o])
       = Done ((x, None), st2) /\
     st_d st2 = st_d st /\
     st' = {| st_d := schema.SetId "" (st_d st2); st_world := st_world st2;
              st_now := st_now st2; st_trace := st_trace st2 |}) \/
  ((exists p, res = [diag.Problem p] /\
              diag.carries "ibm_is_vpn_server_route" "delete" (diag.Problem p)) /\
   st_d st' = st_d st).
Proof.
  unfold vpc.resourceIBMIsVPNServerRouteDelete.
  destruct (conns.VpcV1API meta) as [vpcClient [e|]] eqn:Hmeta.
  { intros [= <- <-]. right. split; [|done]. by eexists. }
  unfold bind at 1, get_d at 1.
  destruct (flex.SepIdParts _ _) as [parts [e|]].
  { intros [= <- <-]. right. split; [|done]. by eexists. }
  unfold bind at 1, index at 1. destruct (parts !! 0%nat) as [part0|]; [|done].
  unfold ret at 1. unfold bind at 1, index at 1.
  destruct (parts !! 1%nat) as [part1|]; [|done].
  unfold ret at 1. cbv zeta. unfold bind at 1.
  destruct vpcClient as [client|]; [|done]. cbn [deref]. unfold ret at 1.
  unfold bind at 1, call at 1.
  destruct (vpcv1.DeleteVPNServerRouteWithContext client _ (st_world st))
    as [[resp err] w1] eqn:Hcall.
  cbn [snd]. fold (served st w1 [ReqDelete {| vpcv1.d_VPNServerID := Some part0;
                                              vpcv1.d_ID := Some part1 |}]).
  set (st1 := served st w1 _).
  destruct err as [e|].
  { intros [= <- <-]. right. split; [|done]. by eexists. }
  unfold bind at 1.
  pose proof (Deleted_steady (Some client) st1) as Hwait. unfold wp in Hwait.
  destruct (vpc.isWaitForVPNServerRouteDeleted (Some client) st1)
    as [[[x err] st2]| |] eqn:Hpoll; [|done..].
  destruct Hwait as [Hd2 _]. cbn [snd].
  destruct err as [e|].
  { intros [= <- <-]. right. split; [|done]. by eexists. }
  unfold bind, modify_d, ret. intros [= <- <-]. left.
  split; [done |]. split; [done |].
  by eexists client, _, resp, w1, x, st2.
Qed.

(** The delete handler against a cloud in which the route is gone at the
    first poll: no diagnostic, and the ID is cleared. *)
Lemma C9_witness :
  let st := fixture.state (fixture.data "vs-1/rt-9" ∅)
              {| fixture.gets := []; fixture.pages := [] |} in
  exists st',
    vpc.resourceIBMIsVPNServerRouteDelete fixture.meta st = Done ([], st') /\
    schema.rd_id (st_d st') = "".
Proof.
  intros st.
  destruct (vpc.resourceIBMIsVPNServerRouteDelete fixture.meta st)
    as [[res st']| |] eqn:E; [| by vm_compute in E..].
  assert (res = []) as -> by (vm_compute in E; by injection E as <- _).
  exists st'. split; [reflexivity |].
  destruct (C9_delete_clears_id_last fixture.meta st [] st' E)
    as [(_ & Hid & _) | [(p & Hp & _) _]]; [exact Hid | discriminate Hp].
Defined.

(** The delete handler on an ID without separator: a problem that carries
    the sub-step [sep-id-parts], and the ID is kept. *)
Example delete_keeps_id_on_parse_failure :
  let st := fixture.state (fixture.data "rt-9" ∅)
              {| fixture.gets := []; fixture.pages := [] |} in
  exists p st',
    vpc.resourceIBMIsVPNServerRouteDelete fixture.meta st = Done ([diag.Problem p], st') /\
    flex.Component p = "sep-id-parts" /\
    schema.rd_id (st_d st') = "rt-9".
Proof. eexists _, _. vm_compute. done. Qed.

(** ** The pointers [imageList] dereferences *)

Section ImageInfo.
Context {W : Type}.
Implicit Types st : St W.
Variable env : vpc.ImagesEnv.
Variable meta : conns.ClientSession W.

Lemma insert_keeps (key key' : string) (v : schema.value) (m : gmap string schema.value) :
  is_Some (m !! key) -> is_Some (<[key' := v]> m !! key).
Proof.
  intros H. destruct (decide (key' = key)) as [-> | Hne].
  - rewrite lookup_insert_eq. by eexists.
  - by rewrite lookup_insert_ne.
Qed.

(** The body of the loop returns only for an image whose required pointers
    are all set, and the map it then builds has the block
    [operating_system]. *)
Lemma info_requires image st :
  wp (vpc.imageList_info env meta image)
     (fun x _ =>
        required_present image /\
        forall l, x = inr l -> is_Some (l !! "operating_system"))
     st.
Proof.
  unfold vpc.imageList_info.
  apply wp_bind, wp_deref; intros name Hname.
  apply wp_bind, wp_deref; intros id Hid.
  apply wp_bind, wp_deref; intros status Hstatus.
  apply wp_bind, wp_deref; intros crn Hcrn.
  apply wp_bind, wp_deref; intros visibility Hvisibility.
  apply wp_bind, wp_deref; intros os Hos.
  apply wp_bind, wp_deref; intros osName HosName.
  apply wp_bind, wp_deref; intros os' Hos'.
  apply wp_bind, wp_deref; intros architecture Harchitecture.
  assert (os' = os) as -> by congruence.
  assert (Hreq : required_present image).
  { unfold required_present. rewrite Hname, Hid, Hstatus, Hcrn, Hvisibility, Hos.
    repeat split; by eexists. }
  rewrite Hos. cbv zeta.
  match goal with
  | |- context [<["operating_system" := ?v]> ?m] =>
      set (l := <["operating_system" := v]> m);
      assert (Hl : is_Some (l !! "operating_system"))
        by (subst l; rewrite lookup_insert_eq; by eexists);
      clearbody l
  end.
  repeat first
    [ apply wp_ret; split; [exact Hreq | intros ? [= <-]; repeat apply insert_keeps; exact Hl]
    | apply wp_ret; split; [exact Hreq | by intros ? [=]]
    | case_match
    | apply wp_bind
    | apply wp_deref; intros ? ?
    | apply wp_effect; intros ? ? ?
    | apply wp_ret ].
Qed.

(** The loop over the records returns the maps only when the required
    pointers of every record are set; it then returns one map per record,
    each with the block [operating_system]. *)
Lemma infos_require allrecs : forall imagesInfo st,
  wp (vpc.imageList_infos env meta allrecs imagesInfo)
     (fun x _ =>
        forall infos, x = inr infos ->
          Forall required_present allrecs /\
          exists added,
            infos = (imagesInfo ++ added)%list /\
            length added = length allrecs /\
            Forall (fun l => is_Some (l !! "operating_system")) added)
     st.
Proof.
  induction allrecs as [|image rest IH]; intros imagesInfo st; cbn [vpc.imageList_infos].
  - apply wp_ret. intros infos [= <-]. split; [constructor |].
    exists []. by rewrite app_nil_r.
  - apply wp_bind. eapply wp_mono; [|apply info_requires].
    intros x st1 [Hreq Hos]. destruct x as [diags | l]; [by apply wp_ret |].
    eapply wp_mono; [|apply IH].
    intros y st2 Hrest infos ->. destruct (Hrest _ eq_refl) as (Hall & added & -> & Hlen & Hos').
    split; [by constructor |].
    exists (l :: added). split; [by rewrite <- app_assoc |].
    split; [cbn; congruence |]. constructor; [by apply Hos | exact Hos'].
Qed.

End ImageInfo.

Section ImageListDiags.
Context {W : Type}.
Implicit Types st : St W.
Variable env : vpc.ImagesEnv.

(** The diagnostics the parts of [imageList] return early are not empty. *)
Lemma pages_diags sess fuel : forall opts start allrecs st,
  wp (vpc.imageList_pages env fuel sess opts start allrecs) (fun x _ => x <> inl []) st.
Proof.
  induction fuel as [|fuel IH]; intros opts start allrecs st; [done |].
  cbn [vpc.imageList_pages].
  apply wp_bind, wp_deref. intros client _.
  apply wp_bind, wp_call. intros rep w' _.
  destruct (vpcv1.err rep); [by apply wp_ret |].
  apply wp_bind, wp_deref. intros availableImages _. cbv zeta.
  destruct (String.eqb _ ""); [by apply wp_ret | apply IH].
Qed.

Lemma wp_bind_any {A B} (m : M W A) (f : A -> M W B) (Q : B -> St W -> Prop) st :
  (forall a st', wp (f a) Q st') -> wp (bind m f) Q st.
Proof. intros H. apply wp_bind. apply wp_intro. intros a st' _. apply H. Qed.

Lemma info_diags (meta : conns.ClientSession W) image st :
  wp (vpc.imageList_info env meta image) (fun x _ => x <> inl []) st.
Proof.
  unfold vpc.imageList_info.
  do 9 (apply wp_bind_any; intros ? ?). cbv zeta.
  do 3 (apply wp_bind_any; intros ? ?).
  destruct (vpcv1.im_Remote image);
    [destruct (vpc.dataSourceImageRemote env image) as [imageRemoteMap [e|]];
       [|destruct (Nat.ltb 0 (size imageRemoteMap))] |].
  all: try by apply wp_ret.
  all: do 2 (apply wp_bind_any; intros ? ?); by apply wp_ret.
Qed.

Lemma infos_diags (meta : conns.ClientSession W) allrecs : forall imagesInfo st,
  wp (vpc.imageList_infos env meta allrecs imagesInfo) (fun x _ => x <> inl []) st.
Proof.
  induction allrecs as [|image rest IH]; intros imagesInfo st; cbn [vpc.imageList_infos].
  - by apply wp_ret.
  - apply wp_bind. eapply wp_mono; [|apply info_diags].
    intros [diags | l] st1 H; [apply wp_ret; intros [= ->]; by apply H | apply IH].
Qed.

End ImageListDiags.

(** C10. The body of the loop of [imageList] returns only for an image
    whose name, ID, status, CRN, visibility and operating system, and the
    name and architecture of that operating system, are all set; the loop
    returns its maps only when this holds for every record of the filtered
    list, and so does an [imageList] that returns without a diagnostic.  Each
    map then has the block [operating_system]: the test that guards the
    block finds the operating system set in every run that gets there. *)
Theorem C10_required_pointers {W : Type} (env : vpc.ImagesEnv)
    (meta : conns.ClientSession W) :
  (forall image (st : St W) x st',
     vpc.imageList_info env meta image st = Done (x, st') ->
     required_present image /\
     forall l, x = inr l -> is_Some (l !! "operating_system")) /\
  (forall filtered (st : St W) infos st',
     vpc.imageList_infos env meta filtered [] st = Done (inr infos, st') ->
     Forall required_present filtered /\
     length infos = length filtered /\
     Forall (fun l => is_Some (l !! "operating_system")) infos) /\
  (forall fuel (st : St W) st',
     vpc.imageList env fuel meta st = Done ([], st') ->
     let d := st_d st in
     let status :=
       match schema.GetOk d (vpc.isImageStatus env) with
       | Some v => schema.as_string v
       | None => ""
       end in
     let catalogManaged :=
       match schema.GetOk d vpc.isImageCatalogManaged with
       | Some v => schema.as_bool v
       | None => false
       end in
     exists allrecs st1 filtered st2 infos st3,
       vpc.imageList_pages env fuel (fst (vpc.vpcClient meta))
         (vpc.imageList_options env d) "" [] st = Done (inr allrecs, st1) /\
       vpc.imageList_filter status catalogManaged allrecs st1 = Done (filtered, st2) /\
       vpc.imageList_infos env meta filtered [] st2 = Done (inr infos, st3) /\
       Forall required_present filtered /\
       length infos = length filtered /\
       Forall (fun l => is_Some (l !! "operating_system")) infos /\
       schema.rd_attrs (st_d st') !! "images" = Some (vpc.flattened infos)).
Proof.
  assert (Hinfos : forall filtered (st : St W) infos st',
            vpc.imageList_infos env meta filtered [] st = Done (inr infos, st') ->
            Forall required_present filtered /\
            length infos = length filtered /\
            Forall (fun l => is_Some (l !! "operating_system")) infos).
  { intros filtered st infos st' E.
    destruct (wp_elim _ _ _ _ _ (infos_require env meta filtered [] st) E infos eq_refl)
      as (Hall & added & -> & Hlen & Hos).
    done. }
  split; [|split; [exact Hinfos |]].
  - intros image st x st' E. exact (wp_elim _ _ _ _ _ (info_requires env meta image st) E).
  - intros fuel st st' E d status catalogManaged. subst d status catalogManaged.
    unfold vpc.imageList in E.
    destruct (vpc.vpcClient meta) as [sess [e|]]; [done |]. cbn [fst].
    unfold bind at 1, get_d at 1 in E. cbv zeta in E. unfold bind at 1 in E.
    destruct (vpc.imageList_pages env fuel sess _ "" [] st)
      as [[[diags | allrecs] st1]| |] eqn:Hpages; [| |done..].
    { injection E as -> _.
      by destruct (wp_elim _ _ _ _ _ (pages_diags env sess fuel _ _ _ st) Hpages). }
    unfold bind at 1 in E.
    destruct (vpc.imageList_filter _ _ allrecs st1) as [[filtered st2]| |] eqn:Hfilter;
      [|done..].
    unfold bind at 1 in E.
    destruct (vpc.imageList_infos env meta filtered [] st2)
      as [[[diags | infos] st3]| |] eqn:Hloop; [| |done..].
    { injection E as -> _.
      by destruct (wp_elim _ _ _ _ _ (infos_diags env meta filtered [] st2) Hloop). }
    destruct (Hinfos _ _ _ _ Hloop) as (Hall & Hlen & Hos).
    exists allrecs, st1, filtered, st2, infos, st3.
    repeat (split; [done |]).
    revert E. unfold bind at 1, vpc.dataSourceIBMISImagesID, bind at 1, now, ret at 1.
    unfold bind at 1, modify_d. unfold bind at 1, d_Set, schema.Set_. cbn.
    destruct (schema.rd_refuse (st_d st3) "images"); [done |].
    intros [= <-]. cbn. by rewrite lookup_insert_eq.
Qed.

(** An image without operating system makes [imageList] panic. *)
Example imageList_panics_without_operating_system :
  let w := {| fixture.gets := [];
              fixture.pages := [fixture.ok (fixture.page [fixture.image "a" None] None)] |} in
  exists reason,
    vpc.imageList fixture.env 1 fixture.meta (fixture.state (fixture.data "" ∅) w)
    = Panic reason.
Proof. eexists. vm_compute. reflexivity. Qed.

(** One page with one image: no diagnostic, and the attribute [images]
    holds one map. *)
Example imageList_lists_one_image :
  let w := {| fixture.gets := [];
              fixture.pages :=
                [fixture.ok (fixture.page [fixture.image "a" (Some fixture.linux)] None)] |} in
  exists st' l,
    vpc.imageList fixture.env 1 fixture.meta (fixture.state (fixture.data "" ∅) w)
    = Done ([], st') /\
    schema.rd_attrs (st_d st') !! "images" = Some (vpc.flattened [l]) /\
    l !! "os" = Some (schema.VStr "debian").
Proof. eexists _, _. vm_compute. done. Qed.

(** ** The diagnostics of the handlers *)

Section Diagnostics.
Context {W : Type}.
Implicit Types st : St W.

Let rn := "ibm_is_vpn_server_route".

Lemma SepIdParts_ok id sep parts :
  flex.SepIdParts id sep = (parts, None) -> gostrings.Contains id sep = true.
Proof. unfold flex.SepIdParts. by destruct (gostrings.Contains id sep). Qed.

Lemma problem_of_one resourceName operation operations summary component e :
  operation ∈ operations ->
  Forall (problem_of resourceName operations)
    (diag.GetDiag (flex.DiscriminatedTerraformErrorf e summary resourceName operation component)).
Proof. intros H. constructor; [|constructor]. by exists operation. Qed.

Lemma problem_of_weaken resourceName ops ops' res :
  (forall o, o ∈ ops -> o ∈ ops') ->
  Forall (problem_of resourceName ops) res -> Forall (problem_of resourceName ops') res.
Proof.
  intros Hsub H. eapply Forall_impl; [exact H |].
  intros dg (o & Ho & Hc). exists o. split; [auto | done].
Qed.

(** A refresh of the stable poll leaves the resource data as they are. *)
Lemma stable_Refresh_steady (sess : option (vpcv1.VpcV1 W)) st :
  wp (vpc.isWaitForVPNServerRouteStable_Refresh sess)
     (fun _ st' => steady (fun _ => True) st st') st.
Proof.
  apply wp_intro. intros a st'.
  unfold vpc.isWaitForVPNServerRouteStable_Refresh, bind, get_d, index, deref, ret, panic.
  destruct (flex.SepIdParts _ _) as [parts [e|]].
  { intros [= _ <-]. apply steady_refl. }
  destruct (parts !! 0%nat); [|done]. destruct (parts !! 1%nat); [|done].
  destruct sess as [client|]; [|done].
  destruct (call _ _ st) as [[rep st1]| |] eqn:Hcall; [|done..].
  pose proof (steady_call (fun _ => True) _ _ _ _ _ I Hcall) as S1.
  repeat (case_match; simplify_eq/=); try done; intros [= _ <-]; exact S1.
Qed.

Lemma Stable_steady (sess : option (vpcv1.VpcV1 W)) timeout st :
  wp (vpc.isWaitForVPNServerRouteStable sess timeout)
     (fun _ st' => steady (fun _ => True) st st') st.
Proof.
  unfold vpc.isWaitForVPNServerRouteStable.
  apply (WaitForState_steady _ (fun _ => True)); [|done].
  intros st0 _. apply stable_Refresh_steady.
Qed.

(** With a client and an ID that parses, every diagnostic of the read
    handler is a provider problem for the action [read] with a sub-step
    label. *)
Lemma Read_diags (meta : conns.ClientSession W) st :
  snd (conns.VpcV1API meta) = None ->
  gostrings.Contains (schema.rd_id (st_d st)) "/" = true ->
  wp (vpc.resourceIBMIsVPNServerRouteRead meta)
     (fun res _ => Forall (fun dg => diag.carries rn "read" dg /\ diag.labelled dg) res) st.
Proof.
  intros Hmeta Hid. unfold vpc.resourceIBMIsVPNServerRouteRead, vpc.vpcClient.
  destruct (conns.VpcV1API meta) as [sess [e|]]; [done |].
  apply wp_bind, wp_get_d. unfold flex.SepIdParts, schema.Id. rewrite Hid.
  apply wp_bind_any; intros part0 st0. apply wp_bind_any; intros part1 st1. cbv zeta.
  apply wp_bind_any; intros client st2. apply wp_bind_any; intros rep st3.
  destruct (vpcv1.err rep).
  { destruct (vpcv1.response rep) as [resp|]; [destruct (vpcv1.StatusCode resp =? 404)|].
    - apply wp_bind_any. intros ? ?. by apply wp_ret.
    - apply wp_ret. by repeat constructor.
    - apply wp_ret. by repeat constructor. }
  assert (I3 : True) by done. revert I3. generalize st3. intros st4 I4.
  wp_sets (fun _ : St W => True) ltac:(done) ltac:(intros; by repeat constructor).
  all: by apply wp_ret.
Qed.

Lemma Create_diags (meta : conns.ClientSession W) st :
  wp (vpc.resourceIBMIsVPNServerRouteCreate meta)
     (fun res _ => Forall (problem_of rn ["create"; "read"]) res) st.
Proof.
  unfold vpc.resourceIBMIsVPNServerRouteCreate.
  destruct (conns.VpcV1API meta) as [vpcClient [e|]] eqn:Hmeta.
  { apply wp_ret, problem_of_one. set_solver. }
  apply wp_bind, wp_get_d. cbv zeta.
  apply wp_bind_any; intros client st0. apply wp_bind_any; intros rep st1.
  destruct (vpcv1.err rep); [apply wp_ret, problem_of_one; set_solver |].
  apply wp_bind_any; intros vpnServerID st2.
  apply wp_bind_any; intros route st3.
  apply wp_bind_any; intros routeID st4.
  apply wp_bind, wp_modify_d. apply wp_bind, wp_get_d.
  apply wp_bind. eapply wp_mono; [|apply Stable_steady].
  intros w st5 [Hd _].
  destruct (snd w); [apply wp_ret, problem_of_one; set_solver |].
  eapply wp_mono; [|apply Read_diags].
  - intros res ? H. eapply Forall_impl; [exact H |].
    intros dg [Hc _]. exists "read". split; [set_solver | done].
  - by rewrite Hmeta.
  - rewrite Hd. cbn. apply (Contains_app_sep vpnServerID routeID "/").
Qed.

Lemma Update_diags (meta : conns.ClientSession W) st :
  wp (vpc.resourceIBMIsVPNServerRouteUpdate meta)
     (fun res _ => Forall (problem_of rn ["update"; "read"]) res) st.
Proof.
  unfold vpc.resourceIBMIsVPNServerRouteUpdate.
  destruct (conns.VpcV1API meta) as [vpcClient [e|]] eqn:Hmeta.
  { apply wp_ret, problem_of_one. set_solver. }
  apply wp_bind, wp_get_d.
  destruct (flex.SepIdParts _ _) as [parts [e|]] eqn:Hparts.
  { apply wp_ret, problem_of_one. set_solver. }
  apply SepIdParts_ok in Hparts. unfold schema.Id in Hparts.
  apply wp_bind, wp_index; intros part0 _.
  apply wp_bind, wp_index; intros part1 _. cbv zeta.
  apply wp_bind.
  apply (wp_mono _ (fun _ st1 => st_d st1 = st_d st)).
  2:{ destruct (schema.HasChange (st_d st) "name"); [|by apply wp_ret].
      apply wp_bind, wp_deref. intros client _.
      apply wp_bind, wp_call. intros rep w' _. by apply wp_ret. }
  intros updateErr st1 Hd1.
  destruct updateErr; [apply wp_ret, problem_of_one; set_solver |].
  apply wp_bind. eapply wp_mono; [|apply Stable_steady].
  intros w st2 [Hd2 _].
  destruct (snd w); [apply wp_ret, problem_of_one; set_solver |].
  eapply wp_mono; [|apply Read_diags].
  - intros res ? H. eapply Forall_impl; [exact H |].
    intros dg [Hc _]. exists "read". split; [set_solver | done].
  - by rewrite Hmeta.
  - by rewrite Hd2, Hd1.
Qed.

Lemma Delete_diags (meta : conns.ClientSession W) st :
  wp (vpc.resourceIBMIsVPNServerRouteDelete meta)
     (fun res _ => Forall (problem_of rn ["delete"]) res) st.
Proof.
  unfold vpc.resourceIBMIsVPNServerRouteDelete.
  destruct (conns.VpcV1API meta) as [vpcClient [e|]] eqn:Hmeta.
  { apply wp_ret, problem_of_one. set_solver. }
  apply wp_bind, wp_get_d.
  destruct (flex.SepIdParts _ _) as [parts [e|]] eqn:Hparts.
  { apply wp_ret, problem_of_one. set_solver. }
  apply wp_bind_any; intros part0 st0. apply wp_bind_any; intros part1 st1. cbv zeta.
  apply wp_bind_any; intros client st2. apply wp_bind_any; intros r st3.
  destruct (snd r); [apply wp_ret, problem_of_one; set_solver |].
  apply wp_bind_any; intros w st4.
  destruct (snd w); [apply wp_ret, problem_of_one; set_solver |].
  apply wp_bind_any; intros ? ?. apply wp_ret. constructor.
Qed.

Variable env : vpc.ImagesEnv.

Lemma images_problem_one resourceName e summary component :
  resourceName = "(Data) ibm_is_images" \/ resourceName = "(Data) ibm_is_image" ->
  Forall images_problem
    (diag.GetDiag (flex.DiscriminatedTerraformErrorf e summary resourceName "read" component)).
Proof.
  intros [-> | ->]; (constructor; [|constructor]); [left | right];
    exists "read"; (split; [set_solver | done]).
Qed.

Lemma pages_problems sess fuel : forall opts start allrecs st,
  wp (vpc.imageList_pages env fuel sess opts start allrecs)
     (fun x _ => forall diags, x = inl diags -> Forall images_problem diags) st.
Proof.
  induction fuel as [|fuel IH]; intros opts start allrecs st; [done |].
  cbn [vpc.imageList_pages].
  apply wp_bind_any; intros client st0. apply wp_bind_any; intros rep st1.
  destruct (vpcv1.err rep).
  { apply wp_ret. intros diags [= <-]. apply images_problem_one. by left. }
  apply wp_bind_any; intros availableImages st2. cbv zeta.
  destruct (String.eqb _ ""); [by apply wp_ret | apply IH].
Qed.

Lemma info_problems (meta : conns.ClientSession W) image st :
  wp (vpc.imageList_info env meta image)
     (fun x _ => forall diags, x = inl diags -> Forall images_problem diags) st.
Proof.
  unfold vpc.imageList_info.
  do 9 (apply wp_bind_any; intros ? ?). cbv zeta.
  do 3 (apply wp_bind_any; intros ? ?).
  destruct (vpcv1.im_Remote image);
    [destruct (vpc.dataSourceImageRemote env image) as [imageRemoteMap [e|]];
       [|destruct (Nat.ltb 0 (size imageRemoteMap))] |].
  all: try (apply wp_ret; intros diags [= <-]; apply images_problem_one; by right).
  all: do 2 (apply wp_bind_any; intros ? ?); by apply wp_ret.
Qed.

Lemma infos_problems (meta : conns.ClientSession W) allrecs : forall imagesInfo st,
  wp (vpc.imageList_infos env meta allrecs imagesInfo)
     (fun x _ => forall diags, x = inl diags -> Forall images_problem diags) st.
Proof.
  induction allrecs as [|image rest IH]; intros imagesInfo st; cbn [vpc.imageList_infos];
    [by apply wp_ret |].
  apply wp_bind. eapply wp_mono; [|apply info_problems].
  intros [diags | l] st1 Hinfo; [|apply IH].
  apply wp_ret. intros ? [= <-]. by apply Hinfo.
Qed.

Lemma imageList_diags fuel (meta : conns.ClientSession W) st :
  wp (vpc.imageList env fuel meta) (fun res _ => Forall images_problem res) st.
Proof.
  unfold vpc.imageList, vpc.vpcClient.
  destruct (conns.VpcV1API meta) as [sess [e|]].
  { apply wp_ret, images_problem_one. by left. }
  apply wp_bind, wp_get_d. cbv zeta.
  apply wp_bind. eapply wp_mono; [|apply pages_problems].
  intros pages st1 Hpages.
  destruct pages as [diags | allrecs]; [by apply wp_ret, Hpages |].
  apply wp_bind_any; intros filtered st2.
  apply wp_bind. eapply wp_mono; [|apply infos_problems].
  intros infos st3 Hinfos.
  destruct infos as [diags | imagesInfo]; [by apply wp_ret, Hinfos |].
  apply wp_bind_any; intros id st4. apply wp_bind_any; intros ? st5.
  apply wp_bind_any; intros err st6.
  destruct err; [apply wp_ret, images_problem_one; by left | apply wp_ret; constructor].
Qed.

Variable names : power.Names.

Lemma PIKeyRead_diags (meta : conns.ClientSession W) st :
  wp (power.dataSourceIBMPIKeyRead names meta) (fun res _ => Forall plain res) st.
Proof.
  unfold power.dataSourceIBMPIKeyRead.
  destruct (conns.IBMPISession_ meta) as [sess [e|]].
  { apply wp_ret. constructor; [by eexists | constructor]. }
  apply wp_bind, wp_get_d. cbv zeta.
  apply wp_bind_any; intros client st0. apply wp_bind_any; intros [sshkeydata [e|]] st1.
  { apply wp_ret. constructor; [by eexists | constructor]. }
  repeat (apply wp_bind_any; intros ? ?). apply wp_ret. constructor.
Qed.

Lemma PISPPPlacementGroupRead_diags (meta : conns.ClientSession W) st :
  wp (power.dataSourceIBMPISPPPlacementGroupRead names meta)
     (fun res _ => Forall plain res) st.
Proof.
  unfold power.dataSourceIBMPISPPPlacementGroupRead.
  destruct (conns.IBMPISession_ meta) as [sess [e|]].
  { apply wp_ret. constructor; [by eexists | constructor]. }
  apply wp_bind, wp_get_d. cbv zeta.
  apply wp_bind_any; intros client st0.
  apply wp_bind_any; intros [[response|] [e|]] st1;
    try (apply wp_ret; constructor; [by eexists | constructor]).
  repeat (apply wp_bind_any; intros ? ?). apply wp_ret. constructor.
Qed.

End Diagnostics.

(** C5, as the spec states it, fails on the data source of a Power SSH key:
    when the session cannot be initialised the handler returns the error as
    a plain diagnostic, which carries no resource name, action or sub-step
    label. *)
Lemma C5_counterexample :
  let st := fixture.state (fixture.data "" ∅)
              {| fixture.gets := []; fixture.pages := [] |} in
  power.dataSourceIBMPIKeyRead fixture.names fixture.brokenMeta st
    = Done ([diag.Plain "no power session"], st) /\
  (forall resourceName operation,
     ~ diag.carries resourceName operation (diag.Plain "no power session")) /\
  ~ diag.labelled (diag.Plain "no power session").
Proof. split; [reflexivity |]. split; [intros ? ? [] | intros []]. Qed.

(** C5, amended.  Every diagnostic that the create, update and delete
    handlers of [ibm_is_vpn_server_route] and [imageList] return is a
    provider problem that carries a resource name and an action.  The
    problem built for a client that cannot be initialised also carries the
    sub-step label [initialize-client]; the problem built for a failed create
    or delete request carries an empty label.  The two Power data sources
    return plain diagnostics only. *)
Theorem C5_wrapped_diagnostics {W : Type} (env : vpc.ImagesEnv) (names : power.Names)
    (meta : conns.ClientSession W) (fuel : nat) (st : St W) :
  let rn := "ibm_is_vpn_server_route" in
  ((forall res st', vpc.resourceIBMIsVPNServerRouteCreate meta st = Done (res, st') ->
      Forall (problem_of rn ["create"; "read"]) res) /\
   (forall res st', vpc.resourceIBMIsVPNServerRouteUpdate meta st = Done (res, st') ->
      Forall (problem_of rn ["update"; "read"]) res) /\
   (forall res st', vpc.resourceIBMIsVPNServerRouteDelete meta st = Done (res, st') ->
      Forall (problem_of rn ["delete"]) res) /\
   (forall res st', vpc.imageList env fuel meta st = Done (res, st') ->
      Forall images_problem res)) /\
  (forall client e,
     conns.VpcV1API meta = (client, Some e) ->
     let label p := flex.Component p = "initialize-client" in
     (exists p, vpc.resourceIBMIsVPNServerRouteCreate meta st = Done ([diag.Problem p], st)
                /\ label p) /\
     (exists p, vpc.resourceIBMIsVPNServerRouteUpdate meta st = Done ([diag.Problem p], st)
                /\ label p) /\
     (exists p, vpc.resourceIBMIsVPNServerRouteDelete meta st = Done ([diag.Problem p], st)
                /\ label p) /\
     (exists p, vpc.imageList env fuel meta st = Done ([diag.Problem p], st) /\ label p)) /\
  (forall client e,
     conns.VpcV1API meta = (Some client, None) ->
     (forall o, vpcv1.err (fst (vpcv1.CreateVPNServerRouteWithContext client o (st_world st)))
                = Some e) ->
     exists p st',
       vpc.resourceIBMIsVPNServerRouteCreate meta st = Done ([diag.Problem p], st') /\
       flex.Operation p = "create" /\ flex.Component p = "") /\
  (forall client e,
     conns.VpcV1API meta = (Some client, None) ->
     gostrings.Contains (schema.rd_id (st_d st)) "/" = true ->
     (forall o, snd (fst (vpcv1.DeleteVPNServerRouteWithContext client o (st_world st)))
                = Some e) ->
     exists p st',
       vpc.resourceIBMIsVPNServerRouteDelete meta st = Done ([diag.Problem p], st') /\
       flex.Operation p = "delete" /\ flex.Component p = "") /\
  ((forall res st', power.dataSourceIBMPIKeyRead names meta st = Done (res, st') ->
      Forall plain res) /\
   (forall res st',
      power.dataSourceIBMPISPPPlacementGroupRead names meta st = Done (res, st') ->
      Forall plain res)).
Proof.
  intros rn. split; [|split; [|split; [|split]]].
  - repeat split; intros res st' E.
    + exact (wp_elim _ _ _ _ _ (Create_diags meta st) E).
    + exact (wp_elim _ _ _ _ _ (Update_diags meta st) E).
    + exact (wp_elim _ _ _ _ _ (Delete_diags meta st) E).
    + exact (wp_elim _ _ _ _ _ (imageList_diags env fuel meta st) E).
  - intros client e Hmeta label. subst label.
    unfold vpc.resourceIBMIsVPNServerRouteCreate, vpc.resourceIBMIsVPNServerRouteUpdate,
      vpc.resourceIBMIsVPNServerRouteDelete, vpc.imageList, vpc.vpcClient.
    rewrite Hmeta. repeat split; by eexists.
  - intros client e Hmeta Hfail.
    unfold vpc.resourceIBMIsVPNServerRouteCreate. rewrite Hmeta.
    unfold bind at 1, get_d at 1. cbv zeta. unfold bind at 1. cbn [deref]. unfold ret at 1.
    unfold bind at 1, call at 1.
    match goal with
    | |- context [vpcv1.CreateVPNServerRouteWithContext client ?o (st_world st)] =>
        specialize (Hfail o);
        destruct (vpcv1.CreateVPNServerRouteWithContext client o (st_world st)) as [rep w']
    end.
    cbn [fst] in Hfail. rewrite Hfail. by eexists _, _.
  - intros client e Hmeta Hid Hfail.
    unfold vpc.resourceIBMIsVPNServerRouteDelete. rewrite Hmeta.
    unfold bind at 1, get_d at 1. unfold flex.SepIdParts, schema.Id. rewrite Hid.
    destruct (Split_two_parts _ _ Hid) as (p0 & p1 & rest & ->).
    unfold bind at 1. cbn [index lookup list_lookup]. unfold ret at 1.
    unfold bind at 1. cbn [index lookup list_lookup]. unfold ret at 1. cbv zeta.
    unfold bind at 1. cbn [deref]. unfold ret at 1.
    unfold bind at 1, call at 1.
    match goal with
    | |- context [vpcv1.DeleteVPNServerRouteWithContext client ?o (st_world st)] =>
        specialize (Hfail o);
        destruct (vpcv1.DeleteVPNServerRouteWithContext client o (st_world st))
          as [[resp err] w']
    end.
    cbn [fst snd] in *. rewrite Hfail. by eexists _, _.
  - split; intros res st' E.
    + exact (wp_elim _ _ _ _ _ (PIKeyRead_diags names meta st) E).
    + exact (wp_elim _ _ _ _ _ (PISPPPlacementGroupRead_diags names meta st) E).
Qed.

(** The read handler of the route returns a plain diagnostic as well when
    its client cannot be initialised. *)
Example read_returns_plain_diagnostic :
  let st := fixture.state (fixture.data "vs-1/rt-9" ∅)
              {| fixture.gets := []; fixture.pages := [] |} in
  vpc.resourceIBMIsVPNServerRouteRead fixture.brokenMeta st
    = Done ([diag.Plain "no vpc client"], st).
Proof. reflexivity. Qed.

(** * Further properties *)

(** ** What the read handler stores *)

Section ReadStores.
Context {W : Type}.
Implicit Types st : St W.

Lemma set_or_return_stores key v component (k : M W diag.Diagnostics) st :
  schema.rd_refuse (st_d st) key = None ->
  vpc.set_or_return key v component k st = k (with_attr key v st).
Proof.
  intros H. unfold vpc.set_or_return, bind, d_Set, schema.Set_. by rewrite H.
Qed.

(** A step of the chain of [Set] calls, with the error of the refused
    [Set] at hand. *)
Lemma wp_set_or_return_refused (I : St W -> Prop) (Q : diag.Diagnostics -> St W -> Prop)
    key v component k st :
  I st ->
  (forall st1 st2 e, I st1 -> d_Set key v st1 = Done (e, st2) -> I st2) ->
  (forall e st1, I st1 -> schema.rd_refuse (st_d st1) key = Some e ->
     Q (diag.GetDiag (flex.DiscriminatedTerraformErrorf e e
                        "ibm_is_vpn_server_route" "read" component)) st1) ->
  (forall st1, I st1 -> wp k Q st1) ->
  wp (vpc.set_or_return key v component k) Q st.
Proof.
  intros HI Hset Hret Hk. apply wp_intro. intros a st' H.
  unfold vpc.set_or_return, bind in H.
  destruct (d_Set key v st) as [[e st1]| |] eqn:E; try done.
  pose proof (Hset _ _ _ HI E) as HI1.
  destruct e.
  - injection H as <- <-. apply Hret; [exact HI1 |].
    unfold d_Set, schema.Set_ in E.
    destruct (schema.rd_refuse (st_d st) key) eqn:Hr; injection E as <- <-; [|done].
    done.
  - exact (wp_elim _ _ _ _ _ (Hk st1 HI1) H).
Qed.

End ReadStores.

Section ReadRuns.
Context {W : Type}.
Implicit Types st : St W.

Lemma Read_stores (meta : conns.ClientSession W) (client : vpcv1.VpcV1 W) (s r : string) st
    (rep : vpcv1.reply vpcv1.VPNServerRoute) (route : vpcv1.VPNServerRoute) (w' : W) :
  conns.VpcV1API meta = (Some client, None) ->
  gostrings.Contains s "/" = false ->
  gostrings.Contains r "/" = false ->
  schema.rd_id (st_d st) = s +:+ "/" +:+ r ->
  vpcv1.GetVPNServerRouteWithContext client
    {| vpcv1.g_VPNServerID := Some s; vpcv1.g_ID := Some r |} (st_world st) = (rep, w') ->
  vpcv1.err rep = None ->
  vpcv1.result rep = Some route ->
  (forall key, schema.rd_refuse (st_d st) key = None) ->
  exists st',
    vpc.resourceIBMIsVPNServerRouteRead meta st = Done ([], st') /\
    attrs_only (served st w' [get_route s r]) st' /\
    stored s r route (schema.rd_attrs (st_d st)) (schema.rd_attrs (st_d st')).
Proof.
  intros Hmeta Hs Hr Hid Hget Herr Hres Hrefuse.
  unfold stored, vpc.resourceIBMIsVPNServerRouteRead, vpc.vpcClient. rewrite Hmeta.
  unfold bind at 1, get_d at 1. unfold schema.Id.
  rewrite Hid, (SepIdParts_pair _ _ Hs Hr).
  unfold bind at 1. cbn [index lookup list_lookup]. unfold ret at 1.
  unfold bind at 1. cbn [index lookup list_lookup]. unfold ret at 1. cbv zeta.
  unfold bind at 1. cbn [deref]. unfold ret at 1.
  unfold bind at 1, call at 1. rewrite Hget, Herr.
  cbn [vpcv1.g_VPNServerID vpcv1.g_ID schema.of_ptr].
  rewrite !set_or_return_stores by apply Hrefuse.
  unfold bind at 1. rewrite Hres. cbn [deref]. unfold ret at 1.
  rewrite !set_or_return_stores by apply Hrefuse.
  destruct (vpcv1.HealthReasons route) as [hrs|];
    rewrite ?set_or_return_stores by apply Hrefuse;
    (destruct (vpcv1.LifecycleReasons route) as [lrs|];
     rewrite ?set_or_return_stores by apply Hrefuse);
    (eexists; split; [reflexivity |]; split; [by repeat split |];
     unfold vpc.DateTimeToString; cbn;
     repeat (split; [by simplify_map_eq |]);
     intros key Hkey;
     assert (Hne : forall k, k ∈ read_keys -> k <> key) by (by intros k Hk ->);
     rewrite !lookup_insert_ne by (apply Hne; unfold read_keys; repeat constructor); done).
Qed.


End ReadRuns.

(** X1. When the get request succeeds and the schema refuses no attribute,
    the read handler returns no diagnostic, keeps the ID, and stores the two
    parts of the ID and every field of the route under its attribute; the
    reasons are stored only when the route has them, and no other attribute
    is touched. *)
Theorem X1_read_stores_route {W : Type} (meta : conns.ClientSession W)
    (client : vpcv1.VpcV1 W) (s r : string) (st : St W)
    (rep : vpcv1.reply vpcv1.VPNServerRoute) (route : vpcv1.VPNServerRoute) (w' : W) :
  conns.VpcV1API meta = (Some client, None) ->
  gostrings.Contains s "/" = false ->
  gostrings.Contains r "/" = false ->
  schema.rd_id (st_d st) = s +:+ "/" +:+ r ->
  vpcv1.GetVPNServerRouteWithContext client
    {| vpcv1.g_VPNServerID := Some s; vpcv1.g_ID := Some r |} (st_world st) = (rep, w') ->
  vpcv1.err rep = None ->
  vpcv1.result rep = Some route ->
  (forall key, schema.rd_refuse (st_d st) key = None) ->
  exists st',
    vpc.resourceIBMIsVPNServerRouteRead meta st = Done ([], st') /\
    schema.rd_id (st_d st') = schema.rd_id (st_d st) /\
    st_world st' = w' /\
    stored s r route (schema.rd_attrs (st_d st)) (schema.rd_attrs (st_d st')).
Proof.
  intros Hmeta Hs Hr Hid Hget Herr Hres Hrefuse.
  destruct (Read_stores meta client s r st rep route w' Hmeta Hs Hr Hid Hget Herr Hres Hrefuse)
    as (st' & E & (Hi & _ & _ & _ & Hw & _) & Hst).
  exists st'. split; [exact E |]. split; [exact Hi |]. split; [exact Hw | exact Hst].
Qed.

(** The read handler against a cloud that has the route. *)
Lemma X1_witness :
  let st := fixture.state (fixture.data "vs-1/rt-9" ∅)
              {| fixture.gets := [fixture.ok (fixture.route "rt-9" "stable")];
                 fixture.pages := [] |} in
  exists st',
    vpc.resourceIBMIsVPNServerRouteRead fixture.meta st = Done ([], st') /\
    schema.rd_attrs (st_d st') !! "vpn_route" = Some (schema.VStr "rt-9") /\
    schema.rd_attrs (st_d st') !! "destination" = Some (schema.VStr "10.0.0.0/24").
Proof.
  intros st.
  destruct (X1_read_stores_route fixture.meta fixture.client "vs-1" "rt-9" st
              (fixture.ok (fixture.route "rt-9" "stable")) (fixture.route "rt-9" "stable")
              {| fixture.gets := []; fixture.pages := [] |}
              eq_refl eq_refl eq_refl eq_refl eq_refl eq_refl eq_refl (fun _ => eq_refl))
    as (st' & E & _ & _ & _ & Hroute & Hdest & _).
  exists st'. by repeat split.
Defined.

(** ** The diagnostics of the read handler *)

Section ReadDiagnostics.
Context {W : Type}.
Implicit Types st : St W.

Lemma d_Set_refuse key v st e st' :
  d_Set key v st = Done (e, st') ->
  schema.rd_refuse (st_d st') = schema.rd_refuse (st_d st) /\
  schema.rd_id (st_d st') = schema.rd_id (st_d st).
Proof.
  unfold d_Set, schema.Set_.
  destruct (schema.rd_refuse (st_d st) key); intros [= _ <-]; done.
Qed.

Lemma Read_outcome (meta : conns.ClientSession W) (client : vpcv1.VpcV1 W) st :
  conns.VpcV1API meta = (Some client, None) ->
  gostrings.Contains (schema.rd_id (st_d st)) "/" = true ->
  wp (vpc.resourceIBMIsVPNServerRouteRead meta) (read_outcome st) st.
Proof.
  intros Hmeta Hid. unfold read_outcome.
  unfold vpc.resourceIBMIsVPNServerRouteRead, vpc.vpcClient. rewrite Hmeta.
  apply wp_bind, wp_get_d. unfold flex.SepIdParts, schema.Id. rewrite Hid.
  apply wp_bind, wp_index; intros part0 _.
  apply wp_bind, wp_index; intros part1 _. cbv zeta.
  apply wp_bind, wp_deref; intros client' _.
  apply wp_bind, wp_call; intros rep w' _.
  destruct (vpcv1.err rep).
  { destruct (vpcv1.response rep) as [resp|]; [destruct (vpcv1.StatusCode resp =? 404)|].
    - apply wp_bind, wp_modify_d, wp_ret. left. split; [done | by right].
    - apply wp_ret. right. split; [done |]. left. by eexists.
    - apply wp_ret. right. split; [done |]. left. by eexists. }
  set (Inv := fun st1 : St W =>
              schema.rd_refuse (st_d st1) = schema.rd_refuse (st_d st) /\
              schema.rd_id (st_d st1) = schema.rd_id (st_d st)).
  match goal with |- wp _ _ ?st1 => assert (HI : Inv st1) by done; generalize dependent st1 end.
  intros st1 HI.
  repeat first
    [ apply (wp_set_or_return_refused Inv);
      [ assumption
      | intros ? ? ? [? ?] Hset; apply d_Set_refuse in Hset; destruct Hset; split; congruence
      | intros e0 ? [Hrf Hi0] Hr; right; split; [exact Hi0 |]; right;
        eexists _, e0; split; [unfold read_keys; repeat constructor |];
        split; [by rewrite <- Hrf | reflexivity]
      | intros ? ? ]
    | apply wp_bind, wp_deref; intros ? ?
    | match goal with
      | |- wp (match ?x with Some _ => _ | None => _ end) _ _ => destruct x
      end
    | apply wp_ret; left; split; [done |]; left;
      match goal with
      | H : Inv ?s |- schema.rd_id (st_d ?s) = _ => exact (proj2 H)
      end ].
Qed.

End ReadDiagnostics.

(** X2. With a client and an ID that parses, a read handler that returns
    either reports nothing, or reports the failed get request under the
    sub-step label sep-id-parts, or reports an attribute the schema
    refuses, under the sub-step label set- followed by the name of that
    attribute and with the error of the schema as its summary.  Unless it
    cleared the ID on a 404, the ID is the one it started with. *)
Theorem X2_read_diagnostics {W : Type} (meta : conns.ClientSession W)
    (client : vpcv1.VpcV1 W) (st : St W) (res : diag.Diagnostics) (st' : St W) :
  conns.VpcV1API meta = (Some client, None) ->
  gostrings.Contains (schema.rd_id (st_d st)) "/" = true ->
  vpc.resourceIBMIsVPNServerRouteRead meta st = Done (res, st') ->
  read_outcome st res st'.
Proof.
  intros Hmeta Hid E. exact (wp_elim _ _ _ _ _ (Read_outcome meta client st Hmeta Hid) E).
Qed.


(** The read handler when the schema refuses the attribute [action]. *)
Lemma X2_witness :
  let st := fixture.state (refusing "action" "bad type" (fixture.data "vs-1/rt-9" ∅))
              {| fixture.gets := [fixture.ok (fixture.route "rt-9" "stable")];
                 fixture.pages := [] |} in
  let res := diag.GetDiag (flex.DiscriminatedTerraformErrorf "bad type" "bad type"
                             "ibm_is_vpn_server_route" "read" "set-action") in
  exists st',
    vpc.resourceIBMIsVPNServerRouteRead fixture.meta st = Done (res, st') /\
    read_outcome st res st'.
Proof.
  intros st res.
  destruct (vpc.resourceIBMIsVPNServerRouteRead fixture.meta st)
    as [[res' st']| |] eqn:E; [| by vm_compute in E..].
  assert (res' = res) as -> by (vm_compute in E; by injection E as <- _).
  exists st'. split; [reflexivity |].
  exact (X2_read_diagnostics fixture.meta fixture.client st res st' eq_refl eq_refl E).
Defined.

(** ** A refresh that fails *)

Section WaitFails.
Context {W R : Type}.
Implicit Types st : St W.
Variable conf : resource.StateChangeConf W R.
Hypothesis Refresh_clock_free : clock_free (resource.Refresh conf).
Hypothesis MinTimeout_10s : resource.MinTimeout conf = 10 * time.Second.
Hypothesis Delay_10s : resource.Delay conf = 10 * time.Second.

Lemma refreshLoop_error fuel deadline wait tick st res state e st1 :
  wait = 0 \/ wait = 10 * time.Second ->
  st_now st + wait < deadline ->
  resource.Refresh conf st = Done ((res, state, Some e), st1) ->
  resource.refreshLoop (S fuel) conf deadline wait tick st =
  Done ((res, Some e), advance wait st1).
Proof.
  intros Hwait Htime HR.
  cbn [resource.refreshLoop]. unfold bind at 1.
  rewrite (sleepBefore_in_time _ _ _ (wait_nonneg _ Hwait) Htime). cbn [negb].
  unfold bind at 1. rewrite (Refresh_advance _ Refresh_clock_free _ _ _ _ HR). reflexivity.
Qed.

Lemma refreshLoop_fails seen : forall fuel deadline wait tick st st1 res state e st2,
  wait = 0 \/ wait = 10 * time.Second ->
  rounds conf seen st st1 ->
  Forall (fun rs => is_pending conf (snd rs)) seen ->
  resource.Refresh conf st1 = Done ((res, state, Some e), st2) ->
  st_now st + wait + 10 * time.Second * Z.of_nat (length seen) < deadline ->
  (length seen < fuel)%nat ->
  resource.refreshLoop fuel conf deadline wait tick st =
  Done ((res, Some e), advance (wait + 10 * time.Second * Z.of_nat (length seen)) st2).
Proof.
  induction seen as [|[res0 state0] seen IH];
    intros fuel deadline wait tick st st1 res state e st2 Hwait Hrounds Hpend HR Htime Hfuel.
  - inversion Hrounds; subst.
    destruct fuel as [|fuel]; [simpl in Hfuel; lia |].
    simpl length in Htime.
    rewrite (refreshLoop_error fuel deadline wait tick st1 res state e st2 Hwait);
      [| lia | exact HR].
    do 2 f_equal. apply advance_eq. simpl. lia.
  - inversion Hrounds as [|? ? ? st0 ? ? HR0 Hrest]; subst.
    inversion Hpend as [|? ? Hp0 Hpend']; subst.
    destruct fuel as [|fuel]; [simpl in Hfuel; lia |].
    simpl length in *.
    assert (0 < time.Second) by done.
    rewrite (refreshLoop_pending conf Refresh_clock_free MinTimeout_10s
               fuel deadline wait tick st res0 state0 st0 Hwait);
      [| nia | exact HR0 | exact Hp0].
    rewrite (IH fuel deadline _ 0%nat _ _ res state e (advance wait st2)
               (or_intror eq_refl) (rounds_advance conf Refresh_clock_free wait _ _ _ Hrest)
               Hpend').
    + rewrite advance_advance. do 2 f_equal. apply advance_eq. lia.
    + by apply Refresh_advance.
    + cbn [st_now advance]. rewrite (Refresh_now _ Refresh_clock_free _ _ _ HR0). lia.
    + lia.
Qed.

Lemma WaitForState_fails seen st st1 res state e st2 :
  rounds conf seen st st1 ->
  Forall (fun rs => is_pending conf (snd rs)) seen ->
  resource.Refresh conf st1 = Done ((res, state, Some e), st2) ->
  10 * time.Second * (Z.of_nat (length seen) + 1) < resource.Timeout conf ->
  resource.WaitForState conf st =
  Done ((res, Some e), advance (10 * time.Second * (Z.of_nat (length seen) + 1)) st2).
Proof.
  intros Hrounds Hpend HR Htime.
  assert (0 < time.Second) by done.
  unfold resource.WaitForState. unfold bind at 1, now at 1. cbv zeta. unfold bind at 1.
  rewrite Delay_10s, sleepBefore_in_time by lia. cbn [negb].
  rewrite (refreshLoop_fails seen _ _ 0 0%nat _ _
             res state e (advance (10 * time.Second) st2)
             (or_introl eq_refl) (rounds_advance conf Refresh_clock_free _ _ _ _ Hrounds) Hpend).
  - rewrite advance_advance. do 2 f_equal. apply advance_eq. lia.
  - by apply Refresh_advance.
  - cbn [st_now advance]. lia.
  - apply budget_suffices. intros _. lia.
Qed.

End WaitFails.

Section PollFails.
Context {W : Type}.
Implicit Types st : St W.
Variable client : vpcv1.VpcV1 W.
Variables s r : string.
Hypothesis Hs : gostrings.Contains s "/" = false.
Hypothesis Hr : gostrings.Contains r "/" = false.

Let get := vpcv1.GetVPNServerRouteWithContext client
             {| vpcv1.g_VPNServerID := Some s; vpcv1.g_ID := Some r |}.

Lemma stable_Refresh_error st rep w1 e :
  schema.rd_id (st_d st) = s +:+ "/" +:+ r ->
  get (st_world st) = (rep, w1) ->
  vpcv1.err rep = Some e ->
  vpc.isWaitForVPNServerRouteStable_Refresh (Some client) st =
  Done ((Some (vpcv1.result rep), "",
         Some ("GetVPNServerRouteWithContext failed: " +:+ e)),
        after st w1 0 1 (get_route s r)).
Proof.
  intros Hid Hget Herr.
  unfold vpc.isWaitForVPNServerRouteStable_Refresh, bind, get_d, schema.Id.
  rewrite Hid, (SepIdParts_pair _ _ Hs Hr). cbn.
  unfold call. fold get. rewrite Hget. cbn.
  rewrite Herr. unfold ret, after, get_route; do 2 f_equal; f_equal; lia.
Qed.

Lemma Stable_fails timeout st pend rep w' e :
  schema.rd_id (st_d st) = s +:+ "/" +:+ r ->
  answers get (pend ++ [rep]) (st_world st) w' ->
  Forall stable_pending pend ->
  vpcv1.err rep = Some e ->
  10 * time.Second * (Z.of_nat (length pend) + 1) < timeout ->
  vpc.isWaitForVPNServerRouteStable (Some client) timeout st =
  Done ((Some (vpcv1.result rep), Some ("GetVPNServerRouteWithContext failed: " +:+ e)),
        after st w' (10 * time.Second * (Z.of_nat (length pend) + 1))
              (length pend + 1) (get_route s r)).
Proof.
  intros Hid Hans Hpend Herr Htime.
  destruct (answers_app _ _ _ _ _ Hans) as (w1 & Hans1 & Hans2).
  inversion Hans2 as [|? ? w2 ? ? Hget Hnil]; subst. inversion Hnil; subst.
  destruct (stable_pending_seen client timeout _ Hpend) as [Hrep Hseen].
  pose proof (stable_rounds client s r Hs Hr timeout pend st w1 Hid Hans1 Hrep) as Hrounds.
  unfold vpc.isWaitForVPNServerRouteStable.
  erewrite (WaitForState_fails (vpc.isWaitForVPNServerRouteStable_stateConf (Some client) timeout)
              (stable_Refresh_clock_free client) eq_refl eq_refl
              _ _ _ _ _ _ _ Hrounds Hseen);
    [| exact (stable_Refresh_error (after st w1 0 (length pend) (get_route s r))
                rep w' e Hid Hget Herr)
     | by rewrite length_fmap ].
  rewrite length_fmap, after_after, advance_after. do 2 f_equal.
Qed.

End PollFails.

(** ** The requests of the handlers *)

Section HandlerTraces.
Context {W : Type}.
Implicit Types st : St W.
Variables s r : string.
Hypothesis Hs : gostrings.Contains s "/" = false.
Hypothesis Hr : gostrings.Contains r "/" = false.

Lemma steady_polls st st' :
  steady (fun rq => rq = get_route s r) st st' -> polls s r st st'.
Proof.
  intros [Hd (reqs & Hq & HP)]. split; [done |]. exists (length reqs).
  unfold issued in *. rewrite Hq. f_equal. clear Hq.
  induction HP as [|rq reqs -> _ IH]; [done |]. cbn. by rewrite <- IH.
Qed.

Lemma Stable_polls (sess : option (vpcv1.VpcV1 W)) timeout st :
  schema.rd_id (st_d st) = s +:+ "/" +:+ r ->
  wp (vpc.isWaitForVPNServerRouteStable sess timeout) (fun _ st' => polls s r st st') st.
Proof.
  intros Hid. eapply wp_mono; [intros ? ?; apply steady_polls |].
  unfold vpc.isWaitForVPNServerRouteStable.
  apply (WaitForState_steady _ (fun d => schema.rd_id d = s +:+ "/" +:+ r)); [|done].
  intros st0 Hid0. eapply wp_mono; [|exact (stable_Refresh_request _ s r st0 Hs Hr Hid0)].
  intros ? st' [Hd Hq]. split; [done |].
  eexists; split; [exact Hq |]. by repeat constructor.
Qed.

Lemma Deleted_polls (sess : option (vpcv1.VpcV1 W)) st :
  schema.rd_id (st_d st) = s +:+ "/" +:+ r ->
  wp (vpc.isWaitForVPNServerRouteDeleted sess) (fun _ st' => polls s r st st') st.
Proof.
  intros Hid. eapply wp_mono; [intros ? ?; apply steady_polls |].
  unfold vpc.isWaitForVPNServerRouteDeleted. apply wp_bind, wp_get_d.
  apply (WaitForState_steady _ (fun d => schema.rd_id d = s +:+ "/" +:+ r)); [|done].
  intros st0 Hid0. eapply wp_mono; [|exact (deleted_Refresh_request _ s r st0 Hs Hr Hid0)].
  intros ? st' [Hd Hq]. split; [done |].
  eexists; split; [exact Hq |]. by repeat constructor.
Qed.

Lemma Read_gets (meta : conns.ClientSession W) st :
  schema.rd_id (st_d st) = s +:+ "/" +:+ r ->
  wp (vpc.resourceIBMIsVPNServerRouteRead meta)
     (fun _ st' => exists n, issued st st' (replicate n (get_route s r))) st.
Proof.
  intros Hid. eapply wp_mono; [|exact (Read_requests s r Hs Hr meta st Hid)].
  intros ? st' H. destruct (snd (conns.VpcV1API meta)); [by exists 0%nat | by exists 1%nat].
Qed.

Lemma Update_requests (meta : conns.ClientSession W) (client : vpcv1.VpcV1 W) st :
  conns.VpcV1API meta = (Some client, None) ->
  schema.rd_id (st_d st) = s +:+ "/" +:+ r ->
  wp (vpc.resourceIBMIsVPNServerRouteUpdate meta)
     (fun _ st' =>
        exists n, issued st st' (update_request s r (st_d st) ++ replicate n (get_route s r)))
     st.
Proof.
  intros Hmeta Hid. unfold vpc.resourceIBMIsVPNServerRouteUpdate. rewrite Hmeta.
  apply wp_bind, wp_get_d. unfold schema.Id.
  rewrite Hid, (SepIdParts_pair _ _ Hs Hr). cbv beta iota.
  do 2 wp_idx. cbv zeta.
  apply wp_bind.
  apply (wp_mono _ (fun _ st1 => st_d st1 = st_d st /\
                                 issued st st1 (update_request s r (st_d st)))).
  2:{ unfold update_request. destruct (schema.HasChange (st_d st) "name").
      - apply wp_bind, wp_deref. intros client' _.
        apply wp_bind, wp_call. intros rep w' _. by apply wp_ret.
      - apply wp_ret. split; [done |]. unfold issued. by rewrite app_nil_r. }
  intros updateErr st1 [Hd1 Hq1].
  destruct updateErr.
  { apply wp_ret. exists 0%nat. unfold issued in *. by rewrite Hq1, app_nil_r. }
  apply wp_bind.
  assert (Hid1 : schema.rd_id (st_d st1) = s +:+ "/" +:+ r) by (by rewrite Hd1).
  eapply wp_mono; [|exact (Stable_polls (Some client) _ st1 Hid1)].
  intros w st2 [Hd2 (n2 & Hq2)].
  destruct (snd w).
  { apply wp_ret. exists n2. unfold issued in *. by rewrite Hq2, Hq1, app_assoc. }
  assert (Hid2 : schema.rd_id (st_d st2) = s +:+ "/" +:+ r) by (by rewrite Hd2, Hd1).
  eapply wp_mono; [|exact (Read_gets meta st2 Hid2)].
  intros ? st3 (n3 & Hq3). exists (n2 + n3)%nat. unfold issued in *.
  by rewrite Hq3, Hq2, Hq1, replicate_add, !app_assoc.
Qed.

End HandlerTraces.

Section GetsOnly.
Context {W : Type}.
Implicit Types st : St W.

Lemma stable_Refresh_gets (sess : option (vpcv1.VpcV1 W)) st :
  wp (vpc.isWaitForVPNServerRouteStable_Refresh sess)
     (fun _ st' => steady is_get st st') st.
Proof.
  apply wp_intro. intros a st'.
  unfold vpc.isWaitForVPNServerRouteStable_Refresh, bind, get_d, index, deref, ret, panic.
  destruct (flex.SepIdParts _ _) as [parts [e|]].
  { intros [= _ <-]. apply steady_refl. }
  destruct (parts !! 0%nat); [|done]. destruct (parts !! 1%nat); [|done].
  destruct sess as [client|]; [|done].
  destruct (call _ _ st) as [[rep st1]| |] eqn:Hcall; [|done..].
  pose proof (steady_call is_get _ _ _ _ _ (ex_intro _ _ eq_refl) Hcall) as S1.
  repeat (case_match; simplify_eq/=); try done; intros [= _ <-]; exact S1.
Qed.

Lemma Stable_gets (sess : option (vpcv1.VpcV1 W)) timeout st :
  wp (vpc.isWaitForVPNServerRouteStable sess timeout)
     (fun _ st' => steady is_get st st') st.
Proof.
  unfold vpc.isWaitForVPNServerRouteStable.
  apply (WaitForState_steady _ (fun _ => True)); [|done].
  intros st0 _. apply stable_Refresh_gets.
Qed.

(** The read handler issues at most one request, a get request. *)
Lemma Read_is_get (meta : conns.ClientSession W) st :
  wp (vpc.resourceIBMIsVPNServerRouteRead meta)
     (fun _ st' => exists reqs, issued st st' reqs /\ Forall is_get reqs) st.
Proof.
  assert (Hnone : forall st0 : St W, exists reqs, issued st0 st0 reqs /\ Forall is_get reqs).
  { intros st0. exists []. split; [|constructor]. unfold issued. by rewrite app_nil_r. }
  unfold vpc.resourceIBMIsVPNServerRouteRead, vpc.vpcClient.
  destruct (conns.VpcV1API meta) as [sess [e|]]; [by apply wp_ret |].
  apply wp_bind, wp_get_d.
  destruct (flex.SepIdParts _ _) as [parts [e|]]; [by apply wp_ret |].
  apply wp_bind, wp_index; intros part0 _.
  apply wp_bind, wp_index; intros part1 _. cbv zeta.
  apply wp_bind, wp_deref; intros client _.
  apply wp_bind, wp_call; intros rep w' _.
  set (Inv := fun st1 : St W =>
                exists reqs, st_trace st1 = (st_trace st ++ reqs)%list /\ Forall is_get reqs).
  assert (HI : forall st1, Inv st1 ->
                 exists reqs, issued st st1 reqs /\ Forall is_get reqs) by done.
  match goal with |- wp _ _ ?st1 =>
    assert (H1 : Inv st1) by (eexists; split; [reflexivity | by repeat econstructor]);
    generalize dependent st1
  end.
  intros st1 H1.
  destruct (vpcv1.err rep).
  { destruct (vpcv1.response rep) as [resp|]; [destruct (vpcv1.StatusCode resp =? 404)|].
    - apply wp_bind, wp_modify_d, wp_ret. by apply HI.
    - apply wp_ret. by apply HI.
    - apply wp_ret. by apply HI. }
  wp_sets Inv
    ltac:(intros ? ? ? ? Hset; apply d_Set_frame in Hset;
          destruct Hset as (_ & _ & _ & Ht); unfold Inv; by rewrite Ht)
    ltac:(intros; by apply HI).
  all: apply wp_ret; by apply HI.
Qed.

Lemma Create_requests (meta : conns.ClientSession W) (client : vpcv1.VpcV1 W) st :
  conns.VpcV1API meta = (Some client, None) ->
  wp (vpc.resourceIBMIsVPNServerRouteCreate meta)
     (fun _ st' =>
        exists gets,
          issued st st' (ReqCreate (create_options (st_d st)) :: gets) /\
          Forall is_get gets /\
          (is_Some (vpcv1.err (fst (vpcv1.CreateVPNServerRouteWithContext client
                                      (create_options (st_d st)) (st_world st)))) ->
           gets = [] /\ st_d st' = st_d st))
     st.
Proof.
  intros Hmeta. unfold vpc.resourceIBMIsVPNServerRouteCreate. rewrite Hmeta.
  apply wp_bind, wp_get_d. cbv zeta.
  apply wp_bind, wp_deref; intros client' [= <-].
  apply wp_bind, wp_call; intros rep w' Hcall.
  assert (Hc : vpcv1.CreateVPNServerRouteWithContext client (create_options (st_d st))
                 (st_world st) = (rep, w')) by exact Hcall.
  rewrite Hc. cbn [fst]. clear Hc.
  destruct (vpcv1.err rep) as [e|].
  { apply wp_ret. exists []. by repeat split. }
  apply wp_bind, wp_deref; intros vpnServerID _.
  apply wp_bind, wp_deref; intros route _.
  apply wp_bind, wp_deref; intros routeID _.
  apply wp_bind, wp_modify_d. apply wp_bind, wp_get_d. apply wp_bind.
  eapply wp_mono; [|apply Stable_gets].
  intros w st2 [_ (q2 & Hq2 & HP2)].
  destruct (snd w).
  { apply wp_ret. exists q2. split; [|split; [done | by intros [? [=]]]].
    unfold issued in *. rewrite Hq2. cbn. by rewrite <- app_assoc. }
  eapply wp_mono; [|apply Read_is_get].
  intros ? st3 (q3 & Hq3 & HP3). exists (q2 ++ q3)%list. split; [|split].
  - unfold issued in *. rewrite Hq3, Hq2. cbn. by rewrite <- !app_assoc.
  - by apply Forall_app.
  - by intros [? [=]].
Qed.

Lemma Delete_requests (meta : conns.ClientSession W) (client : vpcv1.VpcV1 W)
    (s r : string) st :
  gostrings.Contains s "/" = false ->
  gostrings.Contains r "/" = false ->
  conns.VpcV1API meta = (Some client, None) ->
  schema.rd_id (st_d st) = s +:+ "/" +:+ r ->
  wp (vpc.resourceIBMIsVPNServerRouteDelete meta)
     (fun _ st' =>
        exists n,
          issued st st' (delete_route s r :: replicate n (get_route s r)) /\
          (is_Some (snd (fst (vpcv1.DeleteVPNServerRouteWithContext client
                                {| vpcv1.d_VPNServerID := Some s; vpcv1.d_ID := Some r |}
                                (st_world st)))) ->
           n = 0%nat /\ st_d st' = st_d st))
     st.
Proof.
  intros Hs Hr Hmeta Hid. unfold vpc.resourceIBMIsVPNServerRouteDelete. rewrite Hmeta.
  apply wp_bind, wp_get_d. unfold schema.Id.
  rewrite Hid, (SepIdParts_pair _ _ Hs Hr). cbv beta iota.
  do 2 wp_idx. cbv zeta.
  apply wp_bind, wp_deref; intros client' [= <-].
  apply wp_bind, wp_call; intros rep w' Hcall. rewrite Hcall. cbn [fst].
  destruct (snd rep) as [e|].
  { apply wp_ret. exists 0%nat. by repeat split. }
  apply wp_bind.
  eapply wp_mono; [|apply (Deleted_polls s r Hs Hr); exact Hid].
  intros w st2 [Hd2 (n2 & Hq2)].
  destruct (snd w).
  { apply wp_ret. exists n2. split; [|by intros [? [=]]].
    unfold issued in *. rewrite Hq2. cbn. by rewrite <- app_assoc. }
  apply wp_bind, wp_modify_d, wp_ret. exists n2. split; [|by intros [? [=]]].
  unfold issued in *. cbn. rewrite Hq2. cbn. by rewrite <- app_assoc.
Qed.

End GetsOnly.

Section CreateId.
Context {W : Type}.
Implicit Types st : St W.

Lemma Create_id (meta : conns.ClientSession W) (client : vpcv1.VpcV1 W) st
    rep w' route rid :
  conns.VpcV1API meta = (Some client, None) ->
  vpcv1.CreateVPNServerRouteWithContext client (create_options (st_d st)) (st_world st)
    = (rep, w') ->
  vpcv1.err rep = None ->
  vpcv1.result rep = Some route ->
  vpcv1.ID route = Some rid ->
  wp (vpc.resourceIBMIsVPNServerRouteCreate meta)
     (fun res st' =>
        schema.rd_id (st_d st') = schema.GetString (st_d st) "vpn_server" +:+ "/" +:+ rid \/
        (res = [] /\ schema.rd_id (st_d st') = ""))
     st.
Proof.
  intros Hmeta Hcall Herr Hres Hrid.
  unfold vpc.resourceIBMIsVPNServerRouteCreate. rewrite Hmeta.
  apply wp_bind, wp_get_d. cbv zeta.
  apply wp_bind, wp_deref; intros client' [= <-].
  apply wp_bind, wp_call; intros rep0 w0 Hcall0.
  assert (Hc0 : vpcv1.CreateVPNServerRouteWithContext client (create_options (st_d st))
                  (st_world st) = (rep0, w0)) by exact Hcall0.
  rewrite Hcall in Hc0. injection Hc0 as <- <-. clear Hcall0.
  rewrite Herr, Hres.
  apply wp_bind, wp_deref; intros vpnServerID [= <-].
  apply wp_bind, wp_deref; intros route0 [= <-].
  apply wp_bind, wp_deref; intros routeID Hid0.
  assert (routeID = rid) as -> by congruence.
  apply wp_bind, wp_modify_d. apply wp_bind, wp_get_d. apply wp_bind.
  eapply wp_mono; [|apply Stable_gets].
  intros w st2 [Hd2 _]. cbn in Hd2.
  destruct (snd w).
  { apply wp_ret. left. by rewrite Hd2. }
  assert (Hid2 : schema.rd_id (st_d st2)
                 = schema.GetString (st_d st) "vpn_server" +:+ "/" +:+ rid)
    by (by rewrite Hd2).
  eapply wp_mono; [|apply (Read_outcome meta client st2 Hmeta)].
  - intros res st3 [[-> [Hk | Hz]] | [Hk _]].
    + left. congruence.
    + by right.
    + left. congruence.
  - rewrite Hid2. change (?a +:+ "/" +:+ ?b) with (a +:+ String "/" b).
    apply Contains_app_sep.
Qed.

End CreateId.

(** ** Runs of the handlers *)

Section HandlerRuns.
Context {W : Type}.
Implicit Types st : St W.
Variable meta : conns.ClientSession W.
Variable client : vpcv1.VpcV1 W.
Hypothesis Hmeta : conns.VpcV1API meta = (Some client, None).
Variables s r : string.
Hypothesis Hs : gostrings.Contains s "/" = false.
Hypothesis Hr : gostrings.Contains r "/" = false.

Let get := vpcv1.GetVPNServerRouteWithContext client
             {| vpcv1.g_VPNServerID := Some s; vpcv1.g_ID := Some r |}.

Lemma Delete_run st resp w1 pend rep w' :
  schema.rd_id (st_d st) = s +:+ "/" +:+ r ->
  vpcv1.DeleteVPNServerRouteWithContext client
    {| vpcv1.d_VPNServerID := Some s; vpcv1.d_ID := Some r |} (st_world st)
    = ((resp, None), w1) ->
  answers get (pend ++ [rep]) w1 w' ->
  Forall deleted_pending pend ->
  deleted_target rep ->
  10 * time.Second * (Z.of_nat (length pend) + 1)
    < schema.Timeout (st_d st) schema.TimeoutDelete ->
  vpc.resourceIBMIsVPNServerRouteDelete meta st =
  Done ([], {| st_d := schema.SetId "" (st_d st);
               st_world := w';
               st_now := st_now st + 10 * time.Second * (Z.of_nat (length pend) + 1);
               st_trace := (st_trace st ++ delete_route s r ::
                              replicate (length pend + 1) (get_route s r))%list |}).
Proof.
  intros Hid Hdel Hans Hpend Htarget Htime.
  unfold vpc.resourceIBMIsVPNServerRouteDelete. rewrite Hmeta.
  unfold bind at 1, get_d at 1. unfold schema.Id.
  rewrite Hid, (SepIdParts_pair _ _ Hs Hr).
  unfold bind at 1. cbn [index lookup list_lookup]. unfold ret at 1.
  unfold bind at 1. cbn [index lookup list_lookup]. unfold ret at 1. cbv zeta.
  unfold bind at 1. cbn [deref]. unfold ret at 1.
  unfold bind at 1, call at 1. rewrite Hdel. cbn [snd].
  unfold bind at 1.
  erewrite (Deleted_reaches client s r Hs Hr _ pend rep w'); [| exact Hid | exact Hans | exact Hpend | exact Htarget | exact Htime].
  cbn [snd]. unfold bind, modify_d, ret, after, delete_route, get_route. cbn.
  by rewrite <- app_assoc.
Qed.

Lemma served_nil st : served st (st_world st) [] = st.
Proof. destruct st. unfold served. cbn. by rewrite app_nil_r. Qed.

(** The update handler up to its poll. *)
Lemma Update_unfold st w0 :
  schema.rd_id (st_d st) = s +:+ "/" +:+ r ->
  update_accepted client s r st w0 ->
  vpc.resourceIBMIsVPNServerRouteUpdate meta st =
  (let* w := vpc.isWaitForVPNServerRouteStable (Some client)
               (schema.Timeout (st_d st) schema.TimeoutUpdate) in
   match snd w with
   | Some e =>
       ret (diag.GetDiag (flex.TerraformErrorf e
              ("isWaitForVPNServerRouteStable failed: " +:+ e)
              "ibm_is_vpn_server_route" "update"))
   | None => vpc.resourceIBMIsVPNServerRouteRead meta
   end) (served st w0 (update_request s r (st_d st))).
Proof.
  intros Hid Hupd.
  unfold vpc.resourceIBMIsVPNServerRouteUpdate. rewrite Hmeta.
  unfold bind at 1, get_d at 1. unfold schema.Id.
  rewrite Hid, (SepIdParts_pair _ _ Hs Hr).
  unfold bind at 1. cbn [index lookup list_lookup]. unfold ret at 1.
  unfold bind at 1. cbn [index lookup list_lookup]. unfold ret at 1. cbv zeta.
  unfold update_accepted, update_request in *.
  destruct (schema.HasChange (st_d st) "name").
  - destruct Hupd as (rep & Hcall & Herr).
    unfold bind at 1. unfold bind at 1. cbn [deref]. unfold ret at 1.
    unfold bind at 1, call at 1. unfold vpcv1.AsPatch. cbn [vpcv1.p_Name].
    rewrite Hcall. unfold ret at 1. rewrite Herr. reflexivity.
  - subst w0. unfold bind at 1, ret at 1. by rewrite served_nil.
Qed.

(** The create handler up to its poll. *)
Lemma Create_unfold st rep w0 route :
  schema.GetString (st_d st) "vpn_server" = s ->
  vpcv1.CreateVPNServerRouteWithContext client (create_options (st_d st)) (st_world st)
    = (rep, w0) ->
  vpcv1.err rep = None ->
  vpcv1.result rep = Some route ->
  vpcv1.ID route = Some r ->
  vpc.resourceIBMIsVPNServerRouteCreate meta st =
  (let* w := vpc.isWaitForVPNServerRouteStable (Some client)
               (schema.Timeout (st_d st) schema.TimeoutCreate) in
   match snd w with
   | Some e =>
       ret (diag.GetDiag (flex.TerraformErrorf e
              ("isWaitForVPNServerRouteStable failed: " +:+ e)
              "ibm_is_vpn_server_route" "create"))
   | None => vpc.resourceIBMIsVPNServerRouteRead meta
   end) (created st w0 (s +:+ "/" +:+ r)).
Proof.
  intros Hvs Hcall Herr Hres Hrid.
  unfold vpc.resourceIBMIsVPNServerRouteCreate. rewrite Hmeta.
  unfold bind at 1, get_d at 1. cbv zeta.
  unfold bind at 1. cbn [deref]. unfold ret at 1.
  unfold bind at 1, call at 1.
  change (vpcv1.CreateVPNServerRouteWithContext client _ (st_world st))
    with (vpcv1.CreateVPNServerRouteWithContext client (create_options (st_d st))
            (st_world st)).
  rewrite Hcall, Herr, Hres.
  unfold bind at 1. cbn [deref vpcv1.c_VPNServerID]. unfold ret at 1.
  unfold bind at 1. cbn [deref]. unfold ret at 1.
  unfold bind at 1. rewrite Hrid. cbn [deref]. unfold ret at 1.
  unfold bind at 1, modify_d at 1. unfold bind at 1, get_d at 1.
  rewrite <- Hvs. reflexivity.
Qed.

(** The end of the create and update handlers: the poll reaches a target
    state and the read handler stores the route. *)
Lemma poll_then_read st timeout operation pend rep w1 final route w2 :
  schema.rd_id (st_d st) = s +:+ "/" +:+ r ->
  (forall key, schema.rd_refuse (st_d st) key = None) ->
  answers get (pend ++ [rep]) (st_world st) w1 ->
  Forall stable_pending pend ->
  stable_target rep ->
  10 * time.Second * (Z.of_nat (length pend) + 1) < timeout ->
  get w1 = (final, w2) ->
  vpcv1.err final = None ->
  vpcv1.result final = Some route ->
  exists st',
    (let* w := vpc.isWaitForVPNServerRouteStable (Some client) timeout in
     match snd w with
     | Some e =>
         ret (diag.GetDiag (flex.TerraformErrorf e
                ("isWaitForVPNServerRouteStable failed: " +:+ e)
                "ibm_is_vpn_server_route" operation))
     | None => vpc.resourceIBMIsVPNServerRouteRead meta
     end) st = Done ([], st') /\
    attrs_only (after st w2 (10 * time.Second * (Z.of_nat (length pend) + 1))
                      (length pend + 2) (get_route s r)) st' /\
    stored s r route (schema.rd_attrs (st_d st)) (schema.rd_attrs (st_d st')).
Proof.
  intros Hid Hrefuse Hans Hpend Htarget Htime Hget Herr Hres.
  unfold bind at 1.
  rewrite (Stable_reaches client s r Hs Hr timeout st pend rep w1 Hid Hans Hpend Htarget Htime).
  cbn [snd].
  destruct (Read_stores meta client s r
              (after st w1 (10 * time.Second * (Z.of_nat (length pend) + 1))
                     (length pend + 1) (get_route s r))
              final route w2 Hmeta Hs Hr Hid Hget Herr Hres Hrefuse)
    as (st' & E & Hframe & Hstored).
  exists st'. split; [exact E |]. split; [|exact Hstored].
  replace (after st w2 _ (length pend + 2) (get_route s r))
    with (served (after st w1 (10 * time.Second * (Z.of_nat (length pend) + 1))
                        (length pend + 1) (get_route s r)) w2 [get_route s r]);
    [exact Hframe |].
  unfold served, after. cbn. f_equal.
  replace (length pend + 2)%nat with ((length pend + 1) + 1)%nat by lia.
  by rewrite (replicate_add (length pend + 1) 1), app_assoc.
Qed.

End HandlerRuns.

(** ** Computations that return *)

Section Returns.
Context {W : Type}.
Implicit Types st : St W.

Lemma returns_ret {A} (a : A) (Q : A -> St W -> Prop) st : Q a st -> returns (ret a) Q st.
Proof. intros H. by exists a, st. Qed.

Lemma returns_bind {A B} (m : M W A) (f : A -> M W B) (Q : B -> St W -> Prop) st :
  returns m (fun a st1 => returns (f a) Q st1) st -> returns (bind m f) Q st.
Proof.
  intros (a & st1 & Hm & b & st2 & Hf & HQ). exists b, st2.
  split; [|exact HQ]. unfold bind. by rewrite Hm.
Qed.

Lemma returns_deref {A} (p : option A) (a : A) (Q : A -> St W -> Prop) st :
  p = Some a -> Q a st -> returns (deref p) Q st.
Proof. intros -> H. by exists a, st. Qed.

Lemma returns_effect {A} (op : W -> A * W) (Q : A -> St W -> Prop) st :
  (forall a w', op (st_world st) = (a, w') ->
     Q a {| st_d := st_d st; st_world := w';
            st_now := st_now st; st_trace := st_trace st |}) ->
  returns (effect op) Q st.
Proof.
  intros H. unfold returns, effect.
  destruct (op (st_world st)) as [a w'] eqn:E. eexists _, _. split; [reflexivity |].
  by apply H.
Qed.

Lemma returns_mono {A} (m : M W A) (Q Q' : A -> St W -> Prop) st :
  (forall a st', Q a st' -> Q' a st') -> returns m Q st -> returns m Q' st.
Proof. intros H (a & st' & Hm & HQ). exists a, st'. split; [done | by apply H]. Qed.

Lemma wp_const {A} (m : M W A) (P : Prop) st : P -> wp m (fun _ _ => P) st.
Proof. intros H. unfold wp. by destruct (m st) as [[? ?]| |]. Qed.

End Returns.

(** ** The filters of [imageList] *)

Section ImageFilters.
Context {W : Type}.
Implicit Types st : St W.
Import vpcv1.

Lemma filter_filter {A} (f g : A -> bool) (l : list A) :
  List.filter g (List.filter f l) = List.filter (fun a => f a && g a) l.
Proof.
  induction l as [|a l IH]; [done |]. cbn.
  destruct (f a); cbn; [destruct (g a); by rewrite IH | exact IH].
Qed.

Lemma filter_ext_bool {A} (f g : A -> bool) (l : list A) :
  (forall a, f a = g a) -> List.filter f l = List.filter g l.
Proof. intros H. induction l as [|a l IH]; [done |]. cbn. by rewrite H, IH. Qed.

Lemma byStatus_run status allrecs : forall allrecsTemp st,
  Forall (fun image => is_Some (im_Status image)) allrecs ->
  vpc.imageList_byStatus status allrecs allrecsTemp st =
  Done ((allrecsTemp ++ List.filter (has_status status) allrecs)%list, st).
Proof.
  induction allrecs as [|image rest IH]; intros allrecsTemp st Hall;
    cbn [vpc.imageList_byStatus List.filter].
  - unfold ret. by rewrite app_nil_r.
  - inversion Hall as [|? ? [imageStatus Hst] Hrest]; subst.
    unfold bind, has_status. rewrite Hst. cbn [deref]. unfold ret at 1.
    destruct (String.eqb status imageStatus).
    + rewrite (IH _ _ Hrest). by rewrite <- app_assoc.
    + by rewrite (IH _ _ Hrest).
Qed.

Lemma byStatus_requires status allrecs : forall allrecsTemp st,
  wp (W := W) (vpc.imageList_byStatus status allrecs allrecsTemp)
     (fun _ _ => Forall (fun image => is_Some (im_Status image)) allrecs) st.
Proof.
  induction allrecs as [|image rest IH]; intros allrecsTemp st;
    cbn [vpc.imageList_byStatus].
  - by apply wp_ret.
  - apply wp_bind, wp_deref. intros imageStatus Hst.
    destruct (String.eqb status imageStatus);
      (eapply wp_mono; [|apply IH]); intros ? ? Hrest; by constructor.
Qed.

Lemma byCatalogManaged_run catalogManaged allrecs : forall allrecsTemp st,
  Forall managed_set allrecs ->
  vpc.imageList_byCatalogManaged catalogManaged allrecs allrecsTemp st =
  Done ((allrecsTemp ++ List.filter (managed_is catalogManaged) allrecs)%list, st).
Proof.
  induction allrecs as [|image rest IH]; intros allrecsTemp st Hall;
    cbn [vpc.imageList_byCatalogManaged List.filter].
  - unfold ret. by rewrite app_nil_r.
  - inversion Hall as [|? ? Hm Hrest]; subst.
    unfold managed_is. destruct (im_CatalogOffering image) as [offering|] eqn:Hoff.
    + destruct (Hm offering Hoff) as [managed Hmanaged].
      unfold bind. rewrite Hmanaged. cbn [deref]. unfold ret at 1.
      destruct (Bool.eqb catalogManaged managed).
      * rewrite (IH _ _ Hrest). by rewrite <- app_assoc.
      * by rewrite (IH _ _ Hrest).
    + by rewrite (IH _ _ Hrest).
Qed.

Lemma byCatalogManaged_requires catalogManaged allrecs : forall allrecsTemp st,
  wp (W := W) (vpc.imageList_byCatalogManaged catalogManaged allrecs allrecsTemp)
     (fun _ _ => Forall managed_set allrecs) st.
Proof.
  induction allrecs as [|image rest IH]; intros allrecsTemp st;
    cbn [vpc.imageList_byCatalogManaged].
  - by apply wp_ret.
  - destruct (im_CatalogOffering image) as [offering|] eqn:Hoff.
    + apply wp_bind, wp_deref. intros managed Hmanaged.
      destruct (Bool.eqb catalogManaged managed);
        (eapply wp_mono; [|apply IH]); intros ? ? Hrest; constructor; try done;
        intros o Ho; assert (o = offering) as -> by congruence; by eexists.
    + eapply wp_mono; [|apply IH]. intros ? ? Hrest. constructor; [|done].
      intros o Ho. congruence.
Qed.

Lemma filter_run status catalogManaged allrecs st :
  (status <> "" -> Forall (fun image => is_Some (im_Status image)) allrecs) ->
  (catalogManaged = true ->
   Forall managed_set (List.filter (by_status status) allrecs)) ->
  vpc.imageList_filter status catalogManaged allrecs st =
  Done (List.filter (selected status catalogManaged) allrecs, st).
Proof.
  intros Hstatus Hmanaged. unfold vpc.imageList_filter, bind.
  assert (Hfirst :
    (if negb (String.eqb status "")
     then vpc.imageList_byStatus status allrecs []
     else ret allrecs) st = Done (List.filter (by_status status) allrecs, st)).
  { unfold by_status. destruct (String.eqb_spec status "") as [-> | Hne]; cbn [negb orb].
    - unfold ret. by rewrite filter_all by (by apply forallb_forall).
    - by rewrite byStatus_run by (by apply Hstatus). }
  rewrite Hfirst. unfold selected.
  destruct catalogManaged; cbn [negb orb].
  - rewrite byCatalogManaged_run by (by apply Hmanaged).
    cbn [app]. by rewrite filter_filter.
  - unfold ret. do 2 f_equal. apply filter_ext_bool. intros a. by rewrite andb_true_r.
Qed.

Lemma filter_requires status catalogManaged allrecs st :
  wp (W := W) (vpc.imageList_filter status catalogManaged allrecs)
     (fun _ _ =>
        (status <> "" -> Forall (fun image => is_Some (im_Status image)) allrecs) /\
        (catalogManaged = true ->
         Forall managed_set (List.filter (by_status status) allrecs)))
     st.
Proof.
  unfold vpc.imageList_filter. apply wp_bind.
  destruct (String.eqb_spec status "") as [-> | Hne]; cbn [negb].
  - apply wp_ret. destruct catalogManaged.
    + eapply wp_mono; [|apply byCatalogManaged_requires].
      intros ? ? H. split; [done |]. intros _.
      unfold by_status. cbn [String.eqb orb].
      by rewrite filter_all by (by apply forallb_forall).
    + apply wp_ret. by split.
  - apply wp_intro. intros recs st1 E.
    pose proof (wp_elim _ _ _ _ _ (byStatus_requires status allrecs [] st) E) as Hall.
    rewrite (byStatus_run _ _ _ _ Hall) in E. injection E as <- <-. cbn [app].
    destruct catalogManaged.
    + eapply wp_mono; [|apply byCatalogManaged_requires].
      intros ? ? H. split; [done |]. intros _.
      erewrite filter_ext_bool; [exact H |]. intros image. unfold by_status.
      by destruct (String.eqb_spec status "").
    + apply wp_ret. by split.
Qed.

End ImageFilters.

(** ** The map of one image *)

Section ImageRuns.
Context {W : Type}.
Implicit Types st : St W.
Import vpcv1.
Variable env : vpc.ImagesEnv.
Variable meta : conns.ClientSession W.

(** The loop body returns for an image whose pointers are set, and changes
    nothing but the cloud. *)
Lemma info_returns image st :
  complete image ->
  returns (vpc.imageList_info env meta image)
          (fun x st' => quiet st st' /\ (remote_ok env image -> exists l, x = inr l)) st.
Proof.
  intros (Hreq & Hfile & Hkey & Hvol).
  destruct Hreq as ([name Hname] & [id Hid] & [status Hstatus] & [crn Hcrn] &
                    [visibility Hvis] & os & Hos & [osName HosName] & [arch Harch]).
  unfold vpc.imageList_info.
  apply returns_bind, (returns_deref _ name); [exact Hname |].
  apply returns_bind, (returns_deref _ id); [exact Hid |].
  apply returns_bind, (returns_deref _ status); [exact Hstatus |].
  apply returns_bind, (returns_deref _ crn); [exact Hcrn |].
  apply returns_bind, (returns_deref _ visibility); [exact Hvis |].
  apply returns_bind, (returns_deref _ os); [exact Hos |].
  apply returns_bind, (returns_deref _ osName); [exact HosName |].
  apply returns_bind, (returns_deref _ os); [exact Hos |].
  apply returns_bind, (returns_deref _ arch); [exact Harch |].
  cbv zeta.
  apply returns_bind.
  assert (Hsha : forall l : gmap string schema.value,
            returns (W := W)
              match im_File image with
              | Some file =>
                  match Checksums file with
                  | Some checksums =>
                      let* sha := deref (Sha256 checksums) in
                      ret (<[vpc.isImageCheckSum env := schema.VStr sha]> l)
                  | None => ret l
                  end
              | None => ret l
              end (fun _ st' => st' = st) st).
  { intros l. destruct (im_File image) as [file|] eqn:Hf; [|by apply returns_ret].
    destruct (Checksums file) as [checksums|] eqn:Hc; [|by apply returns_ret].
    destruct (Hfile _ _ eq_refl Hc) as [sha Hsha].
    apply returns_bind, (returns_deref _ sha); [exact Hsha |]. by apply returns_ret. }
  eapply returns_mono; [|apply Hsha]. clear Hsha. intros l1 ? ->.
  apply returns_bind.
  assert (Hek : forall l : gmap string schema.value,
            returns (W := W)
              match im_EncryptionKey image with
              | Some key =>
                  let* c := deref (ek_CRN key) in
                  ret (<["encryption_key" := schema.VStr c]> l)
              | None => ret l
              end (fun _ st' => st' = st) st).
  { intros l. destruct (im_EncryptionKey image) as [key|] eqn:Hk; [|by apply returns_ret].
    destruct (Hkey _ eq_refl) as [c Hc].
    apply returns_bind, (returns_deref _ c); [exact Hc |]. by apply returns_ret. }
  eapply returns_mono; [|apply Hek]. clear Hek. intros l2 ? ->.
  apply returns_bind.
  assert (Hsv : forall l : gmap string schema.value,
            returns (W := W)
              match im_SourceVolume image with
              | Some vol =>
                  let* v := deref (vol_ID vol) in
                  ret (<["source_volume" := schema.VStr v]> l)
              | None => ret l
              end (fun _ st' => st' = st) st).
  { intros l. destruct (im_SourceVolume image) as [vol|] eqn:Hv; [|by apply returns_ret].
    destruct (Hvol _ eq_refl) as [v Hv'].
    apply returns_bind, (returns_deref _ v); [exact Hv' |]. by apply returns_ret. }
  eapply returns_mono; [|apply Hsv]. clear Hsv. intros l3 ? ->.
  assert (Hrest : forall l : gmap string schema.value,
            returns (W := W)
              (let l := match im_AllowedUse image with
                        | Some allowedUse =>
                            let '(modelMap, _) :=
                              vpc.DataSourceIBMIsImageAllowedUseToMap env allowedUse in
                            <["allowed_use" := vpc.flattened [modelMap]]> l
                        | None => l
                        end in
               let* crn := deref (im_CRN image) in
               let* tags := effect (conns.GetGlobalTagsUsingCRN meta crn
                                      (vpc.isImageAccessTagType env)) in
               let accesstags := fst tags in
               ret (inr (<[vpc.isImageAccessTags env := accesstags]> l)))
              (fun x st' => quiet st st' /\
                            (remote_ok env image ->
                             exists l : gmap string schema.value,
                               x = inr (A := diag.Diagnostics) l)) st).
  { intros l. cbv zeta.
    apply returns_bind, (returns_deref _ crn); [exact Hcrn |].
    apply returns_bind, returns_effect. intros tags w' _. apply returns_ret.
    split; [done |]. intros _. by eexists. }
  unfold remote_ok in *.
  destruct (im_Remote image) as [remote|] eqn:Hrem; [|apply Hrest].
  destruct (vpc.dataSourceImageRemote env image) as [imageRemoteMap [e|]] eqn:Hconv.
  - apply returns_ret. split; [done |]. intros H. by specialize (H _ eq_refl).
  - destruct (Nat.ltb 0 (size imageRemoteMap)); apply Hrest.
Qed.

(** The loop body returns only if every pointer it dereferences is set. *)
Lemma info_complete image st :
  wp (vpc.imageList_info env meta image) (fun _ _ => complete image) st.
Proof.
  unfold vpc.imageList_info.
  apply wp_bind, wp_deref; intros name Hname.
  apply wp_bind, wp_deref; intros id Hid.
  apply wp_bind, wp_deref; intros status Hstatus.
  apply wp_bind, wp_deref; intros crn Hcrn.
  apply wp_bind, wp_deref; intros visibility Hvisibility.
  apply wp_bind, wp_deref; intros os Hos.
  apply wp_bind, wp_deref; intros osName HosName.
  apply wp_bind, wp_deref; intros os' Hos'.
  apply wp_bind, wp_deref; intros architecture Harchitecture.
  assert (os' = os) as -> by congruence.
  assert (Hreq : required_present image).
  { unfold required_present. rewrite Hname, Hid, Hstatus, Hcrn, Hvisibility, Hos.
    repeat split; by eexists. }
  cbv zeta. apply wp_bind.
  apply (wp_mono _ (fun _ _ =>
           forall file checksums,
             im_File image = Some file -> Checksums file = Some checksums ->
             is_Some (Sha256 checksums))).
  2:{ destruct (im_File image) as [file|] eqn:Hf; [|by apply wp_ret].
      destruct (Checksums file) as [checksums|] eqn:Hc.
      - apply wp_bind, wp_deref. intros sha Hsha. apply wp_ret.
        intros ? ? [= <-] Hc'. rewrite Hc in Hc'. injection Hc' as <-. by eexists.
      - apply wp_ret. intros ? ? [= <-] Hc'. congruence. }
  intros l1 st1 Hfile. apply wp_bind.
  apply (wp_mono _ (fun _ _ =>
           forall key, im_EncryptionKey image = Some key -> is_Some (ek_CRN key))).
  2:{ destruct (im_EncryptionKey image) as [key|] eqn:Hk; [|by apply wp_ret].
      apply wp_bind, wp_deref. intros c Hc. apply wp_ret.
      intros ? [= <-]. by eexists. }
  intros l2 st2 Hkey. apply wp_bind.
  apply (wp_mono _ (fun _ _ =>
           forall vol, im_SourceVolume image = Some vol -> is_Some (vol_ID vol))).
  2:{ destruct (im_SourceVolume image) as [vol|] eqn:Hv; [|by apply wp_ret].
      apply wp_bind, wp_deref. intros v Hv'. apply wp_ret.
      intros ? [= <-]. by eexists. }
  intros l3 st3 Hvol. by apply wp_const.
Qed.

(** The loop over the records returns when the records are complete. *)
Lemma infos_returns allrecs : forall imagesInfo st,
  Forall complete allrecs ->
  Forall (remote_ok env) allrecs ->
  returns (vpc.imageList_infos env meta allrecs imagesInfo)
          (fun x st' =>
             quiet st st' /\
             exists added, x = inr (imagesInfo ++ added)%list /\
                           length added = length allrecs) st.
Proof.
  induction allrecs as [|image rest IH]; intros imagesInfo st Hall Hrem;
    cbn [vpc.imageList_infos].
  - apply returns_ret. split; [done |]. exists []. by rewrite app_nil_r.
  - inversion Hall as [|? ? Hc Hall']; subst. inversion Hrem as [|? ? Hr Hrem']; subst.
    apply returns_bind. eapply returns_mono; [|apply (info_returns image st Hc)].
    intros x st1 [Hq Hx]. destruct (Hx Hr) as [l ->].
    eapply returns_mono; [|apply (IH _ st1 Hall' Hrem')].
    intros y st2 [Hq2 (added & -> & Hlen)]. split.
    + destruct Hq as (? & ? & ?), Hq2 as (? & ? & ?). repeat split; congruence.
    + exists (l :: added). split; [by rewrite <- app_assoc | cbn; congruence].
Qed.

End ImageRuns.

(** ** What [imageList] leaves behind *)

Section ImageListFrame.
Context {W : Type}.
Implicit Types st : St W.
Import vpcv1.

Lemma timeless_ret {A} (a : A) : timeless (ret (W := W) a).
Proof. intros st. by apply wp_ret. Qed.

Lemma timeless_bind {A B} (m : M W A) (f : A -> M W B) :
  timeless m -> (forall a, timeless (f a)) -> timeless (bind m f).
Proof.
  intros Hm Hf st. apply wp_bind. eapply wp_mono; [|apply Hm].
  intros a st1 H1. eapply wp_mono; [|apply Hf]. intros b st2 H2. cbv beta in *. congruence.
Qed.

Lemma timeless_deref {A} (p : option A) : timeless (deref (W := W) p).
Proof. intros st. by apply wp_deref. Qed.

Lemma timeless_effect {A} (op : W -> A * W) : timeless (effect op).
Proof. intros st. by apply wp_effect. Qed.

Lemma timeless_call {A} rq (op : W -> A * W) : timeless (call rq op).
Proof. intros st. by apply wp_call. Qed.

Variable env : vpc.ImagesEnv.

Lemma timeless_pages (sess : option (VpcV1 W)) fuel : forall opts start allrecs,
  timeless (vpc.imageList_pages env fuel sess opts start allrecs).
Proof.
  induction fuel as [|fuel IH]; intros opts start allrecs; [by intros st |].
  cbn [vpc.imageList_pages].
  apply timeless_bind; [apply timeless_deref |]. intros client.
  apply timeless_bind; [apply timeless_call |]. intros rep.
  destruct (vpcv1.err rep); [apply timeless_ret |].
  apply timeless_bind; [apply timeless_deref |]. intros availableImages. cbv zeta.
  destruct (String.eqb _ ""); [apply timeless_ret | apply IH].
Qed.

Lemma timeless_byStatus status allrecs : forall allrecsTemp,
  timeless (vpc.imageList_byStatus (W := W) status allrecs allrecsTemp).
Proof.
  induction allrecs as [|image rest IH]; intros allrecsTemp; cbn [vpc.imageList_byStatus].
  - apply timeless_ret.
  - apply timeless_bind; [apply timeless_deref |]. intros imageStatus.
    destruct (String.eqb status imageStatus); apply IH.
Qed.

Lemma timeless_byCatalogManaged catalogManaged allrecs : forall allrecsTemp,
  timeless (vpc.imageList_byCatalogManaged (W := W) catalogManaged allrecs allrecsTemp).
Proof.
  induction allrecs as [|image rest IH]; intros allrecsTemp;
    cbn [vpc.imageList_byCatalogManaged].
  - apply timeless_ret.
  - destruct (vpcv1.im_CatalogOffering image); [|apply IH].
    apply timeless_bind; [apply timeless_deref |]. intros managed.
    destruct (Bool.eqb catalogManaged managed); apply IH.
Qed.

Lemma timeless_filter status catalogManaged allrecs :
  timeless (vpc.imageList_filter (W := W) status catalogManaged allrecs).
Proof.
  unfold vpc.imageList_filter. apply timeless_bind.
  - destruct (negb _); [apply timeless_byStatus | apply timeless_ret].
  - intros recs.
    destruct catalogManaged; [apply timeless_byCatalogManaged | apply timeless_ret].
Qed.

Lemma timeless_info (meta : conns.ClientSession W) image :
  timeless (vpc.imageList_info env meta image).
Proof.
  unfold vpc.imageList_info.
  repeat first
    [ apply timeless_ret | apply timeless_deref | apply timeless_effect
    | apply timeless_bind; [|intros ?]
    | progress cbv zeta
    | match goal with
      | |- timeless (match ?x with _ => _ end) => destruct x
      | |- timeless (let '(_, _) := ?x in _) => destruct x
      end ].
Qed.

Lemma timeless_infos (meta : conns.ClientSession W) allrecs : forall imagesInfo,
  timeless (vpc.imageList_infos env meta allrecs imagesInfo).
Proof.
  induction allrecs as [|image rest IH]; intros imagesInfo; cbn [vpc.imageList_infos].
  - apply timeless_ret.
  - apply timeless_bind; [apply timeless_info |].
    intros [diags | l]; [apply timeless_ret | apply IH].
Qed.

(** A computation that is calm and timeless keeps the resource data and
    the clock. *)
Lemma wp_still {A} (m : M W A) (Q : A -> St W -> Prop) st :
  calm m -> timeless m ->
  (forall a st', st_d st' = st_d st -> st_now st' = st_now st -> Q a st') ->
  wp m Q st.
Proof.
  intros Hc Ht HQ. apply wp_intro. intros a st' E.
  pose proof (wp_elim _ _ _ _ _ (Ht st) E) as Hnow.
  specialize (Hc st). rewrite E in Hc. destruct Hc as [Hd _]. by apply HQ.
Qed.

Lemma imageList_outcome fuel (meta : conns.ClientSession W) st :
  wp (vpc.imageList env fuel meta)
     (fun res st' => st_now st' = st_now st /\
                     images_outcome env (st_d st) (st_now st) res (st_d st')) st.
Proof.
  unfold vpc.imageList, vpc.vpcClient.
  destruct (conns.VpcV1API meta) as [sess [e|]].
  { apply wp_ret. split; [done |]. by left. }
  apply wp_bind, wp_get_d. cbv zeta.
  apply wp_bind. apply wp_intro. intros pages st1 E1.
  pose proof (wp_elim _ _ _ _ _ (timeless_pages sess fuel _ _ _ st) E1) as Hn1.
  pose proof (wp_elim _ _ _ _ _ (pages_requests env sess fuel _ _ _ st) E1) as [Hd1 _].
  pose proof (wp_elim _ _ _ _ _ (pages_diags env sess fuel _ _ _ st) E1) as Hne1.
  destruct pages as [diags | allrecs].
  { apply wp_ret. split; [done |]. left. split; [by intros -> | done]. }
  apply wp_bind, wp_still; [apply calm_filter | apply timeless_filter |].
  intros filtered st2 Hd2 Hn2.
  apply wp_bind. apply wp_intro. intros infos st3 E3.
  pose proof (wp_elim _ _ _ _ _ (timeless_infos meta filtered [] st2) E3) as Hn3.
  pose proof (calm_infos env meta filtered [] st2) as Hc3. rewrite E3 in Hc3.
  destruct Hc3 as [Hd3 _].
  pose proof (wp_elim _ _ _ _ _ (infos_diags env meta filtered [] st2) E3) as Hne3.
  destruct infos as [diags | imagesInfo].
  { apply wp_ret. split; [congruence |]. left. split; [by intros -> | congruence]. }
  unfold vpc.dataSourceIBMISImagesID.
  apply wp_bind, wp_bind. unfold now at 1. apply wp_intro. intros t st4 [= <- <-].
  apply wp_ret.
  apply wp_bind, wp_modify_d.
  apply wp_bind, wp_d_Set. intros err st5 Hset.
  unfold d_Set, schema.Set_ in Hset. cbn in Hset.
  assert (Hn : st_now st3 = st_now st) by congruence.
  assert (Hd : st_d st3 = st_d st) by congruence.
  rewrite Hd, Hn in Hset.
  destruct (schema.rd_refuse (st_d st) "images") as [e|] eqn:Hrefuse;
    injection Hset as <- <-; apply wp_ret; (split; [done |]); right; (split; [done |]).
  - right. by exists e.
  - left. split; [done |]. by eexists.
Qed.

End ImageListFrame.

(** ** The list requests of [imageList] *)

Section ImagePages.
Context {W : Type}.
Implicit Types st : St W.
Import vpcv1.
Variable env : vpc.ImagesEnv.

Lemma SetStart_SetStart start start' opts :
  vpc.SetStart start' (vpc.SetStart start opts) = vpc.SetStart start' opts.
Proof. done. Qed.

(** Once a start token is set, every request of the pagination loop is the
    first one with another start token. *)
Lemma pages_later (sess : option (VpcV1 W)) opts fuel : forall start opts1 allrecs st,
  start <> "" ->
  vpc.SetStart start opts1 = vpc.SetStart start opts ->
  wp (vpc.imageList_pages env fuel sess opts1 start allrecs)
     (fun _ st' => exists reqs, issued st st' reqs /\ Forall (later_page opts) reqs) st.
Proof.
  induction fuel as [|fuel IH]; intros start opts1 allrecs st Hstart Hopts; [done |].
  cbn [vpc.imageList_pages].
  destruct (String.eqb_spec start "") as [? | _]; [done |]. cbn [negb]. rewrite Hopts.
  apply wp_bind, wp_deref. intros client _.
  apply wp_bind, wp_call. intros rep w' _.
  assert (Hone : exists reqs,
            issued st {| st_d := st_d st; st_world := w'; st_now := st_now st;
                         st_trace := (st_trace st ++
                                        [ReqListImages (vpc.SetStart start opts)])%list |} reqs /\
            Forall (later_page opts) reqs).
  { eexists. split; [reflexivity |]. constructor; [by exists start | constructor]. }
  destruct (vpcv1.err rep); [by apply wp_ret |].
  apply wp_bind, wp_deref. intros availableImages _. cbv zeta.
  destruct (String.eqb_spec (vpc.GetNext env (Next availableImages)) "") as [? | Hnext];
    [by apply wp_ret |].
  eapply wp_mono; [|apply (IH _ _ _ _ Hnext); apply SetStart_SetStart].
  intros ? st2 (reqs & Hq & HP). destruct Hone as (reqs1 & Hq1 & HP1).
  exists (reqs1 ++ reqs)%list. split; [|by apply Forall_app].
  unfold issued in *. by rewrite Hq, Hq1, app_assoc.
Qed.

(** The first request carries the options the loop is entered with. *)
Lemma pages_first (sess : option (VpcV1 W)) opts fuel allrecs st :
  wp (vpc.imageList_pages env fuel sess opts "" allrecs)
     (fun _ st' =>
        exists rest, issued st st' (ReqListImages opts :: rest) /\
                     Forall (later_page opts) rest) st.
Proof.
  destruct fuel as [|fuel]; [done |].
  cbn [vpc.imageList_pages String.eqb negb].
  apply wp_bind, wp_deref. intros client _.
  apply wp_bind, wp_call. intros rep w' _.
  destruct (vpcv1.err rep); [apply wp_ret; by exists [] |].
  apply wp_bind, wp_deref. intros availableImages _. cbv zeta.
  destruct (String.eqb_spec (vpc.GetNext env (Next availableImages)) "") as [? | Hnext];
    [apply wp_ret; by exists [] |].
  eapply wp_mono; [|apply (pages_later sess opts fuel _ _ _ _ Hnext eq_refl)].
  intros ? st2 (reqs & Hq & HP). exists reqs. split; [|exact HP].
  unfold issued in *. rewrite Hq. cbn. by rewrite <- app_assoc.
Qed.

Lemma imageList_pages_requests fuel (meta : conns.ClientSession W)
    (client : option (VpcV1 W)) st :
  conns.VpcV1API meta = (client, None) ->
  wp (vpc.imageList env fuel meta)
     (fun _ st' =>
        let opts := vpc.imageList_options env (st_d st) in
        exists rest, issued st st' (ReqListImages opts :: rest) /\
                     Forall (later_page opts) rest) st.
Proof.
  intros Hmeta. unfold vpc.imageList, vpc.vpcClient. rewrite Hmeta.
  apply wp_bind, wp_get_d. cbv zeta.
  apply wp_bind. eapply wp_mono; [|apply pages_first].
  intros pages st1 (rest & Hq & HP).
  assert (Hfin : forall st', st_trace st' = st_trace st1 ->
            exists rest,
              issued st st' (ReqListImages (vpc.imageList_options env (st_d st)) :: rest) /\
              Forall (later_page (vpc.imageList_options env (st_d st))) rest).
  { intros st' Ht. exists rest. split; [|exact HP]. unfold issued in *. congruence. }
  destruct pages as [diags | allrecs]; [by apply wp_ret, Hfin |].
  apply wp_bind, wp_calm; [apply calm_filter |]. intros filtered st2 Hd2 Ht2.
  apply wp_bind, wp_calm; [apply calm_infos |]. intros infos st3 Hd3 Ht3.
  destruct infos as [diags | imagesInfo]; [apply wp_ret, Hfin; congruence |].
  apply wp_bind, wp_calm; [apply calm_bind; [apply calm_now | intros; apply calm_ret] |].
  intros id st4 Hd4 Ht4.
  apply wp_bind, wp_modify_d.
  apply wp_bind, wp_d_Set. intros err st5 Hset.
  apply d_Set_frame in Hset. destruct Hset as (_ & _ & _ & Ht5). cbn in Ht5.
  destruct err; apply wp_ret, Hfin; congruence.
Qed.

(** A run of [imageList] over pages that end and records that are complete. *)
Lemma imageList_run (meta : conns.ClientSession W) (client : VpcV1 W) fuel st
    pages reqs w' :
  (forall next, vpc.GetNext env next = "" <-> next = None) ->
  conns.VpcV1API meta = (Some client, None) ->
  pages_run env client (vpc.imageList_options env (st_d st)) "" (st_world st) pages reqs w' ->
  (length pages <= fuel)%nat ->
  let status := status_arg env (st_d st) in
  let catalogManaged := catalog_managed_arg (st_d st) in
  let chosen := List.filter (selected status catalogManaged) (images_of pages) in
  (status <> "" -> Forall (fun image => is_Some (im_Status image)) (images_of pages)) ->
  (catalogManaged = true ->
   Forall managed_set (List.filter (by_status status) (images_of pages))) ->
  Forall complete chosen ->
  Forall (remote_ok env) chosen ->
  schema.rd_refuse (st_d st) "images" = None ->
  exists infos st',
    vpc.imageList env fuel meta st = Done ([], st') /\
    length infos = length chosen /\
    schema.rd_id (st_d st') = vpc.timeString env (st_now st) /\
    schema.rd_attrs (st_d st') = <["images" := vpc.flattened infos]> (schema.rd_attrs (st_d st)) /\
    st_now st' = st_now st /\
    issued st st' reqs.
Proof.
  intros HNext Hmeta Hpages Hfuel status catalogManaged chosen Hstatus Hmanaged Hcomplete
    Hremote Hrefuse.
  unfold vpc.imageList, vpc.vpcClient. rewrite Hmeta.
  unfold bind at 1, get_d at 1. cbv zeta.
  unfold bind at 1.
  rewrite (pages_run_loop env client HNext _ _ _ _ _ _ Hpages fuel [] st Hfuel eq_refl).
  cbn [app]. unfold bind at 1.
  fold (status_arg env (st_d st)). fold (catalog_managed_arg (st_d st)).
  fold status. fold catalogManaged.
  rewrite (filter_run status catalogManaged _ _ Hstatus Hmanaged). fold chosen.
  destruct (infos_returns env meta chosen [] (served st w' reqs) Hcomplete Hremote)
    as (x & st3 & E3 & (Hd3 & Hn3 & Ht3) & added & -> & Hlen).
  unfold bind at 1. rewrite E3. cbn [app].
  unfold vpc.dataSourceIBMISImagesID. unfold bind, now, ret, modify_d, d_Set, schema.Set_.
  cbn. rewrite Hd3. cbn. rewrite Hrefuse.
  exists added. eexists. split; [reflexivity |]. cbn.
  rewrite Hn3, Ht3. by repeat split.
Qed.

End ImagePages.

(** ** The writes of the Power data sources *)

Section PowerReads.
Context {W : Type}.
Implicit Types st : St W.
Import schema conns.

Lemma Set_refuse key v d : rd_refuse (fst (Set_ key v d)) = rd_refuse d.
Proof. unfold Set_. by destruct (rd_refuse d key). Qed.

Lemma store_all_stores writes : forall d, stores writes d (store_all writes d).
Proof.
  induction writes as [|[k v] writes IH]; intros d.
  - split; [done |]. split; [done |]. intros _ key w Hin. by apply elem_of_nil in Hin.
  - unfold store_all. cbn [fold_left fst snd]. fold (store_all writes (fst (Set_ k v d))).
    destruct (IH (fst (Set_ k v d))) as (Hid & Hkeep & Hnew).
    rewrite Set_refuse in Hkeep, Hnew.
    assert (Hstep : forall key, key <> k \/ is_Some (rd_refuse d key) ->
              rd_attrs (fst (Set_ k v d)) !! key = rd_attrs d !! key).
    { intros key Hkey. unfold Set_. destruct (rd_refuse d k) as [e|] eqn:Hk; [done |].
      cbn. destruct Hkey as [Hne | [e He]]; [by rewrite lookup_insert_ne |].
      destruct (decide (k = key)) as [-> | Hne]; [congruence | by rewrite lookup_insert_ne]. }
    split; [|split].
    + rewrite Hid. unfold Set_. by destruct (rd_refuse d k).
    + intros key Hkey. rewrite Hkeep.
      * apply Hstep. destruct Hkey as [Hnot | Hr]; [left | by right].
        intros ->. apply Hnot. cbn. apply elem_of_cons. by left.
      * destruct Hkey as [Hnot | Hr]; [left | by right].
        intros Hin. apply Hnot. cbn. apply elem_of_cons. by right.
    + intros Hnd key w Hin Hr. cbn in Hnd. apply NoDup_cons in Hnd as [Hk Hnd].
      apply elem_of_cons in Hin as [[= -> ->] | Hin].
      * rewrite Hkeep by (by left). unfold Set_. rewrite Hr. cbn.
        by rewrite lookup_insert_eq.
      * by apply Hnew.
Qed.

Lemma d_Set_then {A} key v (m : M W A) st :
  (d_Set key v >> m) st =
  m {| st_d := fst (Set_ key v (st_d st)); st_world := st_world st;
       st_now := st_now st; st_trace := st_trace st |}.
Proof. unfold bind, d_Set. by destruct (Set_ key v (st_d st)). Qed.

Variable names : power.Names.

Lemma PIKeyRead_run (meta : ClientSession W) (client : IBMPISession W) st key w' name :
  IBMPISession_ meta = (Some client, None) ->
  SSHKeyGet client (GetString (st_d st) (power.Arg_CloudInstanceID names))
    (GetString (st_d st) (power.PIKeyName names)) (st_world st) = ((Some key, None), w') ->
  k_Name key = Some name ->
  is_Some (k_CreationDate key) ->
  power.dataSourceIBMPIKeyRead names meta st =
  Done ([], {| st_d := store_all (key_writes names key) (SetId name (st_d st));
               st_world := w'; st_now := st_now st; st_trace := st_trace st |}).
Proof.
  intros Hmeta Hget Hname [date Hdate].
  unfold power.dataSourceIBMPIKeyRead. rewrite Hmeta.
  unfold bind at 1, get_d at 1. cbv zeta.
  unfold bind at 1. cbn [deref]. unfold ret at 1.
  unfold bind at 1, effect at 1. rewrite Hget.
  unfold bind at 1. cbn [deref]. unfold ret at 1.
  unfold bind at 1. rewrite Hname. cbn [deref]. unfold ret at 1.
  unfold bind at 1, modify_d at 1.
  unfold bind at 1. rewrite Hdate. cbn [deref]. unfold ret at 1.
  repeat (rewrite d_Set_then; cbn [st_d st_world st_now st_trace]).
  unfold ret, key_writes, store_all. cbn [fold_left fst snd of_ptr].
  by rewrite Hdate, Hname.
Qed.

Lemma PISPPPlacementGroupRead_run (meta : ClientSession W) (client : IBMPISession W) st
    group w1 id tags w2 :
  IBMPISession_ meta = (Some client, None) ->
  SPPPlacementGroupGet client (GetString (st_d st) (power.Arg_CloudInstanceID names))
    (GetString (st_d st) (power.Arg_SPPPlacementGroupID names)) (st_world st)
    = ((Some group, None), w1) ->
  pg_ID group = Some id ->
  (if String.eqb (pg_Crn group) "" then w2 = w1
   else exists e, GetGlobalTagsUsingCRN meta (pg_Crn group) (power.UserTagType names) w1
                  = ((tags, e), w2)) ->
  power.dataSourceIBMPISPPPlacementGroupRead names meta st =
  Done ([], {| st_d := store_all (group_writes names group tags) (SetId id (st_d st));
               st_world := w2; st_now := st_now st; st_trace := st_trace st |}).
Proof.
  intros Hmeta Hget Hid Htags.
  unfold power.dataSourceIBMPISPPPlacementGroupRead. rewrite Hmeta.
  unfold bind at 1, get_d at 1. cbv zeta.
  unfold bind at 1. cbn [deref]. unfold ret at 1.
  unfold bind at 1, effect at 1. rewrite Hget, Hid.
  unfold bind at 1. cbn [deref]. unfold ret at 1.
  unfold bind at 1, modify_d at 1.
  unfold group_writes.
  destruct (String.eqb (pg_Crn group) ""); cbn [negb].
  - subst w2. unfold bind at 1, ret at 1.
    by repeat (rewrite d_Set_then; cbn [st_d st_world st_now st_trace]).
  - destruct Htags as [e Htags].
    unfold bind at 1. rewrite d_Set_then.
    unfold bind at 1, effect at 1. cbn [st_world]. rewrite Htags.
    rewrite d_Set_then. unfold ret at 1.
    by repeat (rewrite d_Set_then; cbn [st_d st_world st_now st_trace]).
Qed.

End PowerReads.

(** ** Storing the same route twice *)

Section ReadTwice.
Context {W : Type}.
Implicit Types st : St W.

(** Attributes stored twice from the same route are stored once. *)
Lemma stored_twice s r route (m0 m1 m2 : gmap string schema.value) :
  stored s r route m0 m1 -> stored s r route m1 m2 -> m2 = m1.
Proof.
  intros (H1 & H2 & H3 & H4 & H5 & H6 & H7 & H8 & H9 & H10 & H11 & H12 & Hrest)
         (G1 & G2 & G3 & G4 & G5 & G6 & G7 & G8 & G9 & G10 & G11 & G12 & Grest).
  apply map_eq. intros key.
  destruct (decide (key ∈ read_keys)) as [Hin | Hnot]; [|by apply Grest].
  unfold read_keys in Hin.
  apply elem_of_cons in Hin as [-> | Hin]; [by rewrite G1, H1 |].
  apply elem_of_cons in Hin as [-> | Hin]; [by rewrite G2, H2 |].
  apply elem_of_cons in Hin as [-> | Hin]; [by rewrite G3, H3 |].
  apply elem_of_cons in Hin as [-> | Hin]; [by rewrite G4, H4 |].
  apply elem_of_cons in Hin as [-> | Hin]; [by rewrite G5, H5 |].
  apply elem_of_cons in Hin as [-> | Hin]; [by rewrite G6, H6 |].
  apply elem_of_cons in Hin as [-> | Hin]; [by rewrite G7, H7 |].
  apply elem_of_cons in Hin as [-> | Hin].
  { rewrite G11. destruct (vpcv1.HealthReasons route); [by rewrite H11 | done]. }
  apply elem_of_cons in Hin as [-> | Hin]; [by rewrite G8, H8 |].
  apply elem_of_cons in Hin as [-> | Hin]; [by rewrite G9, H9 |].
  apply elem_of_cons in Hin as [-> | Hin].
  { rewrite G12. destruct (vpcv1.LifecycleReasons route); [by rewrite H12 | done]. }
  apply elem_of_cons in Hin as [-> | Hin]; [by rewrite G10, H10 |].
  by apply elem_of_nil in Hin.
Qed.

Lemma resource_data_eq (d d' : schema.ResourceData) :
  schema.rd_id d' = schema.rd_id d ->
  schema.rd_attrs d' = schema.rd_attrs d ->
  schema.rd_changed d' = schema.rd_changed d ->
  schema.rd_timeout d' = schema.rd_timeout d ->
  schema.rd_refuse d' = schema.rd_refuse d ->
  d' = d.
Proof. destruct d, d'. cbn. by intros -> -> -> -> ->. Qed.

End ReadTwice.

(** ** The stable poll and a get request that fails *)

(** X3. The stable poll waits ten seconds between two get requests while the
    route is pending or updating, and ends at the first get request that
    fails, whatever the status of the failure, a 404 included: it returns
    the error of that request, prefixed, and has issued one get request for
    each reply and nothing else. *)
Theorem X3_stable_poll_ends_at_failed_get {W : Type} (client : vpcv1.VpcV1 W)
    (s r : string) (timeout : time.Duration) (st : St W)
    (pend : list (vpcv1.reply vpcv1.VPNServerRoute))
    (rep : vpcv1.reply vpcv1.VPNServerRoute) (w' : W) (e : error) :
  gostrings.Contains s "/" = false ->
  gostrings.Contains r "/" = false ->
  schema.rd_id (st_d st) = s +:+ "/" +:+ r ->
  answers (vpcv1.GetVPNServerRouteWithContext client
             {| vpcv1.g_VPNServerID := Some s; vpcv1.g_ID := Some r |})
          (pend ++ [rep]) (st_world st) w' ->
  Forall stable_pending pend ->
  vpcv1.err rep = Some e ->
  10 * time.Second * (Z.of_nat (length pend) + 1) < timeout ->
  vpc.isWaitForVPNServerRouteStable (Some client) timeout st =
  Done ((Some (vpcv1.result rep), Some (get_failed e)),
        after st w' (10 * time.Second * (Z.of_nat (length pend) + 1))
              (length pend + 1) (get_route s r)).
Proof.
  intros Hs Hr Hid Hans Hpend Herr Htime.
  exact (Stable_fails client s r Hs Hr timeout st pend rep w' e Hid Hans Hpend Herr Htime).
Qed.

(** The route is pending at the first poll and gone at the second. *)
Lemma X3_witness :
  let w := {| fixture.gets := [fixture.ok (fixture.route "rt-9" "pending"); fixture.notFound];
              fixture.pages := [] |} in
  let st := fixture.state (fixture.data "vs-1/rt-9" ∅) w in
  vpc.isWaitForVPNServerRouteStable (Some fixture.client) (10 * time.Minute) st =
  Done ((Some None, Some (get_failed "not found")),
        after st {| fixture.gets := []; fixture.pages := [] |} (20 * time.Second) 2
              (get_route "vs-1" "rt-9")).
Proof.
  intros w st.
  refine (X3_stable_poll_ends_at_failed_get fixture.client "vs-1" "rt-9" (10 * time.Minute) st
            [fixture.ok (fixture.route "rt-9" "pending")] fixture.notFound
            {| fixture.gets := []; fixture.pages := [] |} "not found"
            eq_refl eq_refl eq_refl _ _ eq_refl eq_refl).
  - repeat (econstructor; [reflexivity |]). constructor.
  - constructor; [|constructor]. left. split; [reflexivity |]. by eexists.
Defined.

(** ** The update handler *)

(** X4. When a get request of the poll fails after the update, also with a
    404, the update handler returns one problem for the action update
    whose summary names the poll and the failed request; it does not read
    the route, and it leaves the resource data, the ID included, as it was. *)
Theorem X4_update_reports_failed_get {W : Type} (meta : conns.ClientSession W)
    (client : vpcv1.VpcV1 W) (s r : string) (st : St W) (w0 : W)
    (pend : list (vpcv1.reply vpcv1.VPNServerRoute))
    (rep : vpcv1.reply vpcv1.VPNServerRoute) (w1 : W) (e : error) :
  conns.VpcV1API meta = (Some client, None) ->
  gostrings.Contains s "/" = false ->
  gostrings.Contains r "/" = false ->
  schema.rd_id (st_d st) = s +:+ "/" +:+ r ->
  update_accepted client s r st w0 ->
  answers (vpcv1.GetVPNServerRouteWithContext client
             {| vpcv1.g_VPNServerID := Some s; vpcv1.g_ID := Some r |})
          (pend ++ [rep]) w0 w1 ->
  Forall stable_pending pend ->
  vpcv1.err rep = Some e ->
  10 * time.Second * (Z.of_nat (length pend) + 1)
    < schema.Timeout (st_d st) schema.TimeoutUpdate ->
  vpc.resourceIBMIsVPNServerRouteUpdate meta st =
  Done (diag.GetDiag (flex.TerraformErrorf (get_failed e)
                        ("isWaitForVPNServerRouteStable failed: " +:+ get_failed e)
                        "ibm_is_vpn_server_route" "update"),
        after (served st w0 (update_request s r (st_d st))) w1
              (10 * time.Second * (Z.of_nat (length pend) + 1))
              (length pend + 1) (get_route s r)).
Proof.
  intros Hmeta Hs Hr Hid Hupd Hans Hpend Herr Htime.
  rewrite (Update_unfold meta client Hmeta s r Hs Hr st w0 Hid Hupd).
  unfold bind at 1.
  by rewrite (Stable_fails client s r Hs Hr _ (served st w0 (update_request s r (st_d st)))
                pend rep w1 e Hid Hans Hpend Herr Htime).
Qed.

(** An update that changes nothing, of a route that is gone. *)
Lemma X4_witness :
  let st := fixture.state (fixture.data "vs-1/rt-9" ∅)
              {| fixture.gets := []; fixture.pages := [] |} in
  exists st',
    vpc.resourceIBMIsVPNServerRouteUpdate fixture.meta st =
    Done (diag.GetDiag (flex.TerraformErrorf (get_failed "not found")
                          ("isWaitForVPNServerRouteStable failed: " +:+ get_failed "not found")
                          "ibm_is_vpn_server_route" "update"), st') /\
    st_d st' = st_d st.
Proof.
  intros st. eexists. split.
  - refine (X4_update_reports_failed_get fixture.meta fixture.client "vs-1" "rt-9" st
              {| fixture.gets := []; fixture.pages := [] |} [] fixture.notFound
              {| fixture.gets := []; fixture.pages := [] |} "not found"
              eq_refl eq_refl eq_refl eq_refl eq_refl _ (Forall_nil_2 _) eq_refl eq_refl).
    econstructor; [reflexivity | constructor].
  - reflexivity.
Defined.

(** X5. The update handler sends an update request only when the plan
    changes the name, and then one whose patch holds the new name and
    nothing else; every other request it issues, during the poll and the
    read, is a get request for the same route. *)
Theorem X5_update_requests {W : Type} (meta : conns.ClientSession W)
    (client : vpcv1.VpcV1 W) (s r : string) (st : St W)
    (res : diag.Diagnostics) (st' : St W) :
  conns.VpcV1API meta = (Some client, None) ->
  gostrings.Contains s "/" = false ->
  gostrings.Contains r "/" = false ->
  schema.rd_id (st_d st) = s +:+ "/" +:+ r ->
  vpc.resourceIBMIsVPNServerRouteUpdate meta st = Done (res, st') ->
  exists n, issued st st' (update_request s r (st_d st) ++ replicate n (get_route s r)).
Proof.
  intros Hmeta Hs Hr Hid E.
  exact (wp_elim _ _ _ _ _ (Update_requests s r Hs Hr meta client st Hmeta Hid) E).
Qed.

(** An update of the name, the route being stable at the first poll. *)
Lemma X5_witness :
  let d := {| schema.rd_id := "vs-1/rt-9";
              schema.rd_attrs := {[ "name" := schema.VStr "new-name" ]};
              schema.rd_changed := {[ "name" ]};
              schema.rd_timeout := vpc.DefaultTimeout;
              schema.rd_refuse := fun _ => None |} in
  let st := fixture.state d
              {| fixture.gets := [fixture.ok (fixture.route "rt-9" "stable");
                                  fixture.ok (fixture.route "rt-9" "stable")];
                 fixture.pages := [] |} in
  exists res st' n,
    vpc.resourceIBMIsVPNServerRouteUpdate fixture.meta st = Done (res, st') /\
    st_trace st' =
    ReqUpdate {| vpcv1.u_VPNServerID := Some "vs-1"; vpcv1.u_ID := Some "rt-9";
                 vpcv1.u_VPNServerRoutePatch := {[ "name" := schema.VStr "new-name" ]} |}
    :: replicate n (get_route "vs-1" "rt-9").
Proof.
  intros d st.
  destruct (vpc.resourceIBMIsVPNServerRouteUpdate fixture.meta st)
    as [[res st']| |] eqn:E; [| by vm_compute in E..].
  destruct (X5_update_requests fixture.meta fixture.client "vs-1" "rt-9" st res st'
              eq_refl eq_refl eq_refl eq_refl E) as [n Hn].
  exists res, st', n. split; [reflexivity | exact Hn].
Defined.

(** X6. An update whose request is accepted, whose poll sees the route
    pending or updating and then stable or failed within the update
    timeout, and whose final get request succeeds, returns no diagnostic:
    it has issued the update request, if any, and one get request for each
    reply; it ends ten seconds after each poll, and it has changed nothing
    but the attributes, which hold the route of the last reply. *)
Theorem X6_update_run {W : Type} (meta : conns.ClientSession W)
    (client : vpcv1.VpcV1 W) (s r : string) (st : St W) (w0 : W)
    (pend : list (vpcv1.reply vpcv1.VPNServerRoute))
    (rep final : vpcv1.reply vpcv1.VPNServerRoute) (route : vpcv1.VPNServerRoute) (w2 : W) :
  conns.VpcV1API meta = (Some client, None) ->
  gostrings.Contains s "/" = false ->
  gostrings.Contains r "/" = false ->
  schema.rd_id (st_d st) = s +:+ "/" +:+ r ->
  (forall key, schema.rd_refuse (st_d st) key = None) ->
  update_accepted client s r st w0 ->
  answers (vpcv1.GetVPNServerRouteWithContext client
             {| vpcv1.g_VPNServerID := Some s; vpcv1.g_ID := Some r |})
          (pend ++ [rep; final]) w0 w2 ->
  Forall stable_pending pend ->
  stable_target rep ->
  vpcv1.err final = None ->
  vpcv1.result final = Some route ->
  10 * time.Second * (Z.of_nat (length pend) + 1)
    < schema.Timeout (st_d st) schema.TimeoutUpdate ->
  exists st',
    vpc.resourceIBMIsVPNServerRouteUpdate meta st = Done ([], st') /\
    attrs_only (after (served st w0 (update_request s r (st_d st))) w2
                      (10 * time.Second * (Z.of_nat (length pend) + 1))
                      (length pend + 2) (get_route s r)) st' /\
    stored s r route (schema.rd_attrs (st_d st)) (schema.rd_attrs (st_d st')).
Proof.
  intros Hmeta Hs Hr Hid Hrefuse Hupd Hans Hpend Htarget Herr Hres Htime.
  rewrite (Update_unfold meta client Hmeta s r Hs Hr st w0 Hid Hupd).
  replace (pend ++ [rep; final])%list with ((pend ++ [rep]) ++ [final])%list in Hans
    by (by rewrite <- app_assoc).
  destruct (answers_app _ _ _ _ _ Hans) as (w1' & Hans1 & Hans2).
  inversion Hans2 as [|? ? ? ? ? Hget Hnil]; subst. inversion Hnil; subst.
  exact (poll_then_read meta client Hmeta s r Hs Hr
           (served st w0 (update_request s r (st_d st))) _ "update"
           pend rep w1' final route w2 Hid Hrefuse Hans1 Hpend Htarget Htime Hget Herr Hres).
Qed.

(** An update of the name: the route is updating, then stable. *)
Lemma X6_witness :
  let d := {| schema.rd_id := "vs-1/rt-9";
              schema.rd_attrs := {[ "name" := schema.VStr "new-name" ]};
              schema.rd_changed := {[ "name" ]};
              schema.rd_timeout := vpc.DefaultTimeout;
              schema.rd_refuse := fun _ => None |} in
  let w := {| fixture.gets := [fixture.ok (fixture.route "rt-9" "updating");
                               fixture.ok (fixture.route "rt-9" "stable");
                               fixture.ok (fixture.route "rt-9" "stable")];
              fixture.pages := [] |} in
  exists st',
    vpc.resourceIBMIsVPNServerRouteUpdate fixture.meta (fixture.state d w) = Done ([], st') /\
    st_now st' = 20 * time.Second /\
    schema.rd_attrs (st_d st') !! "lifecycle_state" = Some (schema.VStr "stable").
Proof.
  intros d w.
  destruct (X6_update_run fixture.meta fixture.client "vs-1" "rt-9" (fixture.state d w) w
              [fixture.ok (fixture.route "rt-9" "updating")]
              (fixture.ok (fixture.route "rt-9" "stable"))
              (fixture.ok (fixture.route "rt-9" "stable"))
              (fixture.route "rt-9" "stable")
              {| fixture.gets := []; fixture.pages := [] |}
              eq_refl eq_refl eq_refl eq_refl (fun _ => eq_refl))
    as (st' & E & Hframe & Hstored).
  - eexists. split; reflexivity.
  - repeat (econstructor; [reflexivity |]). constructor.
  - constructor; [|constructor]. right. split; [reflexivity |]. by eexists.
  - left. split; [reflexivity |]. by eexists.
  - reflexivity.
  - reflexivity.
  - reflexivity.
  - exists st'. split; [exact E |]. split.
    + destruct Hframe as (_ & _ & _ & _ & _ & Hnow & _). exact Hnow.
    + destruct Hstored as (_ & _ & _ & _ & _ & _ & _ & _ & Hstate & _). exact Hstate.
Defined.

(** ** The create handler *)

(** X7. The first request of the create handler is the create request: it
    carries the VPN server and the destination, and the action and the name
    only when they are set to something else than the empty string.  Every
    later request is a get request, and when the create request fails there
    is none, and the resource data is as it was. *)
Theorem X7_create_requests {W : Type} (meta : conns.ClientSession W)
    (client : vpcv1.VpcV1 W) (st : St W) (res : diag.Diagnostics) (st' : St W) :
  conns.VpcV1API meta = (Some client, None) ->
  vpc.resourceIBMIsVPNServerRouteCreate meta st = Done (res, st') ->
  exists gets,
    issued st st' (ReqCreate (create_options (st_d st)) :: gets) /\
    Forall is_get gets /\
    (is_Some (vpcv1.err (fst (vpcv1.CreateVPNServerRouteWithContext client
                                (create_options (st_d st)) (st_world st)))) ->
     gets = [] /\ st_d st' = st_d st).
Proof.
  intros Hmeta E. exact (wp_elim _ _ _ _ _ (Create_requests meta client st Hmeta) E).
Qed.

(** A create whose route is stable at the first poll; no action is set. *)
Lemma X7_witness :
  let d := fixture.data "" {[ "vpn_server" := schema.VStr "vs-1";
                              "destination" := schema.VStr "10.0.0.0/24";
                              "action" := schema.VStr "" ]} in
  let st := fixture.state d
              {| fixture.gets := [fixture.ok (fixture.route "r-1" "stable");
                                  fixture.ok (fixture.route "r-1" "stable")];
                 fixture.pages := [] |} in
  exists res st' gets,
    vpc.resourceIBMIsVPNServerRouteCreate fixture.meta st = Done (res, st') /\
    st_trace st' =
    ReqCreate {| vpcv1.c_VPNServerID := Some "vs-1";
                 vpcv1.c_Destination := Some "10.0.0.0/24";
                 vpcv1.c_Action := None; vpcv1.c_Name := None |} :: gets /\
    Forall is_get gets.
Proof.
  intros d st.
  destruct (vpc.resourceIBMIsVPNServerRouteCreate fixture.meta st)
    as [[res st']| |] eqn:E; [| by vm_compute in E..].
  destruct (X7_create_requests fixture.meta fixture.client st res st' eq_refl E)
    as (gets & Hq & Hgets & _).
  exists res, st', gets. split; [reflexivity |]. split; [exact Hq | exact Hgets].
Defined.

(** X8. Once the create request has succeeded, the create handler has set
    the ID to the VPN server and the ID of the new route, joined by a
    slash, and the ID stays whatever the poll and the read report; only a
    read that finds the route gone clears it, and then no diagnostic is
    returned. *)
Theorem X8_create_sets_id {W : Type} (meta : conns.ClientSession W)
    (client : vpcv1.VpcV1 W) (st : St W) (rep : vpcv1.reply vpcv1.VPNServerRoute) (w' : W)
    (route : vpcv1.VPNServerRoute) (rid : string) (res : diag.Diagnostics) (st' : St W) :
  conns.VpcV1API meta = (Some client, None) ->
  vpcv1.CreateVPNServerRouteWithContext client (create_options (st_d st)) (st_world st)
    = (rep, w') ->
  vpcv1.err rep = None ->
  vpcv1.result rep = Some route ->
  vpcv1.ID route = Some rid ->
  vpc.resourceIBMIsVPNServerRouteCreate meta st = Done (res, st') ->
  schema.rd_id (st_d st') = schema.GetString (st_d st) "vpn_server" +:+ "/" +:+ rid \/
  (res = [] /\ schema.rd_id (st_d st') = "").
Proof.
  intros Hmeta Hcall Herr Hres Hrid E.
  exact (wp_elim _ _ _ _ _
           (Create_id meta client st rep w' route rid Hmeta Hcall Herr Hres Hrid) E).
Qed.

(** A create whose poll times out: the route stays pending. *)
Lemma X8_witness :
  let d := {| schema.rd_id := "";
              schema.rd_attrs := {[ "vpn_server" := schema.VStr "vs-1" ]};
              schema.rd_changed := ∅;
              schema.rd_timeout := fun _ => 15 * time.Second;
              schema.rd_refuse := fun _ => None |} in
  let st := fixture.state d
              {| fixture.gets := [fixture.ok (fixture.route "r-1" "pending")];
                 fixture.pages := [] |} in
  exists p st',
    vpc.resourceIBMIsVPNServerRouteCreate fixture.meta st = Done ([diag.Problem p], st') /\
    schema.rd_id (st_d st') = "vs-1/r-1".
Proof.
  intros d st.
  destruct (vpc.resourceIBMIsVPNServerRouteCreate fixture.meta st)
    as [[res st']| |] eqn:E; [| by vm_compute in E..].
  assert (exists p, res = [diag.Problem p]) as [p ->]
    by (vm_compute in E; injection E as <- _; by eexists).
  exists p, st'. split; [reflexivity |].
  destruct (X8_create_sets_id fixture.meta fixture.client st
              (fixture.ok (fixture.route "r-1" "pending"))
              {| fixture.gets := [fixture.ok (fixture.route "r-1" "pending")];
                 fixture.pages := [] |}
              (fixture.route "r-1" "pending") "r-1" [diag.Problem p] st'
              eq_refl eq_refl eq_refl eq_refl eq_refl E) as [Hid | [Hres _]].
  - exact Hid.
  - discriminate Hres.
Defined.

(** X9. A create whose request succeeds, whose poll sees the new route
    pending or updating and then stable or failed within the create
    timeout, and whose final get request succeeds, returns no diagnostic:
    the ID is the VPN server and the ID of the new route, joined by a
    slash; the requests are the create request and one get request for each
    reply; the attributes hold the route of the last reply. *)
Theorem X9_create_run {W : Type} (meta : conns.ClientSession W)
    (client : vpcv1.VpcV1 W) (s r : string) (st : St W)
    (created_rep : vpcv1.reply vpcv1.VPNServerRoute) (w0 : W)
    (created_route : vpcv1.VPNServerRoute)
    (pend : list (vpcv1.reply vpcv1.VPNServerRoute))
    (rep final : vpcv1.reply vpcv1.VPNServerRoute) (route : vpcv1.VPNServerRoute) (w2 : W) :
  conns.VpcV1API meta = (Some client, None) ->
  gostrings.Contains s "/" = false ->
  gostrings.Contains r "/" = false ->
  schema.GetString (st_d st) "vpn_server" = s ->
  (forall key, schema.rd_refuse (st_d st) key = None) ->
  vpcv1.CreateVPNServerRouteWithContext client (create_options (st_d st)) (st_world st)
    = (created_rep, w0) ->
  vpcv1.err created_rep = None ->
  vpcv1.result created_rep = Some created_route ->
  vpcv1.ID created_route = Some r ->
  answers (vpcv1.GetVPNServerRouteWithContext client
             {| vpcv1.g_VPNServerID := Some s; vpcv1.g_ID := Some r |})
          (pend ++ [rep; final]) w0 w2 ->
  Forall stable_pending pend ->
  stable_target rep ->
  vpcv1.err final = None ->
  vpcv1.result final = Some route ->
  10 * time.Second * (Z.of_nat (length pend) + 1)
    < schema.Timeout (st_d st) schema.TimeoutCreate ->
  exists st',
    vpc.resourceIBMIsVPNServerRouteCreate meta st = Done ([], st') /\
    attrs_only (after (created st w0 (s +:+ "/" +:+ r)) w2
                      (10 * time.Second * (Z.of_nat (length pend) + 1))
                      (length pend + 2) (get_route s r)) st' /\
    stored s r route (schema.rd_attrs (st_d st)) (schema.rd_attrs (st_d st')).
Proof.
  intros Hmeta Hs Hr Hvs Hrefuse Hcall Hcerr Hcres Hcid Hans Hpend Htarget Herr Hres Htime.
  rewrite (Create_unfold meta client Hmeta s r st created_rep w0 created_route
             Hvs Hcall Hcerr Hcres Hcid).
  replace (pend ++ [rep; final])%list with ((pend ++ [rep]) ++ [final])%list in Hans
    by (by rewrite <- app_assoc).
  destruct (answers_app _ _ _ _ _ Hans) as (w1 & Hans1 & Hans2).
  inversion Hans2 as [|? ? ? ? ? Hget Hnil]; subst. inversion Hnil; subst.
  exact (poll_then_read meta client Hmeta _ r Hs Hr
           (created st w0 _) _ "create"
           pend rep w1 final route w2 eq_refl Hrefuse Hans1 Hpend Htarget Htime Hget Herr Hres).
Qed.

(** A create: the new route is pending, then stable. *)
Lemma X9_witness :
  let d := fixture.data "" {[ "vpn_server" := schema.VStr "vs-1";
                              "destination" := schema.VStr "10.0.0.0/24" ]} in
  let w := {| fixture.gets := [fixture.ok (fixture.route "r-1" "pending");
                               fixture.ok (fixture.route "r-1" "stable");
                               fixture.ok (fixture.route "r-1" "stable")];
              fixture.pages := [] |} in
  exists st',
    vpc.resourceIBMIsVPNServerRouteCreate fixture.meta (fixture.state d w) = Done ([], st') /\
    schema.rd_id (st_d st') = "vs-1/r-1" /\
    schema.rd_attrs (st_d st') !! "vpn_route" = Some (schema.VStr "r-1").
Proof.
  intros d w.
  destruct (X9_create_run fixture.meta fixture.client "vs-1" "r-1" (fixture.state d w)
              (fixture.ok (fixture.route "r-1" "pending")) w
              (fixture.route "r-1" "pending")
              [fixture.ok (fixture.route "r-1" "pending")]
              (fixture.ok (fixture.route "r-1" "stable"))
              (fixture.ok (fixture.route "r-1" "stable"))
              (fixture.route "r-1" "stable")
              {| fixture.gets := []; fixture.pages := [] |}
              eq_refl eq_refl eq_refl eq_refl (fun _ => eq_refl)
              eq_refl eq_refl eq_refl eq_refl)
    as (st' & E & Hframe & Hstored).
  - repeat (econstructor; [reflexivity |]). constructor.
  - constructor; [|constructor]. left. split; [reflexivity |]. by eexists.
  - left. split; [reflexivity |]. by eexists.
  - reflexivity.
  - reflexivity.
  - reflexivity.
  - exists st'. split; [exact E |]. split.
    + destruct Hframe as (Hid & _). exact Hid.
    + destruct Hstored as (_ & Hroute & _). exact Hroute.
Defined.

(** ** The delete handler *)

(** X10. The delete handler issues one delete request, first, for the
    route its ID names, and then only get requests for that route; when
    the delete request fails it issues no get request and leaves the
    resource data as it was. *)
Theorem X10_delete_requests {W : Type} (meta : conns.ClientSession W)
    (client : vpcv1.VpcV1 W) (s r : string) (st : St W)
    (res : diag.Diagnostics) (st' : St W) :
  conns.VpcV1API meta = (Some client, None) ->
  gostrings.Contains s "/" = false ->
  gostrings.Contains r "/" = false ->
  schema.rd_id (st_d st) = s +:+ "/" +:+ r ->
  vpc.resourceIBMIsVPNServerRouteDelete meta st = Done (res, st') ->
  exists n,
    issued st st' (delete_route s r :: replicate n (get_route s r)) /\
    (is_Some (snd (fst (vpcv1.DeleteVPNServerRouteWithContext client
                          {| vpcv1.d_VPNServerID := Some s; vpcv1.d_ID := Some r |}
                          (st_world st)))) ->
     n = 0%nat /\ st_d st' = st_d st).
Proof.
  intros Hmeta Hs Hr Hid E.
  exact (wp_elim _ _ _ _ _ (Delete_requests meta client s r st Hs Hr Hmeta Hid) E).
Qed.

(** A delete of a route that is gone at the first poll. *)
Lemma X10_witness :
  let st := fixture.state (fixture.data "vs-1/rt-9" ∅)
              {| fixture.gets := []; fixture.pages := [] |} in
  exists res st' n,
    vpc.resourceIBMIsVPNServerRouteDelete fixture.meta st = Done (res, st') /\
    st_trace st' = delete_route "vs-1" "rt-9" :: replicate n (get_route "vs-1" "rt-9").
Proof.
  intros st.
  destruct (vpc.resourceIBMIsVPNServerRouteDelete fixture.meta st)
    as [[res st']| |] eqn:E; [| by vm_compute in E..].
  destruct (X10_delete_requests fixture.meta fixture.client "vs-1" "rt-9" st res st'
              eq_refl eq_refl eq_refl eq_refl E) as (n & Hq & _).
  exists res, st', n. split; [reflexivity | exact Hq].
Defined.

(** X11. A delete whose request succeeds and whose poll sees the route in
    the state retry or deleting and then deleted, failed or gone (404)
    within the delete timeout returns no diagnostic and clears the ID; it
    has issued the delete request and one get request for each reply, ten
    seconds apart, and changed nothing else.  A route that reports the
    state failed is dropped in the same way as one that is gone. *)
Theorem X11_delete_run {W : Type} (meta : conns.ClientSession W)
    (client : vpcv1.VpcV1 W) (s r : string) (st : St W)
    (resp : option vpcv1.DetailedResponse) (w1 : W)
    (pend : list (vpcv1.reply vpcv1.VPNServerRoute))
    (rep : vpcv1.reply vpcv1.VPNServerRoute) (w' : W) :
  conns.VpcV1API meta = (Some client, None) ->
  gostrings.Contains s "/" = false ->
  gostrings.Contains r "/" = false ->
  schema.rd_id (st_d st) = s +:+ "/" +:+ r ->
  vpcv1.DeleteVPNServerRouteWithContext client
    {| vpcv1.d_VPNServerID := Some s; vpcv1.d_ID := Some r |} (st_world st)
    = ((resp, None), w1) ->
  answers (vpcv1.GetVPNServerRouteWithContext client
             {| vpcv1.g_VPNServerID := Some s; vpcv1.g_ID := Some r |})
          (pend ++ [rep]) w1 w' ->
  Forall deleted_pending pend ->
  deleted_target rep ->
  10 * time.Second * (Z.of_nat (length pend) + 1)
    < schema.Timeout (st_d st) schema.TimeoutDelete ->
  vpc.resourceIBMIsVPNServerRouteDelete meta st =
  Done ([], {| st_d := schema.SetId "" (st_d st);
               st_world := w';
               st_now := st_now st + 10 * time.Second * (Z.of_nat (length pend) + 1);
               st_trace := (st_trace st ++ delete_route s r ::
                              replicate (length pend + 1) (get_route s r))%list |}).
Proof.
  intros Hmeta Hs Hr Hid Hdel Hans Hpend Htarget Htime.
  exact (Delete_run meta client Hmeta s r Hs Hr st resp w1 pend rep w'
           Hid Hdel Hans Hpend Htarget Htime).
Qed.

(** A delete of a route that is deleting and then reports the state failed. *)
Lemma X11_witness :
  let w := {| fixture.gets := [fixture.ok (fixture.route "rt-9" "deleting");
                               fixture.ok (fixture.route "rt-9" "failed")];
              fixture.pages := [] |} in
  let d := fixture.data "vs-1/rt-9" ∅ in
  vpc.resourceIBMIsVPNServerRouteDelete fixture.meta (fixture.state d w) =
  Done ([], {| st_d := fixture.data "" ∅;
               st_world := {| fixture.gets := []; fixture.pages := [] |};
               st_now := 20 * time.Second;
               st_trace := [delete_route "vs-1" "rt-9"; get_route "vs-1" "rt-9";
                            get_route "vs-1" "rt-9"] |}).
Proof.
  intros w d.
  refine (X11_delete_run fixture.meta fixture.client "vs-1" "rt-9" (fixture.state d w)
            (Some {| vpcv1.StatusCode := 204 |}) w
            [fixture.ok (fixture.route "rt-9" "deleting")]
            (fixture.ok (fixture.route "rt-9" "failed"))
            {| fixture.gets := []; fixture.pages := [] |}
            eq_refl eq_refl eq_refl eq_refl eq_refl _ _ _ eq_refl).
  - repeat (econstructor; [reflexivity |]). constructor.
  - constructor; [|constructor]. right. split; [reflexivity |]. by eexists.
  - right. left. split; [reflexivity |]. by eexists.
Defined.

(** ** The images data source *)

(** X12. The two filters of [imageList] return when every record has its
    status, if the argument status is set, and every record that passes
    the status filter and has a catalog offering has its managed flag, if
    the argument catalog_managed is true; otherwise they panic.  They keep,
    in the order of the pages, the records with the given status and, for
    catalog_managed, a managed catalog offering.  An argument
    catalog_managed of false filters nothing. *)
Theorem X12_image_filters {W : Type} (status : string) (catalogManaged : bool)
    (allrecs : list vpcv1.Image) (st : St W) :
  let pointers :=
    (status <> "" -> Forall (fun image => is_Some (vpcv1.im_Status image)) allrecs) /\
    (catalogManaged = true ->
     Forall managed_set (List.filter (by_status status) allrecs)) in
  (pointers ->
   vpc.imageList_filter status catalogManaged allrecs st =
   Done (List.filter (selected status catalogManaged) allrecs, st)) /\
  (forall filtered st',
     vpc.imageList_filter status catalogManaged allrecs st = Done (filtered, st') ->
     pointers) /\
  ((status <> "" -> Forall (fun image => is_Some (vpcv1.im_Status image)) allrecs) ->
   vpc.imageList_filter status false allrecs st =
   Done (List.filter (by_status status) allrecs, st)).
Proof.
  intros pointers. subst pointers. split; [|split].
  - intros [Hstatus Hmanaged]. by apply filter_run.
  - intros filtered st' E.
    exact (wp_elim _ _ _ _ _ (filter_requires status catalogManaged allrecs st) E).
  - intros Hstatus. rewrite filter_run; [|exact Hstatus | by intros [=]].
    do 2 f_equal. apply filter_ext_bool. intros image.
    unfold selected. cbn [negb orb]. by rewrite andb_true_r.
Qed.

(** Two images, of which one is available. *)
Lemma X12_witness :
  let a := fixture.image "a" (Some fixture.linux) in
  let b := {| vpcv1.im_AllowedUse := None; vpcv1.im_CRN := None;
              vpcv1.im_CatalogOffering := None; vpcv1.im_Encryption := None;
              vpcv1.im_EncryptionKey := None; vpcv1.im_File := None;
              vpcv1.im_ID := None; vpcv1.im_Name := Some "b";
              vpcv1.im_OperatingSystem := None; vpcv1.im_Remote := None;
              vpcv1.im_ResourceGroup := None; vpcv1.im_SourceVolume := None;
              vpcv1.im_Status := Some "pending"; vpcv1.im_StatusReasons := [];
              vpcv1.im_UserDataFormat := None; vpcv1.im_Visibility := None |} in
  let st := fixture.state (fixture.data "" ∅) {| fixture.gets := []; fixture.pages := [] |} in
  vpc.imageList_filter "available" false [b; a; b] st = Done ([a], st).
Proof.
  intros a b st.
  refine (proj1 (X12_image_filters "available" false [b; a; b] st) _).
  split.
  - intros _. repeat constructor; by eexists.
  - intros [=].
Defined.

(** The images of the fixture have every pointer the loop dereferences. *)
Lemma fixture_image_complete name : complete (fixture.image name (Some fixture.linux)).
Proof.
  split; [|by repeat split].
  unfold required_present. cbn. repeat split; try by eexists.
Qed.

(** X13. The loop body of [imageList] returns for an image exactly when
    every pointer it dereferences is set: the name, the ID, the status, the
    CRN, the visibility, the operating system with its name and its
    architecture, and, for a file with checksums, an encryption key or a
    source volume, the SHA256 checksum, the CRN of the key and the ID of the
    volume.  Otherwise it panics.  It changes nothing but the cloud, and
    returns a map unless the remote of the image fails to convert. *)
Theorem X13_image_info_returns {W : Type} (env : vpc.ImagesEnv)
    (meta : conns.ClientSession W) (image : vpcv1.Image) (st : St W) :
  ((exists x st', vpc.imageList_info env meta image st = Done (x, st')) <-> complete image) /\
  (forall x st',
     vpc.imageList_info env meta image st = Done (x, st') ->
     quiet st st' /\ (remote_ok env image -> exists l, x = inr l)).
Proof.
  split; [split |].
  - intros (x & st' & E). exact (wp_elim _ _ _ _ _ (info_complete env meta image st) E).
  - intros Hc. destruct (info_returns env meta image st Hc) as (x & st' & E & _).
    by exists x, st'.
  - intros x st' E.
    pose proof (wp_elim _ _ _ _ _ (info_complete env meta image st) E) as Hc.
    destruct (info_returns env meta image st Hc) as (x' & st'' & E' & HQ).
    rewrite E in E'. injection E' as <- <-. exact HQ.
Qed.

(** An image with an operating system and no optional nested object. *)
Lemma X13_witness :
  let st := fixture.state (fixture.data "" ∅) {| fixture.gets := []; fixture.pages := [] |} in
  exists x st',
    vpc.imageList_info fixture.env fixture.meta (fixture.image "a" (Some fixture.linux)) st
    = Done (x, st').
Proof.
  intros st.
  refine (proj2 (proj1 (X13_image_info_returns fixture.env fixture.meta
                          (fixture.image "a" (Some fixture.linux)) st)) _).
  apply fixture_image_complete.
Defined.

(** X14. [imageList] never moves the clock.  When it returns a diagnostic
    before the records are converted — no client, a failed list request, a
    remote that fails to convert — the resource data is as it was.
    Otherwise the ID is the text of the current time, and the attribute
    images is stored, unless the schema refuses it: then the problem
    carries the label images-set and the attributes are as they were. *)
Theorem X14_imageList_outcome {W : Type} (env : vpc.ImagesEnv) (fuel : nat)
    (meta : conns.ClientSession W) (st : St W) (res : diag.Diagnostics) (st' : St W) :
  vpc.imageList env fuel meta st = Done (res, st') ->
  st_now st' = st_now st /\
  images_outcome env (st_d st) (st_now st) res (st_d st').
Proof.
  intros E. exact (wp_elim _ _ _ _ _ (imageList_outcome env fuel meta st) E).
Qed.

(** A list request that fails. *)
Lemma X14_witness :
  let st := fixture.state (fixture.data "" ∅) {| fixture.gets := []; fixture.pages := [] |} in
  exists res st',
    vpc.imageList fixture.env 1 fixture.meta st = Done (res, st') /\
    images_outcome fixture.env (st_d st) 0 res (st_d st').
Proof.
  intros st.
  destruct (vpc.imageList fixture.env 1 fixture.meta st) as [[res st']| |] eqn:E;
    [| by vm_compute in E..].
  exists res, st'. split; [reflexivity |].
  exact (proj2 (X14_imageList_outcome fixture.env 1 fixture.meta st res st' E)).
Defined.

(** X15. The first list request of [imageList] carries the options built
    from the arguments, without a start token; every later one carries the
    same options with the start token of the page before and nothing else
    changed, so that the filters are the same for all pages. *)
Theorem X15_list_requests {W : Type} (env : vpc.ImagesEnv) (fuel : nat)
    (meta : conns.ClientSession W) (client : option (vpcv1.VpcV1 W)) (st : St W)
    (res : diag.Diagnostics) (st' : St W) :
  conns.VpcV1API meta = (client, None) ->
  vpc.imageList env fuel meta st = Done (res, st') ->
  let opts := vpc.imageList_options env (st_d st) in
  vpcv1.l_Start opts = None /\
  exists rest,
    issued st st' (ReqListImages opts :: rest) /\
    Forall (later_page opts) rest.
Proof.
  intros Hmeta E opts. split; [done |].
  exact (wp_elim _ _ _ _ _ (imageList_pages_requests env fuel meta client st Hmeta) E).
Qed.

(** Two pages, listed with a filter on the name. *)
Lemma X15_witness :
  let a := fixture.image "a" (Some fixture.linux) in
  let w := {| fixture.gets := [];
              fixture.pages := [fixture.ok (fixture.page [a] (Some "p2"));
                                fixture.ok (fixture.page [a] None)] |} in
  let st := fixture.state (fixture.data "" {[ "name" := schema.VStr "a" ]}) w in
  exists res st' rest,
    vpc.imageList fixture.env 2 fixture.meta st = Done (res, st') /\
    st_trace st' = ReqListImages (vpc.imageList_options fixture.env (st_d st)) :: rest /\
    Forall (later_page (vpc.imageList_options fixture.env (st_d st))) rest.
Proof.
  intros a w st.
  destruct (vpc.imageList fixture.env 2 fixture.meta st) as [[res st']| |] eqn:E;
    [| by vm_compute in E..].
  destruct (X15_list_requests fixture.env 2 fixture.meta (Some fixture.client) st res st'
              eq_refl E) as (_ & rest & Hq & Hrest).
  exists res, st', rest. split; [reflexivity |]. split; [exact Hq | exact Hrest].
Defined.

(** X16. When the pages end within the fuel, every record the filters
    need has its pointers, the selected records are complete and their
    remotes convert, and the schema accepts the attribute images,
    [imageList] returns no diagnostic: it has issued the list requests of
    the pages and nothing else, the ID is the text of the current time, and
    the attribute images holds one map for each selected record. *)
Theorem X16_imageList_run {W : Type} (env : vpc.ImagesEnv) (meta : conns.ClientSession W)
    (client : vpcv1.VpcV1 W) (fuel : nat) (st : St W)
    (pages : list vpcv1.ImageCollection) (reqs : list Request) (w' : W) :
  (forall next, vpc.GetNext env next = "" <-> next = None) ->
  conns.VpcV1API meta = (Some client, None) ->
  pages_run env client (vpc.imageList_options env (st_d st)) "" (st_world st) pages reqs w' ->
  (length pages <= fuel)%nat ->
  let status := status_arg env (st_d st) in
  let catalogManaged := catalog_managed_arg (st_d st) in
  let chosen := List.filter (selected status catalogManaged) (images_of pages) in
  (status <> "" -> Forall (fun image => is_Some (vpcv1.im_Status image)) (images_of pages)) ->
  (catalogManaged = true ->
   Forall managed_set (List.filter (by_status status) (images_of pages))) ->
  Forall complete chosen ->
  Forall (remote_ok env) chosen ->
  schema.rd_refuse (st_d st) "images" = None ->
  exists infos st',
    vpc.imageList env fuel meta st = Done ([], st') /\
    length infos = length chosen /\
    schema.rd_id (st_d st') = vpc.timeString env (st_now st) /\
    schema.rd_attrs (st_d st') = <["images" := vpc.flattened infos]> (schema.rd_attrs (st_d st)) /\
    st_now st' = st_now st /\
    issued st st' reqs.
Proof.
  intros HNext Hmeta Hpages Hfuel status catalogManaged chosen.
  exact (imageList_run env meta client fuel st pages reqs w' HNext Hmeta Hpages Hfuel).
Qed.

(** One page with one image. *)
Lemma X16_witness :
  let a := fixture.image "a" (Some fixture.linux) in
  let w := {| fixture.gets := []; fixture.pages := [fixture.ok (fixture.page [a] None)] |} in
  let st := fixture.state (fixture.data "" ∅) w in
  exists infos st',
    vpc.imageList fixture.env 1 fixture.meta st = Done ([], st') /\
    length infos = 1%nat /\
    schema.rd_attrs (st_d st') !! "images" = Some (vpc.flattened infos).
Proof.
  intros a w st.
  destruct (X16_imageList_run fixture.env fixture.meta fixture.client 1 st
              [fixture.page [a] None]
              [ReqListImages (vpc.imageList_options fixture.env (st_d st))]
              {| fixture.gets := []; fixture.pages := [] |}
              fixture_GetNext_spec eq_refl)
    as (infos & st' & E & Hlen & _ & Hattrs & _).
  - eapply (pages_last fixture.env fixture.client _ "" _ (fixture.ok (fixture.page [a] None)));
      reflexivity.
  - cbn. lia.
  - intros H. by destruct H.
  - intros [=].
  - constructor; [apply fixture_image_complete | constructor].
  - constructor; [|constructor]. intros remote [=].
  - reflexivity.
  - exists infos, st'. split; [exact E |]. split; [exact Hlen |].
    rewrite Hattrs. by rewrite lookup_insert_eq.
Defined.

(** ** The Power data sources *)

(** X17. When the key is found and has its name and its creation date,
    [dataSourceIBMPIKeyRead] returns no diagnostic whatever the schema
    refuses: the ID is the name of the key, and the seven attributes are
    written, an attribute the schema refuses being left as it was. *)
Theorem X17_pi_key_read {W : Type} (names : power.Names) (meta : conns.ClientSession W)
    (client : conns.IBMPISession W) (st : St W) (key : conns.SSHKey) (w' : W)
    (name : string) :
  conns.IBMPISession_ meta = (Some client, None) ->
  conns.SSHKeyGet client (schema.GetString (st_d st) (power.Arg_CloudInstanceID names))
    (schema.GetString (st_d st) (power.PIKeyName names)) (st_world st)
    = ((Some key, None), w') ->
  conns.k_Name key = Some name ->
  is_Some (conns.k_CreationDate key) ->
  exists st',
    power.dataSourceIBMPIKeyRead names meta st = Done ([], st') /\
    schema.rd_id (st_d st') = name /\
    st_world st' = w' /\
    stores (key_writes names key) (schema.SetId name (st_d st)) (st_d st').
Proof.
  intros Hmeta Hget Hname Hdate.
  rewrite (PIKeyRead_run names meta client st key w' name Hmeta Hget Hname Hdate).
  eexists. split; [reflexivity |]. cbn [st_d st_world].
  pose proof (store_all_stores (key_writes names key) (schema.SetId name (st_d st))) as H.
  split; [exact (proj1 H) | by split].
Qed.

(** The key of the fixture; the schema refuses the description. *)
Lemma X17_witness :
  let d := refusing "description" "bad type" (fixture.data "" ∅) in
  let st := fixture.state d {| fixture.gets := []; fixture.pages := [] |} in
  exists st',
    power.dataSourceIBMPIKeyRead fixture.names powerFixture.meta st = Done ([], st') /\
    schema.rd_id (st_d st') = "my-key" /\
    schema.rd_attrs (st_d st') !! "ssh_key_id" = Some (schema.VStr "key-1") /\
    schema.rd_attrs (st_d st') !! "description" = None.
Proof.
  intros d st.
  destruct (X17_pi_key_read fixture.names powerFixture.meta powerFixture.session st
              powerFixture.key {| fixture.gets := []; fixture.pages := [] |} "my-key"
              eq_refl eq_refl eq_refl (ex_intro _ _ eq_refl))
    as (st' & E & Hid & _ & _ & Hkeep & Hnew).
  exists st'. split; [exact E |]. split; [exact Hid |]. split.
  - apply Hnew; [by compute_done | | reflexivity].
    by apply (list_elem_of_lookup_2 _ 5%nat).
  - rewrite Hkeep; [reflexivity |]. right. by eexists.
Defined.

(** X18. When the placement group is found and has its ID,
    [dataSourceIBMPISPPPlacementGroupRead] returns no diagnostic whatever
    the schema refuses, and the ID is the ID of the group.  With an empty
    CRN it asks for no tags and writes neither the CRN nor the user tags;
    otherwise it writes the CRN and the tags the tagging service answers,
    also when that service reports an error.  A response without group
    and without error is reported as a plain diagnostic. *)
Theorem X18_pi_spp_placement_group_read {W : Type} (names : power.Names)
    (meta : conns.ClientSession W) (client : conns.IBMPISession W) (st : St W) :
  conns.IBMPISession_ meta = (Some client, None) ->
  let get :=
    conns.SPPPlacementGroupGet client
      (schema.GetString (st_d st) (power.Arg_CloudInstanceID names))
      (schema.GetString (st_d st) (power.Arg_SPPPlacementGroupID names)) (st_world st) in
  (forall group w1 id tags w2,
     get = ((Some group, None), w1) ->
     conns.pg_ID group = Some id ->
     (if String.eqb (conns.pg_Crn group) "" then w2 = w1
      else exists e,
             conns.GetGlobalTagsUsingCRN meta (conns.pg_Crn group) (power.UserTagType names) w1
             = ((tags, e), w2)) ->
     exists st',
       power.dataSourceIBMPISPPPlacementGroupRead names meta st = Done ([], st') /\
       schema.rd_id (st_d st') = id /\
       st_world st' = w2 /\
       stores (group_writes names group tags) (schema.SetId id (st_d st)) (st_d st')) /\
  (forall w1,
     get = ((None, None), w1) ->
     power.dataSourceIBMPISPPPlacementGroupRead names meta st =
     Done ([diag.Plain "error fetching the spp placement group: <nil>"],
           {| st_d := st_d st; st_world := w1; st_now := st_now st;
              st_trace := st_trace st |})).
Proof.
  intros Hmeta get. subst get. split.
  - intros group w1 id tags w2 Hget Hid Htags.
    rewrite (PISPPPlacementGroupRead_run names meta client st group w1 id tags w2
               Hmeta Hget Hid Htags).
    eexists. split; [reflexivity |]. cbn [st_d st_world].
    pose proof (store_all_stores (group_writes names group tags)
                  (schema.SetId id (st_d st))) as H.
    split; [exact (proj1 H) | by split].
  - intros w1 Hget. unfold power.dataSourceIBMPISPPPlacementGroupRead. rewrite Hmeta.
    unfold bind at 1, get_d at 1. cbv zeta.
    unfold bind at 1. cbn [deref]. unfold ret at 1.
    unfold bind at 1, effect at 1. by rewrite Hget.
Qed.

(** The placement group of the fixture, which has no CRN. *)
Lemma X18_witness :
  let st := fixture.state (fixture.data "" {[ "crn" := schema.VStr "old" ]})
              {| fixture.gets := []; fixture.pages := [] |} in
  exists st',
    power.dataSourceIBMPISPPPlacementGroupRead fixture.names powerFixture.meta st
    = Done ([], st') /\
    schema.rd_id (st_d st') = "pg-1" /\
    schema.rd_attrs (st_d st') !! "policy" = Some (schema.VStr "affinity") /\
    schema.rd_attrs (st_d st') !! "crn" = Some (schema.VStr "old").
Proof.
  intros st.
  destruct (proj1 (X18_pi_spp_placement_group_read fixture.names powerFixture.meta
                     powerFixture.session st eq_refl)
              powerFixture.group {| fixture.gets := []; fixture.pages := [] |} "pg-1"
              schema.VNil {| fixture.gets := []; fixture.pages := [] |}
              eq_refl eq_refl eq_refl)
    as (st' & E & Hid & _ & _ & Hkeep & Hnew).
  exists st'. split; [exact E |]. split; [exact Hid |]. split.
  - apply Hnew; [by compute_done | | reflexivity].
    by apply (list_elem_of_lookup_2 _ 2%nat).
  - rewrite Hkeep; [reflexivity |]. left. unfold group_writes. cbn.
    intros H. repeat (apply elem_of_cons in H as [[=] | H]). by apply elem_of_nil in H.
Defined.

(** ** Reading twice *)

(** X19. The read handler is idempotent: a second read that gets the same
    route from the cloud returns no diagnostic either and leaves the
    resource data exactly as the first read left it. *)
Theorem X19_read_twice {W : Type} (meta : conns.ClientSession W)
    (client : vpcv1.VpcV1 W) (s r : string) (st : St W)
    (rep1 rep2 : vpcv1.reply vpcv1.VPNServerRoute) (route : vpcv1.VPNServerRoute)
    (w1 w2 : W) :
  conns.VpcV1API meta = (Some client, None) ->
  gostrings.Contains s "/" = false ->
  gostrings.Contains r "/" = false ->
  schema.rd_id (st_d st) = s +:+ "/" +:+ r ->
  (forall key, schema.rd_refuse (st_d st) key = None) ->
  answers (vpcv1.GetVPNServerRouteWithContext client
             {| vpcv1.g_VPNServerID := Some s; vpcv1.g_ID := Some r |})
          [rep1; rep2] (st_world st) w2 ->
  vpcv1.err rep1 = None -> vpcv1.result rep1 = Some route ->
  vpcv1.err rep2 = None -> vpcv1.result rep2 = Some route ->
  exists st1 st2,
    vpc.resourceIBMIsVPNServerRouteRead meta st = Done ([], st1) /\
    vpc.resourceIBMIsVPNServerRouteRead meta st1 = Done ([], st2) /\
    st_d st2 = st_d st1 /\
    st_world st2 = w2.
Proof.
  intros Hmeta Hs Hr Hid Hrefuse Hans Herr1 Hres1 Herr2 Hres2.
  inversion Hans as [|? ? w1' ? ? Hget1 Hans']; subst.
  inversion Hans' as [|? ? ? ? ? Hget2 Hnil]; subst. inversion Hnil; subst.
  destruct (Read_stores meta client s r st rep1 route w1' Hmeta Hs Hr Hid Hget1 Herr1 Hres1
              Hrefuse) as (st1 & E1 & F1 & S1).
  destruct F1 as (Hi1 & Hc1 & Ht1 & Hr1 & Hw1 & Hn1 & Hq1). cbn in Hi1, Hr1, Hw1.
  assert (Hid1 : schema.rd_id (st_d st1) = s +:+ "/" +:+ r) by congruence.
  assert (Hrefuse1 : forall key, schema.rd_refuse (st_d st1) key = None)
    by (intros key; by rewrite Hr1).
  rewrite <- Hw1 in Hget2.
  destruct (Read_stores meta client s r st1 rep2 route w2 Hmeta Hs Hr Hid1 Hget2 Herr2 Hres2
              Hrefuse1) as (st2 & E2 & F2 & S2).
  destruct F2 as (Hi2 & Hc2 & Ht2 & Hr2 & Hw2 & _). cbn in Hi2, Hc2, Ht2, Hr2, Hw2.
  exists st1, st2. split; [exact E1 |]. split; [exact E2 |]. split; [|exact Hw2].
  apply resource_data_eq; try done.
  exact (stored_twice s r route _ _ _ S1 S2).
Qed.

(** Two reads of a stable route. *)
Lemma X19_witness :
  let w := {| fixture.gets := [fixture.ok (fixture.route "rt-9" "stable");
                               fixture.ok (fixture.route "rt-9" "stable")];
              fixture.pages := [] |} in
  let st := fixture.state (fixture.data "vs-1/rt-9" ∅) w in
  exists st1 st2,
    vpc.resourceIBMIsVPNServerRouteRead fixture.meta st = Done ([], st1) /\
    vpc.resourceIBMIsVPNServerRouteRead fixture.meta st1 = Done ([], st2) /\
    st_d st2 = st_d st1.
Proof.
  intros w st.
  destruct (X19_read_twice fixture.meta fixture.client "vs-1" "rt-9" st
              (fixture.ok (fixture.route "rt-9" "stable"))
              (fixture.ok (fixture.route "rt-9" "stable"))
              (fixture.route "rt-9" "stable") w
              {| fixture.gets := []; fixture.pages := [] |}
              eq_refl eq_refl eq_refl eq_refl (fun _ => eq_refl))
    as (st1 & st2 & E1 & E2 & Hd & _).
  - repeat (econstructor; [reflexivity |]). constructor.
  - reflexivity.
  - reflexivity.
  - reflexivity.
  - reflexivity.
  - exists st1, st2. split; [exact E1 |]. split; [exact E2 | exact Hd].
Defined.

(** ** An ID that does not parse *)

(** X20. When the ID of the resource does not split into its two parts, the
    read, update and delete handlers issue no request and leave the
    resource data as it is.  The read handler returns the error of the
    split as a plain diagnostic; the update and delete handlers wrap it
    into a problem for their action with the sub-step label sep-id-parts. *)
Theorem X20_id_does_not_parse {W : Type} (meta : conns.ClientSession W)
    (client : option (vpcv1.VpcV1 W)) (st : St W) (parts : list string) (e : error) :
  conns.VpcV1API meta = (client, None) ->
  flex.SepIdParts (schema.rd_id (st_d st)) "/" = (parts, Some e) ->
  vpc.resourceIBMIsVPNServerRouteRead meta st = Done ([diag.Plain e], st) /\
  vpc.resourceIBMIsVPNServerRouteUpdate meta st =
    Done ([diag.Problem {| flex.Summary := e; flex.Resource := "ibm_is_vpn_server_route";
                           flex.Operation := "update";
                           flex.Component := "sep-id-parts" |}], st) /\
  vpc.resourceIBMIsVPNServerRouteDelete meta st =
    Done ([diag.Problem {| flex.Summary := e; flex.Resource := "ibm_is_vpn_server_route";
                           flex.Operation := "delete";
                           flex.Component := "sep-id-parts" |}], st).
Proof.
  intros Hmeta Hparts.
  unfold vpc.resourceIBMIsVPNServerRouteRead, vpc.resourceIBMIsVPNServerRouteUpdate,
    vpc.resourceIBMIsVPNServerRouteDelete, vpc.vpcClient.
  rewrite Hmeta. unfold bind, get_d, schema.Id. by rewrite Hparts.
Qed.

(** An ID without a slash. *)
Lemma X20_witness :
  let st := fixture.state (fixture.data "rt-9" ∅)
              {| fixture.gets := [fixture.ok (fixture.route "rt-9" "stable")];
                 fixture.pages := [] |} in
  vpc.resourceIBMIsVPNServerRouteRead fixture.meta st =
  Done ([diag.Plain "The given id rt-9 does not contain the separator"], st).
Proof.
  intros st.
  exact (proj1 (X20_id_does_not_parse fixture.meta (Some fixture.client) st []
                  "The given id rt-9 does not contain the separator" eq_refl eq_refl)).
Defined.
